(** * Skyline Maxwell 3D engine: packed pipeline state and command dispatcher

    A shallow embedding of
    - [gpu/interconnect/maxwell_3d/pipeline_state.cpp] (packed state setters,
      enum conversions, the render-target, depth-stencil, rasterization,
      colour blend and vertex input translators),
    - [soc/gm20b/engines/maxwell_3d.cpp] (register bundles, the method
      dispatcher with its shadow RAM, batch constant-buffer and deferred-draw
      layers, and the entry points around it), and
    - [services/spl/IRandomInterface.cpp] (the random byte service),
    followed by the properties of the specification, and further properties
    of the code, proved over it.

    Conventions.  Machine integers are [Z] with the wrap-around written out
    ([u8], [u32], [u64]).  A C++ exception is a result value carrying the
    state reached when it was thrown.  Calls into collaborators (interconnect,
    dirty manager, logger, texture manager, GMMU) are recorded as events in
    call order. *)

From Stdlib Require Import ZArith List String Bool Lia.
From stdpp Require Import list.
Import ListNotations.

Local Open Scope string_scope.
Local Open Scope list_scope.
Local Open Scope Z_scope.

(** ** Machine integers *)

Definition u8 (x : Z) : Z := x mod 2 ^ 8.
Definition u32 (x : Z) : Z := x mod 2 ^ 32.
Definition u64 (x : Z) : Z := x mod 2 ^ 64.

(** ** C++ control flow

    A statement run on a state [S] completes normally, leaves the enclosing
    [switch] ([break]), leaves the function ([return]) or throws.  The state
    is the one reached at that point: assignments made before a [throw]
    stay made. *)

Inductive Completion (S : Type) : Type :=
| Normal (s : S)
| Break (s : S)
| Return (s : S)
| Throw (s : S) (what : string).

Arguments Normal {S} s.
Arguments Break {S} s.
Arguments Return {S} s.
Arguments Throw {S} s what.

Definition completion_state {S} (c : Completion S) : S :=
  match c with
  | Normal s | Break s | Return s | Throw s _ => s
  end.

Definition throws {S} (c : Completion S) : bool :=
  match c with
  | Throw _ _ => true
  | _ => false
  end.

(** A [switch] body is the list of its labelled statements in source order;
    [None] is the [default:] label.  Control jumps to the statement whose
    label equals the scrutinee (to [default:] when none does) and then runs
    the statements that follow IN ORDER until one of them does not complete
    normally: a case without [break] or [return] falls through into the next
    one. *)

Section Switch.
Context {L S : Type} (eqb : L -> L -> bool).

Definition Case : Type := option L * (S -> Completion S).

Fixpoint run_from (body : list Case) (s : S) : Completion S :=
  match body with
  | [] => Normal s
  | (_, stmt) :: rest =>
      match stmt s with
      | Normal s' => run_from rest s'
      | c => c
      end
  end.

Fixpoint jump_to (hit : option L -> bool) (body : list Case) : option (list Case) :=
  match body with
  | [] => None
  | c :: rest => if hit (fst c) then Some (c :: rest) else jump_to hit rest
  end.

Definition is_label (v : L) (l : option L) : bool :=
  match l with
  | Some l' => eqb v l'
  | None => false
  end.

Definition is_default (l : option L) : bool :=
  match l with
  | Some _ => false
  | None => true
  end.

(** The completion of the whole [switch] statement: [break] ends the
    switch normally, [return] and [throw] propagate. *)
Definition switch (v : L) (body : list Case) (s : S) : Completion S :=
  let entry :=
    match jump_to (is_label v) body with
    | Some suffix => Some suffix
    | None => jump_to is_default body
    end in
  match entry with
  | None => Normal s
  | Some suffix =>
      match run_from suffix s with
      | Break s' => Normal s'
      | c => c
      end
  end.
End Switch.

(** A function body that ran to its end, or returned, has returned. *)
Definition returned {S} (c : Completion S) : Completion S :=
  match c with
  | Normal s | Break s => Return s
  | c' => c'
  end.

(** Results of value-returning functions that may throw. *)
Inductive Result (A : Type) : Type :=
| Ok (a : A)
| Exception (what : string).

Arguments Ok {A} a.
Arguments Exception {A} what.

(** ** Vulkan enumerations and flags written into the packed state *)

Module vk.
Inductive PolygonMode := pmFill | pmLine | pmPoint.

Inductive StencilOp :=
| eKeep | eZero | eReplace | eIncrementAndClamp | eDecrementAndClamp
| eInvert | eIncrementAndWrap | eDecrementAndWrap.

(** [vk::CompareOp] is produced by a [static_cast] from an integer. *)
Definition CompareOp := Z.

Inductive ImageViewType := e2D | e2DArray.
End vk.

(** [VkCullModeFlagBits] of vulkan_core.h. *)
Definition VK_CULL_MODE_FRONT_BIT : Z := 1.
Definition VK_CULL_MODE_BACK_BIT : Z := 2.

(** ** Engine-side (Maxwell) enumerations and register structures

    The enumerations are declared in [soc/gm20b/engines/maxwell/types.h],
    which is not among the sources.  A register can hold any bit pattern, so
    each enumeration has its named enumerators and one more constructor for
    every other value. *)

Module engine.
Inductive PolygonMode :=
| PolygonMode_Point | PolygonMode_Line | PolygonMode_Fill
| PolygonMode_other (raw : Z).

Inductive CullFace :=
| CullFace_Front | CullFace_Back | CullFace_FrontAndBack
| CullFace_other (raw : Z).

Definition PolygonMode_eqb (a b : PolygonMode) : bool :=
  match a, b with
  | PolygonMode_Point, PolygonMode_Point
  | PolygonMode_Line, PolygonMode_Line
  | PolygonMode_Fill, PolygonMode_Fill => true
  | PolygonMode_other x, PolygonMode_other y => x =? y
  | _, _ => false
  end.

Definition CullFace_eqb (a b : CullFace) : bool :=
  match a, b with
  | CullFace_Front, CullFace_Front
  | CullFace_Back, CullFace_Back
  | CullFace_FrontAndBack, CullFace_FrontAndBack => true
  | CullFace_other x, CullFace_other y => x =? y
  | _, _ => false
  end.

(** [StencilOps::Op]: the sixteen enumerators the conversion switch names. *)
Inductive StencilOp :=
| OglZero | D3DZero | D3DKeep | OglKeep | D3DReplace | OglReplace
| D3DIncrSat | OglIncrSat | D3DDecrSat | OglDecrSat | D3DInvert | OglInvert
| D3DIncr | OglIncr | D3DDecr | OglDecr
| StencilOp_other (raw : Z).

(** [CompareFunc] is compared by magnitude, so it is kept as its
    underlying [u32]. *)
Definition CompareFunc := Z.

Record StencilOps := {
  fail : StencilOp;
  zFail : StencilOp;
  zPass : StencilOp;
  func : CompareFunc
}.
End engine.

Module ColorTarget.
(** [engine::ColorTarget::Format]: [Disabled] and the enumerators named
    by [ConvertColorRenderTargetFormat]. *)
Inductive Format :=
| Disabled
| RF32_GF32_BF32_AF32 | RS32_GS32_BS32_AS32 | RU32_GU32_BU32_AU32
| RF32_GF32_BF32_X32 | RS32_GS32_BS32_X32 | RU32_GU32_BU32_X32
| R16_G16_B16_A16 | RN16_GN16_BN16_AN16 | RS16_GS16_BS16_AS16
| RU16_GU16_BU16_AU16 | RF16_GF16_BF16_AF16
| RF32_GF32 | RS32_GS32 | RU32_GU32
| RF16_GF16_BF16_X16
| A8R8G8B8 | A8RL8GL8BL8 | A2B10G10R10 | AU2BU10GU10RU10
| A8B8G8R8 | A8BL8GL8RL8 | AN8BN8GN8RN8 | AS8BS8GS8RS8
| R16_G16 | RN16_GN16 | RS16_GS16 | RU16_GU16 | RF16_GF16
| A2R10G10B10 | BF10GF11RF11
| RS32 | RU32 | RF32
| X8R8G8B8 | X8RL8GL8BL8
| R5G6B5 | A1R5G5B5
| G8R8 | GN8RN8 | GS8RS8 | GU8RU8
| R16 | RN16 | RS16 | RU16 | RF16
| R8 | RN8 | RS8 | RU8
| X1R5G5B5 | X8B8G8R8 | X8BL8GL8RL8
| Z1R5G5B5 | O1R5G5B5 | Z8R8G8B8 | O8R8G8B8
| Format_other (raw : Z).

Definition is_Disabled (f : Format) : bool :=
  match f with
  | Disabled => true
  | _ => false
  end.

Inductive Layout := BlockLinear | Pitch.
Inductive ThirdDimensionControl :=
| ThirdDimensionDefinesArraySize | ThirdDimensionDefinesDepthSize.

(** [engine::TargetMemory]; [BlockHeight] and [BlockDepth] stand for the
    results of the member functions of those names. *)
Record TargetMemory := {
  layout : Layout;
  thirdDimensionControl : ThirdDimensionControl;
  BlockHeight : Z;
  BlockDepth : Z
}.

(** [engine::ColorTarget], the register group of one colour target;
    [ArrayPitch] stands for the result of [ArrayPitch()]. *)
Record t := {
  offset : Z;
  width : Z;
  height : Z;
  format : Format;
  memory : TargetMemory;
  thirdDimension : Z;
  ArrayPitch : Z;
  layerOffset : Z
}.
End ColorTarget.

Module Zt.
(** [engine::ZtFormat]. *)
Inductive Format :=
| Z16 | Z24S8 | X8Z24 | S8Z24 | S8 | ZF32 | ZF32_X24S8
| Format_other (raw : Z).

Inductive Control :=
| ThirdDimensionDefinesArraySize | ArraySizeIsOne | Control_other (raw : Z).

Record Size := {
  width : Z;
  height : Z;
  thirdDimension : Z;
  control : Control
}.

Record BlockSize := { BlockHeight : Z; BlockDepth : Z }.
End Zt.

(** ** Host texture formats and guest texture descriptors *)

Module texture.
(** The [skyline::gpu::format] constants the two conversion tables name. *)
Inductive Format :=
| R32G32B32A32Float | R32G32B32A32Sint | R32G32B32A32Uint
| R16G16B16A16Unorm | R16G16B16A16Snorm | R16G16B16A16Sint
| R16G16B16A16Uint | R16G16B16A16Float
| R32G32Float | R32G32Sint | R32G32Uint
| B8G8R8A8Unorm | B8G8R8A8Srgb
| A2B10G10R10Unorm | A2B10G10R10Uint
| R8G8B8A8Unorm | R8G8B8A8Srgb | R8G8B8A8Snorm | R8G8B8A8Sint
| R16G16Unorm | R16G16Snorm | R16G16Sint | R16G16Uint | R16G16Float
| B10G11R11Float
| R32Sint | R32Uint | R32Float
| R5G6B5Unorm | A1R5G5B5Unorm
| R8G8Unorm | R8G8Snorm | R8G8Sint | R8G8Uint
| R16Unorm | R16Snorm | R16Sint | R16Uint | R16Float
| R8Unorm | R8Snorm | R8Sint | R8Uint
| D16Unorm | S8UintD24Unorm | D24UnormX8Uint | D24UnormS8Uint
| S8Uint | D32Float | D32FloatS8Uint.

Inductive TileConfig :=
| Linear
| Block (blockHeight blockDepth : Z).

Record Dimensions := { dim_width : Z; dim_height : Z; dim_depth : Z }.
End texture.

(** [GuestTexture], the descriptor a view is looked up by. *)
Record GuestTexture := {
  guest_format : option texture.Format;
  guest_aspect : Z;
  guest_baseArrayLayer : Z;
  guest_layerCount : Z;
  guest_viewType : vk.ImageViewType;
  guest_dimensions : texture.Dimensions;
  guest_tileConfig : texture.TileConfig;
  guest_layerStride : Z;
  guest_mappings : list (Z * Z)
}.

(** [vk::ImageAspectFlagBits::eColor]. *)
Definition eColor : Z := 1.

(** ** pipeline_state.cpp: the packed state *)

Module PackedPipelineState.
(** [PackedPipelineState::StencilOps]. *)
Record StencilOps := {
  zPass : vk.StencilOp;
  fail : vk.StencilOp;
  zFail : vk.StencilOp;
  func : vk.CompareOp
}.

(** The members of [PackedPipelineState] written by the functions
    embedded below. *)
Record t := {
  colorRenderTargetFormats : list Z;
  depthRenderTargetFormat : Z;
  polygonMode : vk.PolygonMode;
  cullMode : Z;
  depthFunc : vk.CompareOp;
  stencilFront : StencilOps;
  stencilBack : StencilOps;
  depthTestEnable : bool;
  depthWriteEnable : bool;
  depthBoundsTestEnable : bool;
  stencilTestEnable : bool
}.

Definition set_colorRenderTargetFormats v (p : t) : t :=
  {| colorRenderTargetFormats := v;
     depthRenderTargetFormat := depthRenderTargetFormat p;
     polygonMode := polygonMode p; cullMode := cullMode p;
     depthFunc := depthFunc p;
     stencilFront := stencilFront p; stencilBack := stencilBack p;
     depthTestEnable := depthTestEnable p;
     depthWriteEnable := depthWriteEnable p;
     depthBoundsTestEnable := depthBoundsTestEnable p;
     stencilTestEnable := stencilTestEnable p |}.

Definition set_depthRenderTargetFormat v (p : t) : t :=
  {| colorRenderTargetFormats := colorRenderTargetFormats p;
     depthRenderTargetFormat := v;
     polygonMode := polygonMode p; cullMode := cullMode p;
     depthFunc := depthFunc p;
     stencilFront := stencilFront p; stencilBack := stencilBack p;
     depthTestEnable := depthTestEnable p;
     depthWriteEnable := depthWriteEnable p;
     depthBoundsTestEnable := depthBoundsTestEnable p;
     stencilTestEnable := stencilTestEnable p |}.

Definition set_polygonMode v (p : t) : t :=
  {| colorRenderTargetFormats := colorRenderTargetFormats p;
     depthRenderTargetFormat := depthRenderTargetFormat p;
     polygonMode := v; cullMode := cullMode p;
     depthFunc := depthFunc p;
     stencilFront := stencilFront p; stencilBack := stencilBack p;
     depthTestEnable := depthTestEnable p;
     depthWriteEnable := depthWriteEnable p;
     depthBoundsTestEnable := depthBoundsTestEnable p;
     stencilTestEnable := stencilTestEnable p |}.

Definition set_cullMode v (p : t) : t :=
  {| colorRenderTargetFormats := colorRenderTargetFormats p;
     depthRenderTargetFormat := depthRenderTargetFormat p;
     polygonMode := polygonMode p; cullMode := v;
     depthFunc := depthFunc p;
     stencilFront := stencilFront p; stencilBack := stencilBack p;
     depthTestEnable := depthTestEnable p;
     depthWriteEnable := depthWriteEnable p;
     depthBoundsTestEnable := depthBoundsTestEnable p;
     stencilTestEnable := stencilTestEnable p |}.

Definition set_depthFunc v (p : t) : t :=
  {| colorRenderTargetFormats := colorRenderTargetFormats p;
     depthRenderTargetFormat := depthRenderTargetFormat p;
     polygonMode := polygonMode p; cullMode := cullMode p;
     depthFunc := v;
     stencilFront := stencilFront p; stencilBack := stencilBack p;
     depthTestEnable := depthTestEnable p;
     depthWriteEnable := depthWriteEnable p;
     depthBoundsTestEnable := depthBoundsTestEnable p;
     stencilTestEnable := stencilTestEnable p |}.

Definition set_stencilFront v (p : t) : t :=
  {| colorRenderTargetFormats := colorRenderTargetFormats p;
     depthRenderTargetFormat := depthRenderTargetFormat p;
     polygonMode := polygonMode p; cullMode := cullMode p;
     depthFunc := depthFunc p;
     stencilFront := v; stencilBack := stencilBack p;
     depthTestEnable := depthTestEnable p;
     depthWriteEnable := depthWriteEnable p;
     depthBoundsTestEnable := depthBoundsTestEnable p;
     stencilTestEnable := stencilTestEnable p |}.

Definition set_stencilBack v (p : t) : t :=
  {| colorRenderTargetFormats := colorRenderTargetFormats p;
     depthRenderTargetFormat := depthRenderTargetFormat p;
     polygonMode := polygonMode p; cullMode := cullMode p;
     depthFunc := depthFunc p;
     stencilFront := stencilFront p; stencilBack := v;
     depthTestEnable := depthTestEnable p;
     depthWriteEnable := depthWriteEnable p;
     depthBoundsTestEnable := depthBoundsTestEnable p;
     stencilTestEnable := stencilTestEnable p |}.

Definition set_depthTestEnable (v : bool) (p : t) : t :=
  {| colorRenderTargetFormats := colorRenderTargetFormats p;
     depthRenderTargetFormat := depthRenderTargetFormat p;
     polygonMode := polygonMode p;
     cullMode := cullMode p;
     depthFunc := depthFunc p;
     stencilFront := stencilFront p;
     stencilBack := stencilBack p;
     depthTestEnable := v;
     depthWriteEnable := depthWriteEnable p;
     depthBoundsTestEnable := depthBoundsTestEnable p;
     stencilTestEnable := stencilTestEnable p |}.

Definition set_depthWriteEnable (v : bool) (p : t) : t :=
  {| colorRenderTargetFormats := colorRenderTargetFormats p;
     depthRenderTargetFormat := depthRenderTargetFormat p;
     polygonMode := polygonMode p;
     cullMode := cullMode p;
     depthFunc := depthFunc p;
     stencilFront := stencilFront p;
     stencilBack := stencilBack p;
     depthTestEnable := depthTestEnable p;
     depthWriteEnable := v;
     depthBoundsTestEnable := depthBoundsTestEnable p;
     stencilTestEnable := stencilTestEnable p |}.

Definition set_depthBoundsTestEnable (v : bool) (p : t) : t :=
  {| colorRenderTargetFormats := colorRenderTargetFormats p;
     depthRenderTargetFormat := depthRenderTargetFormat p;
     polygonMode := polygonMode p;
     cullMode := cullMode p;
     depthFunc := depthFunc p;
     stencilFront := stencilFront p;
     stencilBack := stencilBack p;
     depthTestEnable := depthTestEnable p;
     depthWriteEnable := depthWriteEnable p;
     depthBoundsTestEnable := v;
     stencilTestEnable := stencilTestEnable p |}.

Definition set_stencilTestEnable (v : bool) (p : t) : t :=
  {| colorRenderTargetFormats := colorRenderTargetFormats p;
     depthRenderTargetFormat := depthRenderTargetFormat p;
     polygonMode := polygonMode p;
     cullMode := cullMode p;
     depthFunc := depthFunc p;
     stencilFront := stencilFront p;
     stencilBack := stencilBack p;
     depthTestEnable := depthTestEnable p;
     depthWriteEnable := depthWriteEnable p;
     depthBoundsTestEnable := depthBoundsTestEnable p;
     stencilTestEnable := v |}.
End PackedPipelineState.

Import PackedPipelineState.

(** A call made from a statement sequence: a callee that threw ends the
    caller too, otherwise the caller goes on from the callee's state. *)
Definition call {S} (c : Completion S) (k : S -> Completion S) : Completion S :=
  match c with
  | Throw s what => Throw s what
  | Normal s | Break s | Return s => k s
  end.

Definition bind_result {A B} (r : Result A) (k : A -> Result B) : Result B :=
  match r with
  | Ok a => k a
  | Exception what => Exception what
  end.

Section PackedStateSetters.
(** Underlying values of enumerators of types.h that the code casts or
    compares: the numeric value of a colour or depth format, and the four
    [CompareFunc] bounds. *)
Variable ColorFormat_value : ColorTarget.Format -> Z.
Variable ZtFormat_value : Zt.Format -> Z.
Variables D3DNever D3DAlways OglNever OglAlways : Z.

Definition SetColorRenderTargetFormat (index : nat) (format : ColorTarget.Format)
    (p : t) : t :=
  set_colorRenderTargetFormats
    (<[index := u8 (ColorFormat_value format)]> (colorRenderTargetFormats p)) p.

Definition SetDepthRenderTargetFormat (format : Zt.Format) (p : t) : t :=
  set_depthRenderTargetFormat
    (u8 (ZtFormat_value format) - u8 (ZtFormat_value Zt.ZF32)) p.

(** The cases of the switch in [SetPolygonMode], in source order.  None
    of the three named cases ends in [break] or [return]. *)
Definition SetPolygonMode_cases : list (@Case engine.PolygonMode t) :=
  [ (Some engine.PolygonMode_Fill, fun p => Normal (set_polygonMode vk.pmFill p));
    (Some engine.PolygonMode_Line, fun p => Normal (set_polygonMode vk.pmLine p));
    (Some engine.PolygonMode_Point, fun p => Normal (set_polygonMode vk.pmPoint p));
    (None, fun p => Throw p "Invalid polygon mode: 0x{:X}") ].

Definition SetPolygonMode (mode : engine.PolygonMode) (p : t) : Completion t :=
  returned (switch engine.PolygonMode_eqb mode SetPolygonMode_cases p).

Definition SetCullMode_cases : list (@Case engine.CullFace t) :=
  [ (Some engine.CullFace_Front,
      fun p => Normal (set_cullMode VK_CULL_MODE_FRONT_BIT p));
    (Some engine.CullFace_Back,
      fun p => Normal (set_cullMode VK_CULL_MODE_BACK_BIT p));
    (Some engine.CullFace_FrontAndBack,
      fun p => Normal (set_cullMode
                         (Z.lor VK_CULL_MODE_FRONT_BIT VK_CULL_MODE_BACK_BIT) p));
    (None, fun p => Throw p "Invalid cull mode: 0x{:X}") ].

Definition SetCullMode (enable : bool) (mode : engine.CullFace) (p : t)
    : Completion t :=
  if negb enable then Return (set_cullMode 0 p)
  else returned (switch engine.CullFace_eqb mode SetCullMode_cases p).

Definition ConvertCompareFunc (func : engine.CompareFunc) : Result vk.CompareOp :=
  if (func <? D3DNever) || (func >? OglAlways)
     || ((func >? D3DAlways) && (func <? OglNever))
  then Exception "Invalid comparision function: 0x{:X}"
  else
    let val := u32 func in
    Ok (if func >=? OglNever then u32 (val - 0x200) else u32 (val - 1)).

Definition SetDepthFunc (func : engine.CompareFunc) (p : t) : Completion t :=
  match ConvertCompareFunc func with
  | Ok op => Return (set_depthFunc op p)
  | Exception what => Throw p what
  end.

Definition ConvertStencilOp (op : engine.StencilOp) : Result vk.StencilOp :=
  match op with
  | engine.OglZero | engine.D3DZero => Ok vk.eZero
  | engine.D3DKeep | engine.OglKeep => Ok vk.eKeep
  | engine.D3DReplace | engine.OglReplace => Ok vk.eReplace
  | engine.D3DIncrSat | engine.OglIncrSat => Ok vk.eIncrementAndClamp
  | engine.D3DDecrSat | engine.OglDecrSat => Ok vk.eDecrementAndClamp
  | engine.D3DInvert | engine.OglInvert => Ok vk.eInvert
  | engine.D3DIncr | engine.OglIncr => Ok vk.eIncrementAndWrap
  | engine.D3DDecr | engine.OglDecr => Ok vk.eDecrementAndWrap
  | engine.StencilOp_other _ => Exception "Invalid stencil operation: 0x{:X}"
  end.

(** The initialisers are evaluated in the order they are written. *)
Definition PackStencilOps (ops : engine.StencilOps) : Result StencilOps :=
  bind_result (ConvertStencilOp (engine.zPass ops)) (fun zp =>
  bind_result (ConvertStencilOp (engine.fail ops)) (fun f =>
  bind_result (ConvertStencilOp (engine.zFail ops)) (fun zf =>
  bind_result (ConvertCompareFunc (engine.func ops)) (fun fn =>
  Ok {| zPass := zp; fail := f; zFail := zf; func := fn |})))).

Definition SetStencilOps (front back : engine.StencilOps) (p : t) : Completion t :=
  match PackStencilOps front with
  | Exception what => Throw p what
  | Ok f =>
      let p1 := set_stencilFront f p in
      match PackStencilOps back with
      | Exception what => Throw p1 what
      | Ok b => Return (set_stencilBack b p1)
      end
  end.
End PackedStateSetters.

(** ** pipeline_state.cpp: the leaf state translators *)

(** Calls a translator makes into its collaborators while flushing. *)
Inductive TranslatorCall :=
| Logger_Warn (message : string)
| Gmmu_TranslateRange (address size : Z)
| TextureManager_FindOrCreate (guest : GuestTexture).

Module DepthRenderTargetState.
(** [DepthRenderTargetState::EngineRegisters]. *)
Record EngineRegisters := {
  ztSize : Zt.Size;
  ztOffset : Z;
  ztFormat : Zt.Format;
  ztBlockSize : Zt.BlockSize;
  ztArrayPitch : Z;
  ztSelect_targetCount : Z;
  ztLayer_offset : Z
}.
End DepthRenderTargetState.

Module DepthStencilState.
(** [DepthStencilState::EngineRegisters]. *)
Record EngineRegisters := {
  depthTestEnable : bool;
  depthWriteEnable : bool;
  depthFunc : engine.CompareFunc;
  depthBoundsTestEnable : bool;
  stencilTestEnable : bool;
  twoSidedStencilTestEnable : bool;
  stencilOps : engine.StencilOps;
  stencilBack : engine.StencilOps
}.
End DepthStencilState.

Definition FORMAT_CASE (skFormat : texture.Format)
    : list TranslatorCall * Result texture.Format :=
  ([], Ok skFormat).

Definition FORMAT_CASE_WARN (engineFormat : string) (skFormat : texture.Format)
    : list TranslatorCall * Result texture.Format :=
  ([Logger_Warn ("Partially supported RT format: " ++ engineFormat ++ " used!")%string],
   Ok skFormat).

Definition ConvertColorRenderTargetFormat (format : ColorTarget.Format)
    : list TranslatorCall * Result texture.Format :=
  match format with
  | ColorTarget.RF32_GF32_BF32_AF32 => FORMAT_CASE texture.R32G32B32A32Float
  | ColorTarget.RS32_GS32_BS32_AS32 => FORMAT_CASE texture.R32G32B32A32Sint
  | ColorTarget.RU32_GU32_BU32_AU32 => FORMAT_CASE texture.R32G32B32A32Uint
  | ColorTarget.RF32_GF32_BF32_X32 =>
      FORMAT_CASE_WARN "RF32_GF32_BF32_X32" texture.R32G32B32A32Float
  | ColorTarget.RS32_GS32_BS32_X32 =>
      FORMAT_CASE_WARN "RS32_GS32_BS32_X32" texture.R32G32B32A32Sint
  | ColorTarget.RU32_GU32_BU32_X32 =>
      FORMAT_CASE_WARN "RU32_GU32_BU32_X32" texture.R32G32B32A32Uint
  | ColorTarget.R16_G16_B16_A16 => FORMAT_CASE texture.R16G16B16A16Unorm
  | ColorTarget.RN16_GN16_BN16_AN16 => FORMAT_CASE texture.R16G16B16A16Snorm
  | ColorTarget.RS16_GS16_BS16_AS16 => FORMAT_CASE texture.R16G16B16A16Sint
  | ColorTarget.RU16_GU16_BU16_AU16 => FORMAT_CASE texture.R16G16B16A16Uint
  | ColorTarget.RF16_GF16_BF16_AF16 => FORMAT_CASE texture.R16G16B16A16Float
  | ColorTarget.RF32_GF32 => FORMAT_CASE texture.R32G32Float
  | ColorTarget.RS32_GS32 => FORMAT_CASE texture.R32G32Sint
  | ColorTarget.RU32_GU32 => FORMAT_CASE texture.R32G32Uint
  | ColorTarget.RF16_GF16_BF16_X16 =>
      FORMAT_CASE_WARN "RF16_GF16_BF16_X16" texture.R16G16B16A16Float
  | ColorTarget.A8R8G8B8 => FORMAT_CASE texture.B8G8R8A8Unorm
  | ColorTarget.A8RL8GL8BL8 => FORMAT_CASE texture.B8G8R8A8Srgb
  | ColorTarget.A2B10G10R10 => FORMAT_CASE texture.A2B10G10R10Unorm
  | ColorTarget.AU2BU10GU10RU10 => FORMAT_CASE texture.A2B10G10R10Uint
  | ColorTarget.A8B8G8R8 => FORMAT_CASE texture.R8G8B8A8Unorm
  | ColorTarget.A8BL8GL8RL8 => FORMAT_CASE texture.R8G8B8A8Srgb
  | ColorTarget.AN8BN8GN8RN8 => FORMAT_CASE texture.R8G8B8A8Snorm
  | ColorTarget.AS8BS8GS8RS8 => FORMAT_CASE texture.R8G8B8A8Sint
  | ColorTarget.R16_G16 => FORMAT_CASE texture.R16G16Unorm
  | ColorTarget.RN16_GN16 => FORMAT_CASE texture.R16G16Snorm
  | ColorTarget.RS16_GS16 => FORMAT_CASE texture.R16G16Sint
  | ColorTarget.RU16_GU16 => FORMAT_CASE texture.R16G16Uint
  | ColorTarget.RF16_GF16 => FORMAT_CASE texture.R16G16Float
  | ColorTarget.A2R10G10B10 => FORMAT_CASE texture.A2B10G10R10Unorm
  | ColorTarget.BF10GF11RF11 => FORMAT_CASE texture.B10G11R11Float
  | ColorTarget.RS32 => FORMAT_CASE texture.R32Sint
  | ColorTarget.RU32 => FORMAT_CASE texture.R32Uint
  | ColorTarget.RF32 => FORMAT_CASE texture.R32Float
  | ColorTarget.X8R8G8B8 => FORMAT_CASE_WARN "X8R8G8B8" texture.B8G8R8A8Unorm
  | ColorTarget.X8RL8GL8BL8 => FORMAT_CASE_WARN "X8RL8GL8BL8" texture.B8G8R8A8Srgb
  | ColorTarget.R5G6B5 => FORMAT_CASE texture.R5G6B5Unorm
  | ColorTarget.A1R5G5B5 => FORMAT_CASE texture.A1R5G5B5Unorm
  | ColorTarget.G8R8 => FORMAT_CASE texture.R8G8Unorm
  | ColorTarget.GN8RN8 => FORMAT_CASE texture.R8G8Snorm
  | ColorTarget.GS8RS8 => FORMAT_CASE texture.R8G8Sint
  | ColorTarget.GU8RU8 => FORMAT_CASE texture.R8G8Uint
  | ColorTarget.R16 => FORMAT_CASE texture.R16Unorm
  | ColorTarget.RN16 => FORMAT_CASE texture.R16Snorm
  | ColorTarget.RS16 => FORMAT_CASE texture.R16Sint
  | ColorTarget.RU16 => FORMAT_CASE texture.R16Uint
  | ColorTarget.RF16 => FORMAT_CASE texture.R16Float
  | ColorTarget.R8 => FORMAT_CASE texture.R8Unorm
  | ColorTarget.RN8 => FORMAT_CASE texture.R8Snorm
  | ColorTarget.RS8 => FORMAT_CASE texture.R8Sint
  | ColorTarget.RU8 => FORMAT_CASE texture.R8Uint
  | ColorTarget.X1R5G5B5 => FORMAT_CASE_WARN "X1R5G5B5" texture.A1R5G5B5Unorm
  | ColorTarget.X8B8G8R8 => FORMAT_CASE_WARN "X8B8G8R8" texture.R8G8B8A8Unorm
  | ColorTarget.X8BL8GL8RL8 => FORMAT_CASE_WARN "X8BL8GL8RL8" texture.R8G8B8A8Srgb
  | ColorTarget.Z1R5G5B5 => FORMAT_CASE_WARN "Z1R5G5B5" texture.A1R5G5B5Unorm
  | ColorTarget.O1R5G5B5 => FORMAT_CASE_WARN "O1R5G5B5" texture.A1R5G5B5Unorm
  | ColorTarget.Z8R8G8B8 => FORMAT_CASE_WARN "Z8R8G8B8" texture.B8G8R8A8Unorm
  | ColorTarget.O8R8G8B8 => FORMAT_CASE_WARN "O8R8G8B8" texture.B8G8R8A8Unorm
  | ColorTarget.Disabled | ColorTarget.Format_other _ =>
      ([], Exception "Unsupported colour rendertarget format: 0x{:X}")
  end.

Definition ConvertDepthRenderTargetFormat (format : Zt.Format) : Result texture.Format :=
  match format with
  | Zt.Z16 => Ok texture.D16Unorm
  | Zt.Z24S8 => Ok texture.S8UintD24Unorm
  | Zt.X8Z24 => Ok texture.D24UnormX8Uint
  | Zt.S8Z24 => Ok texture.D24UnormS8Uint
  | Zt.S8 => Ok texture.S8Uint
  | Zt.ZF32 => Ok texture.D32Float
  | Zt.ZF32_X24S8 => Ok texture.D32FloatS8Uint
  | Zt.Format_other _ => Exception "Unsupported depth rendertarget format: 0x{:X}"
  end.

Section Translators.
Variable ColorFormat_value : ColorTarget.Format -> Z.
Variable ZtFormat_value : Zt.Format -> Z.
Variables D3DNever D3DAlways OglNever OglAlways : Z.

(** Collaborators outside this file: the texture format table ([bpb],
    [vkAspect]), [GuestTexture::GetSize], the GMMU's [TranslateRange], the
    texture manager's [FindOrCreate] and the views it hands out, and the
    value-initialised [GuestTexture{}]. *)
Variable TextureView : Type.
Variable bpb : texture.Format -> Z.
Variable vkAspect : texture.Format -> Z.
Variable GetSize : GuestTexture -> Z.
Variable TranslateRange : Z -> Z -> list (Z * Z).
Variable FindOrCreate : GuestTexture -> option TextureView.
Variable GuestTexture_init : GuestTexture.

(** What a render-target translator's [Flush] works on: the packed state
    passed in, its own [view] member, and the calls made so far. *)
Record TargetFlush := {
  packedState : t;
  view : option TextureView;
  calls : list TranslatorCall
}.

Definition with_mappings (m : list (Z * Z)) (g : GuestTexture) : GuestTexture :=
  {| guest_format := guest_format g; guest_aspect := guest_aspect g;
     guest_baseArrayLayer := guest_baseArrayLayer g;
     guest_layerCount := guest_layerCount g;
     guest_viewType := guest_viewType g;
     guest_dimensions := guest_dimensions g;
     guest_tileConfig := guest_tileConfig g;
     guest_layerStride := guest_layerStride g;
     guest_mappings := m |}.

(** The tail shared by both render-target translators: translate the
    range, store the mappings, look the view up. *)
Definition acquire_view (address : Z) (guest : GuestTexture)
    (p : t) (cs : list TranslatorCall) : TargetFlush :=
  let size := GetSize guest in
  let guest' := with_mappings (TranslateRange address size) guest in
  {| packedState := p;
     view := FindOrCreate guest';
     calls := cs ++ [Gmmu_TranslateRange address size;
                     TextureManager_FindOrCreate guest'] |}.

Definition ColorRenderTargetState_Flush (index : nat) (target : ColorTarget.t)
    (st : TargetFlush) : Completion TargetFlush :=
  let p := SetColorRenderTargetFormat ColorFormat_value index
             (ColorTarget.format target) (packedState st) in
  if ColorTarget.is_Disabled (ColorTarget.format target) then
    Return {| packedState := p; view := None; calls := calls st |}
  else
    let '(warnings, converted) :=
      ConvertColorRenderTargetFormat (ColorTarget.format target) in
    let cs := calls st ++ warnings in
    match converted with
    | Exception what =>
        Throw {| packedState := p; view := view st; calls := cs |} what
    | Ok format =>
        let baseArrayLayer := ColorTarget.layerOffset target in
        let thirdDimensionDefinesArraySize :=
          match ColorTarget.thirdDimensionControl (ColorTarget.memory target) with
          | ColorTarget.ThirdDimensionDefinesArraySize => true
          | _ => false
          end in
        let layerCount :=
          if thirdDimensionDefinesArraySize
          then ColorTarget.thirdDimension target else 1 in
        let viewType :=
          if ColorTarget.thirdDimension target >? 1 then vk.e2DArray else vk.e2D in
        let depth :=
          if thirdDimensionDefinesArraySize
          then 1 else ColorTarget.thirdDimension target in
        let '(dimensions, tileConfig) :=
          match ColorTarget.layout (ColorTarget.memory target) with
          | ColorTarget.Pitch =>
              ({| texture.dim_width := ColorTarget.width target / bpb format;
                  texture.dim_height := ColorTarget.height target;
                  texture.dim_depth := depth |},
               texture.Linear)
          | ColorTarget.BlockLinear =>
              ({| texture.dim_width := ColorTarget.width target;
                  texture.dim_height := ColorTarget.height target;
                  texture.dim_depth := depth |},
               texture.Block
                 (ColorTarget.BlockHeight (ColorTarget.memory target))
                 (ColorTarget.BlockDepth (ColorTarget.memory target)))
          end in
        let layerStride :=
          if (baseArrayLayer >? 1) || (layerCount >? 1)
          then ColorTarget.ArrayPitch target else 0 in
        let guest :=
          {| guest_format := Some format;
             guest_aspect := eColor;
             guest_baseArrayLayer := baseArrayLayer;
             guest_layerCount := layerCount;
             guest_viewType := viewType;
             guest_dimensions := dimensions;
             guest_tileConfig := tileConfig;
             guest_layerStride := layerStride;
             guest_mappings := guest_mappings GuestTexture_init |} in
        Return (acquire_view (ColorTarget.offset target) guest p cs)
    end.

Definition DepthRenderTargetState_Flush
    (regs : DepthRenderTargetState.EngineRegisters)
    (st : TargetFlush) : Completion TargetFlush :=
  let p := SetDepthRenderTargetFormat ZtFormat_value
             (DepthRenderTargetState.ztFormat regs) (packedState st) in
  if DepthRenderTargetState.ztSelect_targetCount regs =? 0 then
    Return {| packedState := p; view := None; calls := calls st |}
  else
    match ConvertDepthRenderTargetFormat (DepthRenderTargetState.ztFormat regs) with
    | Exception what =>
        Throw {| packedState := p; view := view st; calls := calls st |} what
    | Ok format =>
        let size := DepthRenderTargetState.ztSize regs in
        let baseArrayLayer := DepthRenderTargetState.ztLayer_offset regs in
        let '(layerCount, viewType) :=
          match Zt.control size with
          | Zt.ThirdDimensionDefinesArraySize =>
              (Zt.thirdDimension size, vk.e2DArray)
          | Zt.ArraySizeIsOne => (1, vk.e2D)
          | Zt.Control_other _ =>
              (guest_layerCount GuestTexture_init,
               guest_viewType GuestTexture_init)
          end in
        let layerStride :=
          if (baseArrayLayer >? 1) || (layerCount >? 1)
          then DepthRenderTargetState.ztArrayPitch regs else 0 in
        let guest :=
          {| guest_format := Some format;
             guest_aspect := vkAspect format;
             guest_baseArrayLayer := baseArrayLayer;
             guest_layerCount := layerCount;
             guest_viewType := viewType;
             guest_dimensions :=
               {| texture.dim_width := Zt.width size;
                  texture.dim_height := Zt.height size;
                  texture.dim_depth := 1 |};
             guest_tileConfig :=
               texture.Block
                 (Zt.BlockHeight (DepthRenderTargetState.ztBlockSize regs))
                 (Zt.BlockDepth (DepthRenderTargetState.ztBlockSize regs));
             guest_layerStride := layerStride;
             guest_mappings := guest_mappings GuestTexture_init |} in
        Return (acquire_view (DepthRenderTargetState.ztOffset regs) guest p
                  (calls st))
    end.

(** [DepthStencilState::Flush].  The local [stencilBack] is computed from
    [twoSidedStencilTestEnable] and never used: both arguments of
    [SetStencilOps] are the front-face [stencilOps]. *)
Definition DepthStencilState_Flush (regs : DepthStencilState.EngineRegisters)
    (p : t) : Completion t :=
  let p1 := set_depthTestEnable (DepthStencilState.depthTestEnable regs) p in
  let p2 := set_depthWriteEnable (DepthStencilState.depthWriteEnable regs) p1 in
  call (SetDepthFunc D3DNever D3DAlways OglNever OglAlways
          (DepthStencilState.depthFunc regs) p2) (fun p3 =>
  let p4 := set_depthBoundsTestEnable
              (DepthStencilState.depthBoundsTestEnable regs) p3 in
  let p5 := set_stencilTestEnable (DepthStencilState.stencilTestEnable regs) p4 in
  let stencilBack :=
    if DepthStencilState.twoSidedStencilTestEnable regs
    then DepthStencilState.stencilBack regs
    else DepthStencilState.stencilOps regs in
  SetStencilOps D3DNever D3DAlways OglNever OglAlways
    (DepthStencilState.stencilOps regs) (DepthStencilState.stencilOps regs) p5).
End Translators.

(** ** maxwell_3d.cpp: registers, bundles and the method dispatcher *)

Module Maxwell3D.

(** *** The register file

    [Maxwell3D::Registers] overlays named registers on the word array
    [raw]; its declaration (maxwell_3d.h) is not among the sources.  The
    record below gives each register the dispatcher and the bundle makers
    name its word offset into [raw]: a field of a register structure gets
    the offset of that field, an array register a function from the index
    of an element to its offset.  A reference to a register is its offset;
    reading through it reads [raw] there. *)

Definition Ref := Z.

Record Registers := {
  (* mme *)
  mme_shadowRamControl : Ref;
  mme_instructionRamPointer : Ref;
  mme_instructionRamLoad : Ref;
  mme_startAddressRamPointer : Ref;
  mme_startAddressRamLoad : Ref;
  (* i2m *)
  i2m_launchDma : Ref;
  i2m_loadInlineData : Ref;
  syncpointAction : Ref;
  clearSurface : Ref;
  (* draws *)
  begin_ : Ref;
  end_ : Ref;
  drawVertexArray : Ref;
  drawVertexArray_count : Ref;
  drawIndexBuffer : Ref;
  drawIndexBuffer_count : Ref;
  vertexArrayStart : Ref;
  indexBuffer : Ref;
  indexBuffer_first : Ref;
  globalBaseVertexIndex : Ref;
  globalBaseInstanceIndex : Ref;
  primitiveTopologyControl : Ref;
  primitiveTopology : Ref;
  (* semaphore *)
  semaphore_payload : Ref;
  semaphore_info : Ref;
  firmwareCall : nat -> Ref;
  (* constant buffers *)
  loadConstantBuffer_offset : Ref;
  loadConstantBuffer_data : nat -> Ref;
  bindGroups_constantBuffer : nat -> Ref;
  constantBufferSelector : Ref;
  (* vertex input *)
  vertexStreams : nat -> Ref;
  vertexStreams_format : nat -> Ref;
  vertexStreams_frequency : nat -> Ref;
  vertexStreamLimits : nat -> Ref;
  vertexStreamInstance : nat -> Ref;
  vertexAttributes : nat -> Ref;
  primitiveRestartEnable : Ref;
  tessellationParameters : Ref;
  patchSize : Ref;
  (* render targets *)
  colorTargets : nat -> Ref;
  ztSize : Ref;
  ztOffset : Ref;
  ztFormat : Ref;
  ztBlockSize : Ref;
  ztArrayPitch : Ref;
  ztSelect : Ref;
  ztLayer : Ref;
  (* rasterisation *)
  rasterEnable : Ref;
  frontPolygonMode : Ref;
  backPolygonMode : Ref;
  oglCullEnable : Ref;
  oglCullFace : Ref;
  windowOrigin : Ref;
  oglFrontFace : Ref;
  viewportClipControl : Ref;
  polyOffset : Ref;
  provokingVertex : Ref;
  (* dynamic state *)
  streamOutBuffers : nat -> Ref;
  streamOutEnable : nat -> Ref;
  viewports : nat -> Ref;
  viewportClips : nat -> Ref;
  viewportScaleOffsetEnable : Ref;
  scissors : nat -> Ref;
  lineWidth : Ref;
  lineWidthAliased : Ref;
  aliasedLineWidthEnable : Ref;
  depthBias : Ref;
  depthBiasClamp : Ref;
  slopeScaleDepthBias : Ref;
  blendConsts : Ref;
  depthBoundsMin : Ref;
  depthBoundsMax : Ref;
  stencilValues : Ref;
  backStencilValues : Ref;
  twoSidedStencilTestEnable : Ref
}.

(** The word array [registers.raw] (and [shadowRegisters.raw]).  Method
    numbers handed to the dispatcher index it; the array's bound is a
    contract of the caller. *)
Definition RegisterFile := Z -> Z.

Definition store (rf : RegisterFile) (at_ : Z) (value : Z) : RegisterFile :=
  fun a => if a =? at_ then value else rf a.

(** *** Register bundles

    An [EngineRegisters] structure is an aggregate of references to
    registers, initialised positionally; its embedding is the list of the
    referenced offsets in initialiser order. *)

Definition Bundle := list Ref.

(** [util::MergeInto<T, Size>(args...)]: element [i] of the result is built
    from element [i] of every array argument and from every other argument
    as it is. *)
Definition MergeInto (Size : nat) (element : nat -> Bundle) : list Bundle :=
  map element (seq 0 Size).

Module PipelineState.
Record EngineRegisters := {
  colorRenderTargetsRegisters : list Bundle;
  depthRenderTargetRegisters : Bundle;
  vertexInputRegisters : Bundle;
  inputAssemblyRegisters : Bundle;
  tessellationRegisters : Bundle;
  rasterizationRegisters : Bundle
}.
End PipelineState.

Module ActiveState.
Record EngineRegisters := {
  pipelineRegisters : PipelineState.EngineRegisters;
  vertexBuffersRegisters : list Bundle;
  indexBufferRegisters : Bundle;
  transformFeedbackBuffersRegisters : list Bundle;
  viewportsRegisters : list Bundle;
  scissorsRegisters : list Bundle;
  lineWidthRegisters : Bundle;
  depthBiasRegisters : Bundle;
  blendConstantsRegisters : Bundle;
  depthBoundsRegisters : Bundle;
  stencilValuesRegisters : Bundle
}.
End ActiveState.

Section Bundles.
Variable registers : Registers.
(** Element counts of [type::] (types.h); [VertexStreamCount] is 16 by
    the [static_assert] in [HandleMethod]. *)
Variables ColorTargetCount StreamOutBufferCount ViewportCount : nat.
Definition VertexStreamCount : nat := 16.

Definition MakePipelineStateRegisters : PipelineState.EngineRegisters :=
  {| PipelineState.colorRenderTargetsRegisters :=
       MergeInto ColorTargetCount (fun i => [colorTargets registers i]);
     PipelineState.depthRenderTargetRegisters :=
       [ztSize registers; ztOffset registers; ztFormat registers;
        ztBlockSize registers; ztArrayPitch registers; ztSelect registers;
        ztLayer registers];
     PipelineState.vertexInputRegisters :=
       [vertexStreams registers 0%nat; vertexStreamInstance registers 0%nat;
        vertexAttributes registers 0%nat];
     PipelineState.inputAssemblyRegisters := [primitiveRestartEnable registers];
     PipelineState.tessellationRegisters :=
       [patchSize registers; tessellationParameters registers];
     PipelineState.rasterizationRegisters :=
       [rasterEnable registers; frontPolygonMode registers;
        backPolygonMode registers; oglCullEnable registers;
        oglCullFace registers; windowOrigin registers; oglFrontFace registers;
        viewportClipControl registers; polyOffset registers;
        provokingVertex registers] |}.

Definition MakeActiveStateRegisters : ActiveState.EngineRegisters :=
  {| ActiveState.pipelineRegisters := MakePipelineStateRegisters;
     ActiveState.vertexBuffersRegisters :=
       MergeInto VertexStreamCount
         (fun i => [vertexStreams registers i; vertexStreamLimits registers i]);
     ActiveState.indexBufferRegisters := [indexBuffer registers];
     ActiveState.transformFeedbackBuffersRegisters :=
       MergeInto StreamOutBufferCount
         (fun i => [streamOutBuffers registers i; streamOutEnable registers i]);
     ActiveState.viewportsRegisters :=
       MergeInto ViewportCount
         (fun i => [viewports registers i; viewportClips registers i;
                    windowOrigin registers; viewportScaleOffsetEnable registers]);
     ActiveState.scissorsRegisters :=
       MergeInto ViewportCount (fun i => [scissors registers i]);
     ActiveState.lineWidthRegisters :=
       [lineWidth registers; lineWidthAliased registers;
        aliasedLineWidthEnable registers];
     ActiveState.depthBiasRegisters :=
       [depthBias registers; depthBiasClamp registers;
        slopeScaleDepthBias registers];
     ActiveState.blendConstantsRegisters := [blendConsts registers];
     ActiveState.depthBoundsRegisters :=
       [depthBoundsMin registers; depthBoundsMin registers];
     ActiveState.stencilValuesRegisters :=
       [stencilValues registers; backStencilValues registers;
        twoSidedStencilTestEnable registers] |}.
End Bundles.

(** What a translator reads through a bundle: the word at each reference. *)
Definition observe (raw : RegisterFile) (b : Bundle) : list Z := map raw b.

(** *** Register contents

    The bit-field accessors and enumerations of the register types
    (types.h, not among the sources), each as a function of the register
    word. *)

Inductive MmeShadowRamControl :=
| MethodTrack | MethodTrackWithFilter | MethodPassthrough | MethodReplay.

Inductive InstanceId := First | Subsequent | Unchanged.

Inductive TopologyOverride :=
| UseTopologyInBeginMethods | UseSeparateTopologyState.

Inductive SemaphoreOp := Release | Counter | SemaphoreOp_other.
Inductive SemaphoreCounterType := Zero | CounterType_other.
Inductive SemaphoreStructureSize := FourWords | OneWord.

(** [type::DrawTopology] is carried as its underlying value. *)
Definition DrawTopology := Z.

Record Types := {
  shadowRamControl_of : Z -> MmeShadowRamControl;
  Begin_op : Z -> DrawTopology;
  Begin_instanceId : Z -> InstanceId;
  PrimitiveTopologyControl_override : Z -> TopologyOverride;
  ConvertPrimitiveTopologyToDrawTopology : Z -> DrawTopology;
  VertexStream_format_stride : Z -> Z;
  SyncpointAction_id : Z -> Z;
  SemaphoreInfo_reductionEnable : Z -> bool;
  SemaphoreInfo_op : Z -> SemaphoreOp;
  SemaphoreInfo_counterType : Z -> SemaphoreCounterType;
  SemaphoreInfo_structureSize : Z -> SemaphoreStructureSize;
  BindGroup_constantBuffer_shaderSlot : Z -> Z;
  BindGroup_constantBuffer_valid : Z -> bool;
  (** [registers.semaphore->address], a 64-bit address held in two words *)
  semaphore_address : RegisterFile -> Z;
  (** the size of [host1x.syncpoints], which [at] checks *)
  SyncpointCount : Z
}.

(** *** Downstream calls, in call order *)

Inductive Event :=
| Draw (topology : DrawTopology) (indexed : bool)
       (count first instanceCount baseVertex baseInstance : Z)
| LoadConstantBuffer (data : list Z) (offset : Z)
| Clear (clearSurface : Z)
| BindConstantBuffer (stage : nat) (shaderSlot : Z) (valid : bool)
| MarkDirty (method : Z)
| SetStride (idx : nat) (stride : Z)
| SetDivisor (idx : nat) (divisor : Z)
| SetInputRate (idx : nat) (instance : Z)
| SetAttribute (idx : nat) (attribute : Z)
| SetPrimitiveRestart (enable : bool)
| SetParameters (parameters : Z)
| SetPatchControlPoints (patchSize : Z)
| LaunchDma
| LoadInlineData (data : Z)
| Submit
| SyncpointIncrement (id : Z)
| GmmuWrite32 (address value : Z)
| GmmuWriteTimestamp (address : Z)
| GmmuWrite64 (address value : Z)
| Warn (message : string)
| LogDebug (message : string).

(** *** Dispatcher state *)

(** Modelled from the spec: [DeferredDrawState] (declared in maxwell_3d.h,
    which is not among the sources) is the Deferred Draw Record of the data
    model, {pending, topology, indexed, count, first, instanceCount,
    baseVertex, baseInstance}. *)
Record DeferredDrawState := {
  pending : bool;
  indexed : bool;
  drawTopology : DrawTopology;
  instanceCount : Z;
  drawCount : Z;
  drawFirst : Z;
  drawBaseVertex : Z;
  drawBaseInstance : Z
}.

(** Modelled from the spec: [DeferredDrawState::Set] creates the record on
    a draw-triggering write: it records the draw and marks it pending.  The
    instance count is not part of the creation; the spec has it mutated by
    begin writes and reset by the flush only. *)
Definition DeferredDrawState_Set
    (count first baseVertex baseInstance : Z) (topology : DrawTopology)
    (isIndexed : bool) (d : DeferredDrawState) : DeferredDrawState :=
  {| pending := true;
     indexed := isIndexed;
     drawTopology := topology;
     instanceCount := instanceCount d;
     drawCount := count;
     drawFirst := first;
     drawBaseVertex := baseVertex;
     drawBaseInstance := baseInstance |}.

(** Modelled from the spec: [BatchLoadConstantBufferState] (declared in
    maxwell_3d.h, which is not among the sources) is the Batch
    Constant-Buffer Record of the data model, {active, startOffset, buffer}.
    The dispatcher creates a batch by assigning [startOffset] alone, so
    [active] and [startOffset] are one optional value: a batch is active
    exactly when it has a start offset. *)
Record BatchLoadConstantBufferState := {
  startOffset : option Z;
  buffer : list Z
}.

Definition Batch_Active (b : BatchLoadConstantBufferState) : bool :=
  match startOffset b with
  | Some _ => true
  | None => false
  end.

(** Modelled from the spec: [Invalidate] hands out the recorded start
    offset and leaves the batch inactive; [Reset] empties the buffer.  The
    dispatcher calls [Invalidate] on active batches only. *)
Definition Batch_Invalidate (b : BatchLoadConstantBufferState)
    : Z * BatchLoadConstantBufferState :=
  (match startOffset b with Some o => o | None => 0 end,
   {| startOffset := None; buffer := buffer b |}).

Definition Batch_Reset (b : BatchLoadConstantBufferState)
    : BatchLoadConstantBufferState :=
  {| startOffset := startOffset b; buffer := [] |}.

Record State := {
  registers : RegisterFile;
  shadowRegisters : RegisterFile;
  batchLoadConstantBuffer : BatchLoadConstantBufferState;
  deferredDraw : DeferredDrawState;
  macroCode : list Z;
  macroPositions : list Z
}.

Definition set_registers (v : RegisterFile) (s : State) : State :=
  {| registers := v; shadowRegisters := shadowRegisters s;
     batchLoadConstantBuffer := batchLoadConstantBuffer s;
     deferredDraw := deferredDraw s;
     macroCode := macroCode s; macroPositions := macroPositions s |}.

Definition set_shadowRegisters (v : RegisterFile) (s : State) : State :=
  {| registers := registers s; shadowRegisters := v;
     batchLoadConstantBuffer := batchLoadConstantBuffer s;
     deferredDraw := deferredDraw s;
     macroCode := macroCode s; macroPositions := macroPositions s |}.

Definition set_batchLoadConstantBuffer (v : BatchLoadConstantBufferState)
    (s : State) : State :=
  {| registers := registers s; shadowRegisters := shadowRegisters s;
     batchLoadConstantBuffer := v;
     deferredDraw := deferredDraw s;
     macroCode := macroCode s; macroPositions := macroPositions s |}.

Definition set_deferredDraw (v : DeferredDrawState) (s : State) : State :=
  {| registers := registers s; shadowRegisters := shadowRegisters s;
     batchLoadConstantBuffer := batchLoadConstantBuffer s;
     deferredDraw := v;
     macroCode := macroCode s; macroPositions := macroPositions s |}.

Definition set_macroCode (v : list Z) (s : State) : State :=
  {| registers := registers s; shadowRegisters := shadowRegisters s;
     batchLoadConstantBuffer := batchLoadConstantBuffer s;
     deferredDraw := deferredDraw s;
     macroCode := v; macroPositions := macroPositions s |}.

Definition set_macroPositions (v : list Z) (s : State) : State :=
  {| registers := registers s; shadowRegisters := shadowRegisters s;
     batchLoadConstantBuffer := batchLoadConstantBuffer s;
     deferredDraw := deferredDraw s;
     macroCode := macroCode s; macroPositions := v |}.

(** [registers.raw[at] = value]. *)
Definition write_register (at_ value : Z) (s : State) : State :=
  set_registers (store (registers s) at_ value) s.

(** *** Steps: a completion together with the calls made on the way *)

Definition Step := (list Event * Completion State)%type.

Definition continue (s : State) : Step := ([], Normal s).
Definition emit (e : Event) (s : State) : Step := ([e], Normal s).
Definition leave (s : State) : Step := ([], Return s).
Definition raise (what : string) (s : State) : Step := ([], Throw s what).

(** Sequencing: the second statement runs when the first completed
    normally. *)
Definition andThen (x : Step) (k : State -> Step) : Step :=
  match snd x with
  | Normal s => let y := k s in (fst x ++ fst y, snd y)
  | _ => x
  end.

Definition when (c : bool) (k : State -> Step) (s : State) : Step :=
  if c then k s else continue s.

(** The first index below [n] whose case label is [method]: the expansion
    of [BOOST_PP_REPEAT(n, ...)] over an array register. *)
Definition array_case (n : nat) (label : nat -> Z) (method : Z) : option nat :=
  find (fun i => method =? label i) (seq 0 n).

(** *** The dispatcher *)

Section Dispatcher.
Variable R : Registers.
Variable T : Types.

(** The [ENGINE_*CASE] macros (engines/engine.h, not among the sources)
    wrap [content] in a case block of its own and close the block after
    it.  Whether they close it with [return] or with [break] is the flag
    below; the dispatcher is embedded for both. *)
Variable ENGINE_CASE_returns : bool.

Definition case_end (s : State) : Step :=
  if ENGINE_CASE_returns then leave s else continue s.

Definition GetCurrentTopology (s : State) : DrawTopology :=
  match PrimitiveTopologyControl_override T
          (registers s (primitiveTopologyControl R)) with
  | UseTopologyInBeginMethods => Begin_op T (registers s (begin_ R))
  | UseSeparateTopologyState =>
      ConvertPrimitiveTopologyToDrawTopology T (registers s (primitiveTopology R))
  end.

Definition FlushDeferredDraw (s : State) : Step :=
  let d := deferredDraw s in
  if pending d then
    ([Draw (drawTopology d) (indexed d) (drawCount d) (drawFirst d)
           (instanceCount d) (drawBaseVertex d) (drawBaseInstance d)],
     Normal (set_deferredDraw
               {| pending := false;
                  indexed := indexed d;
                  drawTopology := drawTopology d;
                  instanceCount := 1;
                  drawCount := drawCount d;
                  drawFirst := drawFirst d;
                  drawBaseVertex := drawBaseVertex d;
                  drawBaseInstance := drawBaseInstance d |} s))
  else continue s.

(** [deferredDraw.instanceCount = f(deferredDraw.instanceCount)]. *)
Definition update_instanceCount (f : Z -> Z) (s : State) : State :=
  let d := deferredDraw s in
  set_deferredDraw
    {| pending := pending d;
       indexed := indexed d;
       drawTopology := drawTopology d;
       instanceCount := f (instanceCount d);
       drawCount := drawCount d;
       drawFirst := drawFirst d;
       drawBaseVertex := drawBaseVertex d;
       drawBaseInstance := drawBaseInstance d |} s.

(** [registers.loadConstantBuffer->offset += 4]. *)
Definition advance_offset (s : State) : State :=
  write_register (loadConstantBuffer_offset R)
    (u32 (registers s (loadConstantBuffer_offset R) + 4)) s.

Definition push_back (word : Z) (s : State) : State :=
  let b := batchLoadConstantBuffer s in
  set_batchLoadConstantBuffer
    {| startOffset := startOffset b; buffer := buffer b ++ [word] |} s.

(** Lines 91-109: the switch taken while a batch is active. *)
Definition BatchLayer (method argument : Z) (s : State) : Step :=
  match array_case 16 (loadConstantBuffer_data R) method with
  | Some _ => leave (advance_offset (push_back argument s))
  | None =>
      let b := batchLoadConstantBuffer s in
      let '(offset, b') := Batch_Invalidate b in
      ([LoadConstantBuffer (buffer b) offset],
       Normal (set_batchLoadConstantBuffer (Batch_Reset b') s))
  end.

(** Lines 110-147: the switch taken while a draw is pending. *)
Definition DeferredDrawLayer (method argument : Z) (redundant : bool) (s : State)
    : Step :=
  if method =? begin_ R then
    match Begin_instanceId T argument with
    | Subsequent =>
        andThen
          (when (negb (drawTopology (deferredDraw s) =? Begin_op T argument)
                 && match PrimitiveTopologyControl_override T
                            (registers s (primitiveTopologyControl R)) with
                    | UseTopologyInBeginMethods => true
                    | UseSeparateTopologyState => false
                    end)
             (emit (Warn "Vertex topology changed partway through instanced draw!"))
             s)
          (fun s => leave (update_instanceCount (fun n => u32 (n + 1)) s))
    | First | Unchanged => FlushDeferredDraw s
    end
  else if method =? end_ R then leave s
  else if method =? drawVertexArray R then
    andThen
      (when (negb redundant)
         (emit (Warn "Vertex count changed partway through instanced draw!")) s)
      leave
  else if method =? drawIndexBuffer R then
    andThen
      (when (negb redundant)
         (emit (Warn "Index count changed partway through instanced draw!")) s)
      leave
  else FlushDeferredDraw s.

Definition CoalesceLayer (method argument : Z) (redundant : bool) (s : State)
    : Step :=
  if Batch_Active (batchLoadConstantBuffer s) then BatchLayer method argument s
  else if pending (deferredDraw s) then DeferredDrawLayer method argument redundant s
  else continue s.

(** Lines 150-196: dirty marking and the change-triggered calls. *)
Definition ChangedLayer (method argument : Z) (s : State) : Step :=
  andThen (emit (MarkDirty method) s) (fun s =>
  match array_case 16 (vertexStreams_format R) method with
  | Some idx =>
      andThen (emit (SetStride idx (VertexStream_format_stride T argument)) s)
        case_end
  | None =>
  match array_case 16 (vertexStreams_frequency R) method with
  | Some idx => andThen (emit (SetDivisor idx argument) s) case_end
  | None =>
  match array_case 16 (vertexStreamInstance R) method with
  | Some idx => andThen (emit (SetInputRate idx argument) s) case_end
  | None =>
  match array_case 16 (vertexAttributes R) method with
  | Some idx => andThen (emit (SetAttribute idx argument) s) case_end
  | None =>
  if method =? primitiveRestartEnable R then
    andThen (emit (SetPrimitiveRestart (negb (argument =? 0))) s) case_end
  else if method =? tessellationParameters R then
    andThen (emit (SetParameters argument) s) case_end
  else if method =? patchSize R then
    andThen (emit (SetPatchControlPoints argument) s) case_end
  else continue s
  end end end end).

Definition WriteSemaphoreResult (result : Z) (s : State) : Step :=
  let address := semaphore_address T (registers s) in
  match SemaphoreInfo_structureSize T (registers s (semaphore_info R)) with
  | OneWord =>
      ([GmmuWrite32 address (u32 result);
        LogDebug "address: 0x{:X} payload: {}"], Normal s)
  | FourWords =>
      ([GmmuWriteTimestamp (u64 (address + 8));
        GmmuWrite64 address result;
        LogDebug "address: 0x{:X} payload: {} timestamp: {}"], Normal s)
  end.

(** Lines 198-307: the per-method switch, cases in source order. *)
Definition MethodSwitch (method argument : Z) (s : State) : Step :=
  if method =? mme_instructionRamLoad R then
    let pointer := registers s (mme_instructionRamPointer R) in
    if pointer >=? Z.of_nat (length (macroCode s)) then
      raise "Macro memory is full!" s
    else
      let s := write_register (mme_instructionRamPointer R) (u32 (pointer + 1)) s in
      let s := set_macroCode (<[Z.to_nat pointer := argument]> (macroCode s)) s in
      let s := write_register (mme_instructionRamPointer R)
                 (u32 (registers s (mme_instructionRamPointer R)
                       mod Z.of_nat (length (macroCode s)))) s in
      case_end s
  else if method =? mme_startAddressRamLoad R then
    let pointer := registers s (mme_startAddressRamPointer R) in
    if pointer >=? Z.of_nat (length (macroPositions s)) then
      raise "Maximum amount of macros reached!" s
    else
      let s := write_register (mme_startAddressRamPointer R) (u32 (pointer + 1)) s in
      let s := set_macroPositions
                 (<[Z.to_nat pointer := argument]> (macroPositions s)) s in
      case_end s
  else if method =? i2m_launchDma R then
    andThen (emit LaunchDma s) case_end
  else if method =? i2m_loadInlineData R then
    andThen (emit (LoadInlineData argument) s) case_end
  else if method =? syncpointAction R then
    let id := SyncpointAction_id T argument in
    andThen (emit (LogDebug "Increment syncpoint: {}") s) (fun s =>
    andThen (emit Submit s) (fun s =>
    if (0 <=? id) && (id <? SyncpointCount T)
    then andThen (emit (SyncpointIncrement id) s) case_end
    else raise "std::out_of_range" s))
  else if method =? clearSurface R then
    andThen (emit (Clear argument) s) case_end
  else if method =? begin_ R then
    match Begin_instanceId T argument with
    | Subsequent => case_end (update_instanceCount (fun n => u32 (n + 1)) s)
    | First | Unchanged => case_end (update_instanceCount (fun _ => 1) s)
    end
  else if method =? drawVertexArray_count R then
    case_end
      (set_deferredDraw
         (DeferredDrawState_Set argument (registers s (vertexArrayStart R)) 0
            (registers s (globalBaseInstanceIndex R)) (GetCurrentTopology s)
            false (deferredDraw s)) s)
  else if method =? drawIndexBuffer_count R then
    case_end
      (set_deferredDraw
         (DeferredDrawState_Set argument (registers s (indexBuffer_first R))
            (registers s (globalBaseVertexIndex R))
            (registers s (globalBaseInstanceIndex R)) (GetCurrentTopology s)
            true (deferredDraw s)) s)
  else if method =? semaphore_info R then
    andThen
      (when (SemaphoreInfo_reductionEnable T argument)
         (emit (Warn "Semaphore reduction is unimplemented!")) s) (fun s =>
    andThen
      match SemaphoreInfo_op T argument with
      | Release =>
          andThen (emit Submit s)
            (WriteSemaphoreResult (registers s (semaphore_payload R)))
      | Counter =>
          match SemaphoreInfo_counterType T argument with
          | Zero => WriteSemaphoreResult (registers s (semaphore_payload R)) s
          | CounterType_other => continue s
          end
      | SemaphoreOp_other =>
          emit (Warn "Unsupported semaphore operation: 0x{:X}") s
      end
      case_end)
  else if method =? firmwareCall R 4 then
    case_end (write_register 0xD00 1 s)
  else
  match array_case 16 (loadConstantBuffer_data R) method with
  | Some _ =>
      let b := batchLoadConstantBuffer s in
      let s := set_batchLoadConstantBuffer
                 {| startOffset := Some (registers s (loadConstantBuffer_offset R));
                    buffer := buffer b |} s in
      case_end (advance_offset (push_back argument s))
  | None =>
  match array_case 5 (bindGroups_constantBuffer R) method with
  | Some idx =>
      andThen
        (emit (BindConstantBuffer idx
                 (BindGroup_constantBuffer_shaderSlot T argument)
                 (BindGroup_constantBuffer_valid T argument)) s)
        case_end
  | None => continue s
  end end.

(** The shadow RAM mode in force: [shadowRegisters.mme->shadowRamControl]. *)
Definition shadow_mode (s : State) : MmeShadowRamControl :=
  shadowRamControl_of T (shadowRegisters s (mme_shadowRamControl R)).

(** [Maxwell3D::HandleMethod]. *)
Definition HandleMethod (method argument : Z) (s : State) : Step :=
  if method =? mme_shadowRamControl R then
    leave (set_shadowRegisters (store (shadowRegisters s) method argument)
             (write_register method argument s))
  else
    let s :=
      match shadow_mode s with
      | MethodTrack | MethodTrackWithFilter =>
          set_shadowRegisters (store (shadowRegisters s) method argument) s
      | MethodReplay | MethodPassthrough => s
      end in
    let argument :=
      match shadow_mode s with
      | MethodReplay => shadowRegisters s method
      | MethodTrack | MethodTrackWithFilter | MethodPassthrough => argument
      end in
    let redundant := registers s method =? argument in
    let s := write_register method argument s in
    andThen (CoalesceLayer method argument redundant s) (fun s =>
    andThen (when (negb redundant) (ChangedLayer method argument) s) (fun s =>
    MethodSwitch method argument s)).

(** [Maxwell3D::FlushEngineState]. *)
Definition FlushEngineState (s : State) : Step :=
  andThen (FlushDeferredDraw s) (fun s =>
  if Batch_Active (batchLoadConstantBuffer s) then
    let b := batchLoadConstantBuffer s in
    let '(offset, b') := Batch_Invalidate b in
    ([LoadConstantBuffer (buffer b) offset],
     Normal (set_batchLoadConstantBuffer (Batch_Reset b') s))
  else continue s).

(** Consecutive calls of [HandleMethod], one per write of the command
    stream; an exception ends the sequence at the write that threw. *)
Fixpoint HandleMethods (writes : list (Z * Z)) (s : State) : Step :=
  match writes with
  | [] => continue s
  | (method, argument) :: rest =>
      match HandleMethod method argument s with
      | (calls, Throw s' what) => (calls, Throw s' what)
      | (calls, Normal s') | (calls, Break s') | (calls, Return s') =>
          let r := HandleMethods rest s' in
          (calls ++ fst r, snd r)
      end
  end.
End Dispatcher.

End Maxwell3D.

Import Maxwell3D.

(** ** Vocabulary of the properties *)

Definition calls_of (r : Step) : list Event := fst r.
Definition state_of (r : Step) : State := completion_state (snd r).
Definition threw (r : Step) : bool := throws (snd r).

Definition is_Draw (e : Event) : bool :=
  match e with
  | Draw _ _ _ _ _ _ _ => true
  | _ => false
  end.

Definition is_LoadConstantBuffer (e : Event) : bool :=
  match e with
  | LoadConstantBuffer _ _ => true
  | _ => false
  end.

(** The calls of lines 150-196, made only for a write that changes the
    register: dirty marking and the direct-state updates. *)
Definition is_change_triggered (e : Event) : bool :=
  match e with
  | MarkDirty _ | SetStride _ _ | SetDivisor _ _ | SetInputRate _ _
  | SetAttribute _ _ | SetPrimitiveRestart _ | SetParameters _
  | SetPatchControlPoints _ => true
  | _ => false
  end.

(** The argument a write is carried out with: the shadow copy's word in
    replay mode, the incoming word otherwise (and always for the shadow RAM
    control register itself). *)
Definition effective_argument (R : Registers) (T : Types)
    (method argument : Z) (s : State) : Z :=
  if method =? mme_shadowRamControl R then argument
  else
    match shadow_mode R T s with
    | MethodReplay => shadowRegisters s method
    | _ => argument
    end.

(** *** Well-formed register layouts

    The case labels of a C++ [switch] are pairwise distinct, and distinct
    registers of [Registers] lie at distinct offsets.  [scalar_labels] and
    [array_labels] list every label the three switches of [HandleMethod]
    dispatch on, together with the shadow RAM control register. *)

Definition scalar_labels (R : Registers) : list Z :=
  [ mme_shadowRamControl R; mme_instructionRamLoad R; mme_startAddressRamLoad R;
    i2m_launchDma R; i2m_loadInlineData R; syncpointAction R; clearSurface R;
    begin_ R; end_ R; drawVertexArray R; drawIndexBuffer R; semaphore_info R;
    firmwareCall R 4; primitiveRestartEnable R; tessellationParameters R;
    patchSize R ].

Definition array_labels (R : Registers) : list Z :=
  map (loadConstantBuffer_data R) (seq 0 16)
  ++ map (bindGroups_constantBuffer R) (seq 0 5)
  ++ map (vertexStreams_format R) (seq 0 16)
  ++ map (vertexStreams_frequency R) (seq 0 16)
  ++ map (vertexStreamInstance R) (seq 0 16)
  ++ map (vertexAttributes R) (seq 0 16).

Record well_formed (R : Registers) : Prop := {
  (** every label is a register of its own *)
  labels_distinct : NoDup (scalar_labels R ++ array_labels R);
  (** [count] is the first word of [drawVertexArray] and of
      [drawIndexBuffer]: [ENGINE_CASE(drawVertexArray, ...)] and
      [ENGINE_STRUCT_CASE(drawVertexArray, count, ...)] label the same
      method *)
  drawVertexArray_count_first : drawVertexArray_count R = drawVertexArray R;
  drawIndexBuffer_count_first : drawIndexBuffer_count R = drawIndexBuffer R;
  (** the registers a case block writes are not the method it handles *)
  instructionRamPointer_apart :
    mme_instructionRamPointer R <> mme_instructionRamLoad R;
  startAddressRamPointer_apart :
    mme_startAddressRamPointer R <> mme_startAddressRamLoad R;
  offset_apart :
    loadConstantBuffer_offset R ∉ map (loadConstantBuffer_data R) (seq 0 16);
  scratch_apart : firmwareCall R 4 <> 0xD00
}.

(** *** An example layout

    A layout and a decoding of the register words to run the dispatcher
    on.  Every register has an offset of its own; [count] is the only word
    of the two draw registers. *)

Definition example_registers : Registers :=
  {| mme_shadowRamControl := 0x49;
     mme_instructionRamPointer := 0x45;
     mme_instructionRamLoad := 0x46;
     mme_startAddressRamPointer := 0x47;
     mme_startAddressRamLoad := 0x48;
     i2m_launchDma := 0x6C;
     i2m_loadInlineData := 0x6D;
     syncpointAction := 0xB2;
     clearSurface := 0x674;
     begin_ := 0x586;
     end_ := 0x585;
     drawVertexArray := 0x35E;
     drawVertexArray_count := 0x35E;
     drawIndexBuffer := 0x5F8;
     drawIndexBuffer_count := 0x5F8;
     vertexArrayStart := 0x35D;
     indexBuffer := 0x5F2;
     indexBuffer_first := 0x5F7;
     globalBaseVertexIndex := 0x50D;
     globalBaseInstanceIndex := 0x50E;
     primitiveTopologyControl := 0x48B;
     primitiveTopology := 0x48C;
     semaphore_payload := 0x6C2;
     semaphore_info := 0x6C3;
     firmwareCall := fun i => 0x8C0 + Z.of_nat i;
     loadConstantBuffer_offset := 0x8E3;
     loadConstantBuffer_data := fun i => 0x8E4 + Z.of_nat i;
     bindGroups_constantBuffer := fun i => 0x904 + 8 * Z.of_nat i + 4;
     constantBufferSelector := 0x8E0;
     vertexStreams := fun i => 0x700 + 4 * Z.of_nat i;
     vertexStreams_format := fun i => 0x700 + 4 * Z.of_nat i;
     vertexStreams_frequency := fun i => 0x700 + 4 * Z.of_nat i + 3;
     vertexStreamLimits := fun i => 0x7C0 + 2 * Z.of_nat i;
     vertexStreamInstance := fun i => 0x620 + Z.of_nat i;
     vertexAttributes := fun i => 0x458 + Z.of_nat i;
     primitiveRestartEnable := 0x591;
     tessellationParameters := 0xC8;
     patchSize := 0xDD;
     colorTargets := fun i => 0x200 + 16 * Z.of_nat i;
     ztSize := 0x48A;
     ztOffset := 0x3F8;
     ztFormat := 0x3FA;
     ztBlockSize := 0x3FB;
     ztArrayPitch := 0x3FC;
     ztSelect := 0x54E;
     ztLayer := 0x44C;
     rasterEnable := 0xDF;
     frontPolygonMode := 0x36B;
     backPolygonMode := 0x370;
     oglCullEnable := 0x646;
     oglCullFace := 0x648;
     windowOrigin := 0x4EB;
     oglFrontFace := 0x647;
     viewportClipControl := 0x64F;
     polyOffset := 0x370 + 1;
     provokingVertex := 0x684;
     streamOutBuffers := fun i => 0xE0 + 8 * Z.of_nat i;
     streamOutEnable := fun _ => 0x744;
     viewports := fun i => 0x280 + 8 * Z.of_nat i;
     viewportClips := fun i => 0x300 + 4 * Z.of_nat i;
     viewportScaleOffsetEnable := 0x64B;
     scissors := fun i => 0x380 + 4 * Z.of_nat i;
     lineWidth := 0x4EC;
     lineWidthAliased := 0x4ED;
     aliasedLineWidthEnable := 0x4EE;
     depthBias := 0x56F;
     depthBiasClamp := 0x61F;
     slopeScaleDepthBias := 0x55B;
     blendConsts := 0x4C7;
     depthBoundsMin := 0x3E7;
     depthBoundsMax := 0x3E8;
     stencilValues := 0x4E5;
     backStencilValues := 0x3D5;
     twoSidedStencilTestEnable := 0x565 |}.

Definition example_types : Types :=
  {| shadowRamControl_of := fun w =>
       match Z.land w 3 with
       | 0 => MethodTrack
       | 1 => MethodTrackWithFilter
       | 2 => MethodPassthrough
       | _ => MethodReplay
       end;
     Begin_op := fun w => Z.land w 0xFFFF;
     Begin_instanceId := fun w =>
       match Z.land (Z.shiftr w 26) 3 with
       | 0 => First
       | 1 => Subsequent
       | _ => Unchanged
       end;
     PrimitiveTopologyControl_override := fun w =>
       if Z.testbit w 0 then UseSeparateTopologyState
       else UseTopologyInBeginMethods;
     ConvertPrimitiveTopologyToDrawTopology := fun w => w;
     VertexStream_format_stride := fun w => Z.land w 0xFFF;
     SyncpointAction_id := fun w => Z.land w 0xFFF;
     SemaphoreInfo_reductionEnable := fun w => Z.testbit w 3;
     SemaphoreInfo_op := fun w =>
       match Z.land w 3 with
       | 0 => Release
       | 2 => Counter
       | _ => SemaphoreOp_other
       end;
     SemaphoreInfo_counterType := fun w =>
       if Z.land (Z.shiftr w 23) 0x1F =? 0 then Zero else CounterType_other;
     SemaphoreInfo_structureSize := fun w =>
       if Z.testbit w 28 then OneWord else FourWords;
     BindGroup_constantBuffer_shaderSlot := fun w => Z.land (Z.shiftr w 4) 0x1F;
     BindGroup_constantBuffer_valid := fun w => Z.testbit w 0;
     semaphore_address := fun raw => raw 0x6C0 * 2 ^ 32 + raw 0x6C1;
     SyncpointCount := 192 |}.

(** The word of a begin write carrying the Subsequent marker (and
    topology 4) under [example_types]. *)
Definition begin_Subsequent : Z := 2 ^ 26 + 4.

(** A dispatcher at rest: no batch, no pending draw, instance count 1,
    shadow RAM in passthrough mode, four words of microcode memory and two
    macro positions. *)
Definition example_state : State :=
  {| registers := fun _ => 0;
     shadowRegisters := fun a => if a =? 0x49 then 2 else 0;
     batchLoadConstantBuffer := {| startOffset := None; buffer := [] |};
     deferredDraw :=
       {| pending := false; indexed := false; drawTopology := 0;
          instanceCount := 1; drawCount := 0; drawFirst := 0;
          drawBaseVertex := 0; drawBaseInstance := 0 |};
     macroCode := [0; 0; 0; 0];
     macroPositions := [0; 0] |}.

Definition example_packed_state : PackedPipelineState.t :=
  {| colorRenderTargetFormats := [0xCF; 0xCF; 0xCF; 0xCF; 0xCF; 0xCF; 0xCF; 0xCF];
     depthRenderTargetFormat := 0;
     polygonMode := vk.pmFill;
     cullMode := 0;
     depthFunc := 0;
     stencilFront := {| zPass := vk.eKeep; fail := vk.eKeep; zFail := vk.eKeep;
                        func := 0 |};
     stencilBack := {| zPass := vk.eKeep; fail := vk.eKeep; zFail := vk.eKeep;
                       func := 0 |};
     depthTestEnable := false;
     depthWriteEnable := false;
     depthBoundsTestEnable := false;
     stencilTestEnable := false |}.

(** The registers with [twoSidedStencilTestEnable] and [stencilBack]
    replaced. *)
Definition with_back_face (two : bool) (back : engine.StencilOps)
    (regs : DepthStencilState.EngineRegisters) : DepthStencilState.EngineRegisters :=
  {| DepthStencilState.depthTestEnable := DepthStencilState.depthTestEnable regs;
     DepthStencilState.depthWriteEnable := DepthStencilState.depthWriteEnable regs;
     DepthStencilState.depthFunc := DepthStencilState.depthFunc regs;
     DepthStencilState.depthBoundsTestEnable :=
       DepthStencilState.depthBoundsTestEnable regs;
     DepthStencilState.stencilTestEnable := DepthStencilState.stencilTestEnable regs;
     DepthStencilState.twoSidedStencilTestEnable := two;
     DepthStencilState.stencilOps := DepthStencilState.stencilOps regs;
     DepthStencilState.stencilBack := back |}.

(** Registers with two-sided stencil testing on and back-face ops that
    differ from the front-face ones. *)
Definition example_depth_stencil : DepthStencilState.EngineRegisters :=
  {| DepthStencilState.depthTestEnable := true;
     DepthStencilState.depthWriteEnable := true;
     DepthStencilState.depthFunc := 2;
     DepthStencilState.depthBoundsTestEnable := false;
     DepthStencilState.stencilTestEnable := true;
     DepthStencilState.twoSidedStencilTestEnable := true;
     DepthStencilState.stencilOps :=
       {| engine.fail := engine.D3DKeep; engine.zFail := engine.D3DKeep;
          engine.zPass := engine.D3DReplace; engine.func := 8 |};
     DepthStencilState.stencilBack :=
       {| engine.fail := engine.D3DZero; engine.zFail := engine.D3DInvert;
          engine.zPass := engine.D3DIncr; engine.func := 1 |} |}.

(** A colour target whose format register holds [Disabled], and depth
    target registers whose target count is zero. *)
Definition example_color_target : ColorTarget.t :=
  {| ColorTarget.offset := 0x10000;
     ColorTarget.width := 1280;
     ColorTarget.height := 720;
     ColorTarget.format := ColorTarget.Disabled;
     ColorTarget.memory :=
       {| ColorTarget.layout := ColorTarget.BlockLinear;
          ColorTarget.thirdDimensionControl := ColorTarget.ThirdDimensionDefinesArraySize;
          ColorTarget.BlockHeight := 16;
          ColorTarget.BlockDepth := 1 |};
     ColorTarget.thirdDimension := 1;
     ColorTarget.ArrayPitch := 0;
     ColorTarget.layerOffset := 0 |}.

Definition example_depth_target : DepthRenderTargetState.EngineRegisters :=
  {| DepthRenderTargetState.ztSize :=
       {| Zt.width := 1024; Zt.height := 768; Zt.thirdDimension := 1;
          Zt.control := Zt.ArraySizeIsOne |};
     DepthRenderTargetState.ztOffset := 0x20000;
     DepthRenderTargetState.ztFormat := Zt.Format_other 0;
     DepthRenderTargetState.ztBlockSize := {| Zt.BlockHeight := 16; Zt.BlockDepth := 1 |};
     DepthRenderTargetState.ztArrayPitch := 0;
     DepthRenderTargetState.ztSelect_targetCount := 0;
     DepthRenderTargetState.ztLayer_offset := 0 |}.

Definition example_guest : GuestTexture :=
  {| guest_format := None;
     guest_aspect := 0;
     guest_baseArrayLayer := 0;
     guest_layerCount := 0;
     guest_viewType := vk.e2D;
     guest_dimensions :=
       {| texture.dim_width := 0; texture.dim_height := 0; texture.dim_depth := 0 |};
     guest_tileConfig := texture.Linear;
     guest_layerStride := 0;
     guest_mappings := [] |}.

(** A colour format's underlying value in the examples: 0 for [Disabled]. *)
Definition example_color_value (f : ColorTarget.Format) : Z :=
  match f with
  | ColorTarget.Disabled => 0
  | ColorTarget.Format_other raw => raw
  | _ => 0xCF
  end.

Definition example_zt_value (f : Zt.Format) : Z :=
  match f with
  | Zt.Format_other raw => raw
  | _ => 0xA
  end.

(** The state after lines 81-88 of [HandleMethod], for a method other than
    the shadow RAM control register: the shadow copy updated in the track
    modes, the effective argument stored in the register file. *)
Definition commit (R : Registers) (T : Types) (method argument : Z) (s : State)
    : State :=
  write_register method (effective_argument R T method argument s)
    match shadow_mode R T s with
    | MethodTrack | MethodTrackWithFilter =>
        set_shadowRegisters (store (shadowRegisters s) method argument) s
    | MethodReplay | MethodPassthrough => s
    end.

(** The write stores what the register already holds (line 87). *)
Definition is_redundant (R : Registers) (T : Types) (method argument : Z)
    (s : State) : bool :=
  registers s method =? effective_argument R T method argument s.

(** The methods the deferred-draw switch names. *)
Definition draw_methods (R : Registers) : list Z :=
  [begin_ R; end_ R; drawVertexArray R; drawIndexBuffer R].

(** The state a flush of the deferred draw leaves. *)
Definition flushed (s : State) : State :=
  let d := deferredDraw s in
  set_deferredDraw
    {| pending := false;
       indexed := indexed d;
       drawTopology := drawTopology d;
       instanceCount := 1;
       drawCount := drawCount d;
       drawFirst := drawFirst d;
       drawBaseVertex := drawBaseVertex d;
       drawBaseInstance := drawBaseInstance d |} s.

(** The [Draw] call a flush of the deferred draw [d] makes. *)
Definition Draw_of (d : DeferredDrawState) : Event :=
  Draw (drawTopology d) (indexed d) (drawCount d) (drawFirst d)
    (instanceCount d) (drawBaseVertex d) (drawBaseInstance d).

(** The batch record once cleared. *)
Definition cleared_batch : BatchLoadConstantBufferState :=
  {| startOffset := None; buffer := [] |}.

(** What the per-method switch can touch. *)
Definition switch_frame (R : Registers) (m : Z) (s : State) (r : Step) : Prop :=
  shadowRegisters (state_of r) = shadowRegisters s
  /\ List.filter is_Draw (calls_of r) = []
  /\ List.filter is_LoadConstantBuffer (calls_of r) = []
  /\ List.filter is_change_triggered (calls_of r) = []
  /\ (m <> begin_ R -> m <> drawVertexArray_count R ->
      m <> drawIndexBuffer_count R ->
      deferredDraw (state_of r) = deferredDraw s)
  /\ (array_case 16 (loadConstantBuffer_data R) m = None ->
      batchLoadConstantBuffer (state_of r) = batchLoadConstantBuffer s).

(** What the two coalescing layers can touch: they never throw, make no
    change-triggered call and leave the shadow copy and the macro memory
    alone. *)
Definition coalesce_frame (s : State) (r : Step) : Prop :=
  shadowRegisters (state_of r) = shadowRegisters s
  /\ macroCode (state_of r) = macroCode s
  /\ macroPositions (state_of r) = macroPositions s
  /\ threw r = false
  /\ List.filter is_change_triggered (calls_of r) = [].

(** The dispatcher at rest with the shadow RAM in replay mode and the word
    7 recorded in the shadow copy for the clear-surface method. *)
Definition example_replay_state : State :=
  set_shadowRegisters
    (fun a => if a =? 0x49 then 3 else if a =? 0x674 then 7 else 0)
    example_state.

(** What a method that is neither a constant-buffer data method nor a draw
    method does in the coalescing layers: it submits the batch if one is
    active, and otherwise the deferred draw if one is pending. *)
Definition settle (s : State) : Step :=
  if Batch_Active (batchLoadConstantBuffer s)
  then ([LoadConstantBuffer (buffer (batchLoadConstantBuffer s))
           (fst (Batch_Invalidate (batchLoadConstantBuffer s)))],
        Normal (set_batchLoadConstantBuffer cleared_batch s))
  else FlushDeferredDraw s.

Definition settled (s : State) : State := state_of (settle s).

(** The two coalescing records are never busy together: a draw is pending
    or a batch is active, not both. *)
Definition exclusive (s : State) : Prop :=
  pending (deferredDraw s) && Batch_Active (batchLoadConstantBuffer s) = false.

(** The dispatcher at rest with the instruction RAM pointer and the start
    address RAM pointer at the capacities of their memories. *)
Definition example_full_state : State :=
  write_register 0x47 2 (write_register 0x45 4 example_state).

(** A deferred-draw record with its instance count replaced. *)
Definition with_instanceCount (n : Z) (d : DeferredDrawState) : DeferredDrawState :=
  {| pending := pending d;
     indexed := indexed d;
     drawTopology := drawTopology d;
     instanceCount := n;
     drawCount := drawCount d;
     drawFirst := drawFirst d;
     drawBaseVertex := drawBaseVertex d;
     drawBaseInstance := drawBaseInstance d |}.

(** A dispatcher with a non-indexed draw of 3 vertices pending. *)
Definition example_pending_state : State :=
  set_deferredDraw
    {| pending := true; indexed := false; drawTopology := 4;
       instanceCount := 1; drawCount := 3; drawFirst := 0;
       drawBaseVertex := 0; drawBaseInstance := 0 |}
    (write_register 0x35E 3 example_state).

(** ** maxwell_3d.cpp: the entry points around [HandleMethod] *)

(** What an entry point does: the calls the dispatcher makes, the verbose
    log line of [CallMethod], and the hand-over of a whole span of words to
    the inline-to-memory engine. *)
Inductive EngineCall :=
| Dispatched (e : Event)
| LogVerbose (message : string)
| LoadInlineDataSpan (arguments : list Z).

Definition EngineStep := (list EngineCall * Completion State)%type.

Section EntryPoints.
Variable R : Registers.
Variable T : Types.
Variable ENGINE_CASE_returns : bool.

(** The end of a [void] function whose body was a run of the dispatcher. *)
Definition dispatched (r : Step) : EngineStep :=
  (map Dispatched (fst r), returned (snd r)).

(** [Maxwell3D::CallMethod]. *)
Definition CallMethod (method argument : Z) (s : State) : EngineStep :=
  let r := dispatched (HandleMethod R T ENGINE_CASE_returns method argument s) in
  (LogVerbose "Called method in Maxwell 3D: 0x{:X} args: 0x{:X}" :: fst r, snd r).

(** [Maxwell3D::CallMethodBatchNonInc]: every word of the span goes to the
    same method, except that the inline-data method takes the span whole. *)
Definition CallMethodBatchNonInc (method : Z) (arguments : list Z) (s : State)
    : EngineStep :=
  if method =? i2m_loadInlineData R then
    ([LoadInlineDataSpan arguments], Return s)
  else
    dispatched
      (HandleMethods R T ENGINE_CASE_returns
         (map (fun argument => (method, argument)) arguments) s).

(** [Maxwell3D::CallMethodFromMacro]. *)
Definition CallMethodFromMacro (method argument : Z) (s : State) : EngineStep :=
  dispatched (HandleMethod R T ENGINE_CASE_returns method argument s).

(** [Maxwell3D::ReadMethodFromMacro]. *)
Definition ReadMethodFromMacro (method : Z) (s : State) : Z :=
  registers s method.
End EntryPoints.

Definition engine_calls (r : EngineStep) : list EngineCall := fst r.
Definition engine_state (r : EngineStep) : State := completion_state (snd r).
Definition engine_threw (r : EngineStep) : bool := throws (snd r).

(** The registers a case block of the per-method switch writes besides the
    method's own: the two macro memory pointers, the constant-buffer offset
    and the firmware scratch word. *)
Definition auxiliary_registers (R : Registers) : list Z :=
  [mme_instructionRamPointer R; mme_startAddressRamPointer R;
   loadConstantBuffer_offset R; 0xD00].

Definition is_SetAttribute (e : Event) : bool :=
  match e with
  | SetAttribute _ _ => true
  | _ => false
  end.

(** The guest memory writes a semaphore report makes. *)
Definition is_GmmuWrite (e : Event) : bool :=
  match e with
  | GmmuWrite32 _ _ | GmmuWriteTimestamp _ | GmmuWrite64 _ _ => true
  | _ => false
  end.

Definition is_Submit (e : Event) : bool :=
  match e with
  | Submit => true
  | _ => false
  end.

(** The shadow RAM in track mode and at rest otherwise. *)
Definition example_track_state : State :=
  set_shadowRegisters (fun _ => 0) example_state.

(** ** pipeline_state.cpp: the rasterization translator *)

Module RasterizationState.
(** [engine::FrontFace], [engine::PolyOffset] (types.h). *)
Inductive FrontFace := CW | CCW | FrontFace_other (raw : Z).

Record PolyOffset := {
  pointEnable : bool;
  lineEnable : bool;
  fillEnable : bool
}.

(** [RasterizationState::EngineRegisters], each register as [Flush] reads
    it: a word where the code tests or converts the word, the enumeration
    where it switches on it, the flag where it reads a one-bit field. *)
Record EngineRegisters := {
  rasterEnable : Z;
  frontPolygonMode : engine.PolygonMode;
  backPolygonMode : engine.PolygonMode;
  viewportClipControl : Z;
  oglCullEnable : Z;
  oglFrontFace : FrontFace;
  oglCullFace : engine.CullFace;
  windowOrigin_flipY : bool;
  provokingVertex_value : Z;
  polyOffset : PolyOffset
}.

(** The members of [PackedPipelineState] that [RasterizationState::Flush]
    assigns directly; [polygonMode] and [cullMode], which it sets through
    [SetPolygonMode] and [SetCullMode], are in [PackedPipelineState.t]. *)
Record Packed := {
  rasterizerDiscardEnable : bool;
  flipYEnable : bool;
  frontFaceClockwise : bool;
  depthBiasEnable : bool;
  provokingVertex : Z
}.

Definition set_rasterizerDiscardEnable (v : bool) (q : Packed) : Packed :=
  {| rasterizerDiscardEnable := v; flipYEnable := flipYEnable q;
     frontFaceClockwise := frontFaceClockwise q;
     depthBiasEnable := depthBiasEnable q; provokingVertex := provokingVertex q |}.

Definition set_flipYEnable (v : bool) (q : Packed) : Packed :=
  {| rasterizerDiscardEnable := rasterizerDiscardEnable q; flipYEnable := v;
     frontFaceClockwise := frontFaceClockwise q;
     depthBiasEnable := depthBiasEnable q; provokingVertex := provokingVertex q |}.

Definition set_frontFaceClockwise (v : bool) (q : Packed) : Packed :=
  {| rasterizerDiscardEnable := rasterizerDiscardEnable q;
     flipYEnable := flipYEnable q; frontFaceClockwise := v;
     depthBiasEnable := depthBiasEnable q; provokingVertex := provokingVertex q |}.

Definition set_depthBiasEnable (v : bool) (q : Packed) : Packed :=
  {| rasterizerDiscardEnable := rasterizerDiscardEnable q;
     flipYEnable := flipYEnable q; frontFaceClockwise := frontFaceClockwise q;
     depthBiasEnable := v; provokingVertex := provokingVertex q |}.

Definition set_provokingVertex (v : Z) (q : Packed) : Packed :=
  {| rasterizerDiscardEnable := rasterizerDiscardEnable q;
     flipYEnable := flipYEnable q; frontFaceClockwise := frontFaceClockwise q;
     depthBiasEnable := depthBiasEnable q; provokingVertex := v |}.
End RasterizationState.

Definition ConvertDepthBiasEnable (polyOffset : RasterizationState.PolyOffset)
    (polygonMode : engine.PolygonMode) : Result bool :=
  match polygonMode with
  | engine.PolygonMode_Point => Ok (RasterizationState.pointEnable polyOffset)
  | engine.PolygonMode_Line => Ok (RasterizationState.lineEnable polyOffset)
  | engine.PolygonMode_Fill => Ok (RasterizationState.fillEnable polyOffset)
  | engine.PolygonMode_other _ => Exception "Invalid polygon mode: 0x{:X}"
  end.

(** [RasterizationState::Flush], on the two parts of the packed state it
    writes. *)
Definition RasterizationState_Flush (regs : RasterizationState.EngineRegisters)
    (st : PackedPipelineState.t * RasterizationState.Packed)
    : list TranslatorCall
      * Completion (PackedPipelineState.t * RasterizationState.Packed) :=
  let '(p, q) := st in
  let q :=
    RasterizationState.set_rasterizerDiscardEnable
      (RasterizationState.rasterEnable regs =? 0) q in
  match SetPolygonMode (RasterizationState.frontPolygonMode regs) p with
  | Throw p what => ([], Throw (p, q) what)
  | Normal p | Break p | Return p =>
      let warnings :=
        if negb (engine.PolygonMode_eqb
                   (RasterizationState.backPolygonMode regs)
                   (RasterizationState.frontPolygonMode regs))
        then [Logger_Warn "Non-matching polygon modes!"] else [] in
      match SetCullMode (negb (RasterizationState.oglCullEnable regs =? 0))
              (RasterizationState.oglCullFace regs) p with
      | Throw p what => (warnings, Throw (p, q) what)
      | Normal p | Break p | Return p =>
          let q :=
            RasterizationState.set_flipYEnable
              (RasterizationState.windowOrigin_flipY regs) q in
          let origFrontFaceClockwise :=
            match RasterizationState.oglFrontFace regs with
            | RasterizationState.CW => true
            | _ => false
            end in
          let q :=
            RasterizationState.set_frontFaceClockwise
              (negb (Bool.eqb (RasterizationState.flipYEnable q)
                       origFrontFaceClockwise)) q in
          match ConvertDepthBiasEnable (RasterizationState.polyOffset regs)
                  (RasterizationState.frontPolygonMode regs) with
          | Exception what => (warnings, Throw (p, q) what)
          | Ok enable =>
              let q := RasterizationState.set_depthBiasEnable enable q in
              (warnings,
               Return (p, RasterizationState.set_provokingVertex
                            (RasterizationState.provokingVertex_value regs) q))
          end
      end
  end.

(** A block-linear colour target of format A8B8G8R8 whose third dimension
    counts two array layers. *)
Definition example_rgba_target : ColorTarget.t :=
  {| ColorTarget.offset := 0x10000;
     ColorTarget.width := 1280;
     ColorTarget.height := 720;
     ColorTarget.format := ColorTarget.A8B8G8R8;
     ColorTarget.memory :=
       {| ColorTarget.layout := ColorTarget.BlockLinear;
          ColorTarget.thirdDimensionControl := ColorTarget.ThirdDimensionDefinesArraySize;
          ColorTarget.BlockHeight := 16;
          ColorTarget.BlockDepth := 1 |};
     ColorTarget.thirdDimension := 2;
     ColorTarget.ArrayPitch := 0x400000;
     ColorTarget.layerOffset := 0 |}.

(** ** pipeline_state.cpp: the colour blend translator *)

(** [VkColorComponentFlagBits] of vulkan_core.h. *)
Definition VK_COLOR_COMPONENT_R_BIT : Z := 1.
Definition VK_COLOR_COMPONENT_G_BIT : Z := 2.
Definition VK_COLOR_COMPONENT_B_BIT : Z := 4.
Definition VK_COLOR_COMPONENT_A_BIT : Z := 8.

Module ColorBlendState.
(** [vk::BlendOp] and [vk::BlendFactor], the enumerators the conversions
    return. *)
Inductive vkBlendOp := eAdd | eSubtract | eReverseSubtract | eMin | eMax.

Inductive vkBlendFactor :=
| eZero | eOne | eSrcColor | eOneMinusSrcColor | eSrcAlpha | eOneMinusSrcAlpha
| eDstAlpha | eOneMinusDstAlpha | eDstColor | eOneMinusDstColor
| eSrcAlphaSaturate | eConstantColor | eOneMinusConstantColor
| eConstantAlpha | eOneMinusConstantAlpha
| eSrc1Color | eOneMinusSrc1Color | eSrc1Alpha | eOneMinusSrc1Alpha.

(** [engine::BlendOp] and [engine::BlendCoeff] (types.h): the enumerators
    the conversions name, and every other value. *)
Inductive BlendOp :=
| D3DAdd | OglFuncAdd | D3DSubtract | OglFuncSubtract
| D3DRevSubtract | OglFuncReverseSubtract | D3DMin | OglMin | D3DMax | OglMax
| BlendOp_other (raw : Z).

Inductive BlendCoeff :=
| OglZero | D3DZero | OglOne | D3DOne | OglSrcColor | D3DSrcColor
| OglOneMinusSrcColor | D3DInvSrcColor | OglSrcAlpha | D3DSrcAlpha
| OglOneMinusSrcAlpha | D3DInvSrcAlpha | OglDstAlpha | D3DDstAlpha
| OglOneMinusDstAlpha | D3DInvDstAlpha | OglDstColor | D3DDstColor
| OglOneMinusDstColor | D3DInvDstColor
| OglSrcAlphaSaturate | D3DSrcAlphaSaturate
| OglConstantColor | D3DBlendCoeff
| OglOneMinusConstantColor | D3DInvBlendCoeff
| OglConstantAlpha | OglOneMinusConstantAlpha
| OglSrc1Color | D3DSrc1Color | OglInvSrc1Color | D3DInvSrc1Color
| OglSrc1Alpha | D3DSrc1Alpha | OglInvSrc1Alpha | D3DInvSrc1Alpha
| BlendCoeff_other (raw : Z).

(** [engine::CtWrite]. *)
Record CtWrite := {
  rEnable : bool;
  gEnable : bool;
  bEnable : bool;
  aEnable : bool
}.

(** [engine::BlendPerTarget]; [engine::Blend] has the same six members
    and the per-target enable words besides. *)
Record BlendPerTarget := {
  colorOp : BlendOp;
  colorSourceCoeff : BlendCoeff;
  colorDestCoeff : BlendCoeff;
  alphaOp : BlendOp;
  alphaSourceCoeff : BlendCoeff;
  alphaDestCoeff : BlendCoeff
}.

Record Blend := {
  enable : nat -> Z;
  members : BlendPerTarget
}.

(** [ColorBlendState::EngineRegisters]. *)
Record EngineRegisters := {
  logicOp_enable : bool;
  logicOp_func : Z;
  singleCtWriteControl : Z;
  ctWrites : nat -> CtWrite;
  blendStatePerTargetEnable : Z;
  blendPerTargets : nat -> BlendPerTarget;
  blend : Blend
}.

(** [PackedPipelineState::AttachmentBlendState]. *)
Record AttachmentBlendState := {
  colorWriteMask : Z;
  colorBlendOp : vkBlendOp;
  srcColorBlendFactor : vkBlendFactor;
  dstColorBlendFactor : vkBlendFactor;
  alphaBlendOp : vkBlendOp;
  srcAlphaBlendFactor : vkBlendFactor;
  dstAlphaBlendFactor : vkBlendFactor;
  blendEnable : bool
}.

(** The members of [PackedPipelineState] the colour blend translator
    writes. *)
Record Packed := {
  logicOpEnable : bool;
  logicOp : Z;
  attachmentBlendStates : list AttachmentBlendState
}.

Definition set_logicOpEnable (v : bool) (q : Packed) : Packed :=
  {| logicOpEnable := v; logicOp := logicOp q;
     attachmentBlendStates := attachmentBlendStates q |}.

Definition set_logicOp (v : Z) (q : Packed) : Packed :=
  {| logicOpEnable := logicOpEnable q; logicOp := v;
     attachmentBlendStates := attachmentBlendStates q |}.

Definition set_attachmentBlendStates (v : list AttachmentBlendState) (q : Packed)
    : Packed :=
  {| logicOpEnable := logicOpEnable q; logicOp := logicOp q;
     attachmentBlendStates := v |}.
End ColorBlendState.

Section ColorBlend.
Import ColorBlendState.
(** [engine::LogicOp::Func::Clear] and [::Set], the bounds of the logic
    operations (types.h), and [engine::ColorTargetCount]. *)
Variables LogicOp_Clear LogicOp_Set : Z.
Variable ColorTargetCount : nat.

Definition SetLogicOp (op : Z) (q : Packed) : Completion Packed :=
  if (op <? LogicOp_Clear) || (op >? LogicOp_Set) then
    Throw q "Invalid logical operation: 0x{:X}"
  else Return (set_logicOp (u32 (u32 op - u32 LogicOp_Clear)) q).

Definition ConvertColorWriteMask (write : CtWrite) : Z :=
  Z.lor
    (Z.lor
       (Z.lor (if rEnable write then VK_COLOR_COMPONENT_R_BIT else 0)
              (if gEnable write then VK_COLOR_COMPONENT_G_BIT else 0))
       (if bEnable write then VK_COLOR_COMPONENT_B_BIT else 0))
    (if aEnable write then VK_COLOR_COMPONENT_A_BIT else 0).

Definition ConvertBlendOp (op : BlendOp) : Result vkBlendOp :=
  match op with
  | D3DAdd | OglFuncAdd => Ok eAdd
  | D3DSubtract | OglFuncSubtract => Ok eSubtract
  | D3DRevSubtract | OglFuncReverseSubtract => Ok eReverseSubtract
  | D3DMin | OglMin => Ok eMin
  | D3DMax | OglMax => Ok eMax
  | BlendOp_other _ => Exception "Invalid blend operation: 0x{:X}"
  end.

Definition ConvertBlendFactor (coeff : BlendCoeff) : Result vkBlendFactor :=
  match coeff with
  | OglZero | D3DZero => Ok eZero
  | OglOne | D3DOne => Ok eOne
  | OglSrcColor | D3DSrcColor => Ok eSrcColor
  | OglOneMinusSrcColor | D3DInvSrcColor => Ok eOneMinusSrcColor
  | OglSrcAlpha | D3DSrcAlpha => Ok eSrcAlpha
  | OglOneMinusSrcAlpha | D3DInvSrcAlpha => Ok eOneMinusSrcAlpha
  | OglDstAlpha | D3DDstAlpha => Ok eDstAlpha
  | OglOneMinusDstAlpha | D3DInvDstAlpha => Ok eOneMinusDstAlpha
  | OglDstColor | D3DDstColor => Ok eDstColor
  | OglOneMinusDstColor | D3DInvDstColor => Ok eOneMinusDstColor
  | OglSrcAlphaSaturate | D3DSrcAlphaSaturate => Ok eSrcAlphaSaturate
  | OglConstantColor | D3DBlendCoeff => Ok eConstantColor
  | OglOneMinusConstantColor | D3DInvBlendCoeff => Ok eOneMinusConstantColor
  | OglConstantAlpha => Ok eConstantAlpha
  | OglOneMinusConstantAlpha => Ok eOneMinusConstantAlpha
  | OglSrc1Color | D3DSrc1Color => Ok eSrc1Color
  | OglInvSrc1Color | D3DInvSrc1Color => Ok eOneMinusSrc1Color
  | OglSrc1Alpha | D3DSrc1Alpha => Ok eSrc1Alpha
  | OglInvSrc1Alpha | D3DInvSrc1Alpha => Ok eOneMinusSrc1Alpha
  | BlendCoeff_other _ => Exception "Invalid blend coefficient type: 0x{:X}"
  end.

(** The initialisers are evaluated in the order they are written. *)
Definition PackAttachmentBlendState (enabled : bool) (writeMask : CtWrite)
    (b : BlendPerTarget) : Result AttachmentBlendState :=
  let mask := ConvertColorWriteMask writeMask in
  bind_result (ConvertBlendOp (colorOp b)) (fun cop =>
  bind_result (ConvertBlendFactor (colorSourceCoeff b)) (fun csrc =>
  bind_result (ConvertBlendFactor (colorDestCoeff b)) (fun cdst =>
  bind_result (ConvertBlendOp (alphaOp b)) (fun aop =>
  bind_result (ConvertBlendFactor (alphaSourceCoeff b)) (fun asrc =>
  bind_result (ConvertBlendFactor (alphaDestCoeff b)) (fun adst =>
  Ok {| colorWriteMask := mask;
        colorBlendOp := cop;
        srcColorBlendFactor := csrc;
        dstColorBlendFactor := cdst;
        alphaBlendOp := aop;
        srcAlphaBlendFactor := asrc;
        dstAlphaBlendFactor := adst;
        blendEnable := enabled |})))))).

(** [SetAttachmentBlendState], the overload taking [engine::BlendPerTarget]
    and the one taking [engine::Blend]. *)
Definition SetAttachmentBlendState (index : nat) (enabled : bool)
    (writeMask : CtWrite) (b : BlendPerTarget) (q : Packed) : Completion Packed :=
  match PackAttachmentBlendState enabled writeMask b with
  | Exception what => Throw q what
  | Ok a =>
      Return (set_attachmentBlendStates
                (<[index := a]> (attachmentBlendStates q)) q)
  end.

Definition SetAttachmentBlendState_Blend (index : nat) (enabled : bool)
    (writeMask : CtWrite) (b : Blend) (q : Packed) : Completion Packed :=
  match PackAttachmentBlendState enabled writeMask (members b) with
  | Exception what => Throw q what
  | Ok a =>
      Return (set_attachmentBlendStates
                (<[index := a]> (attachmentBlendStates q)) q)
  end.

Variable regs : EngineRegisters.

(** The body of the loop of [ColorBlendState::Flush] for target [i]. *)
Definition flush_attachment (i : nat) (q : Packed) : Completion Packed :=
  let ctWrite :=
    if negb (singleCtWriteControl regs =? 0)
    then ctWrites regs 0%nat else ctWrites regs i in
  let enabled := negb (enable (blend regs) i =? 0) in
  if negb (blendStatePerTargetEnable regs =? 0)
  then SetAttachmentBlendState i enabled ctWrite (blendPerTargets regs i) q
  else SetAttachmentBlendState_Blend i enabled ctWrite (blend regs) q.

(** The loop over the targets still to do. *)
Fixpoint flush_attachments (targets : list nat) (q : Packed) : Completion Packed :=
  match targets with
  | [] => Normal q
  | i :: rest =>
      match flush_attachment i q with
      | Throw q' what => Throw q' what
      | Normal q' | Break q' | Return q' => flush_attachments rest q'
      end
  end.

(** [ColorBlendState::Flush]. *)
Definition ColorBlendState_Flush (q : Packed) : Completion Packed :=
  let q := set_logicOpEnable (logicOp_enable regs) q in
  match SetLogicOp (logicOp_func regs) q with
  | Throw q what => Throw q what
  | Normal q | Break q | Return q =>
      returned (flush_attachments (seq 0 ColorTargetCount) q)
  end.

(** What the loop body asks [PackAttachmentBlendState] for at target [i]. *)
Definition attachment_request (i : nat) : Result AttachmentBlendState :=
  PackAttachmentBlendState
    (negb (enable (blend regs) i =? 0))
    (if negb (singleCtWriteControl regs =? 0)
     then ctWrites regs 0%nat else ctWrites regs i)
    (if negb (blendStatePerTargetEnable regs =? 0)
     then blendPerTargets regs i else members (blend regs)).
End ColorBlend.

(** Colour blend registers with a single write mask for all targets, the
    common blend functions, and blending enabled on target 1 only. *)
Definition example_blend_registers : ColorBlendState.EngineRegisters :=
  {| ColorBlendState.logicOp_enable := false;
     ColorBlendState.logicOp_func := 0x1503;
     ColorBlendState.singleCtWriteControl := 1;
     ColorBlendState.ctWrites := fun i =>
       {| ColorBlendState.rEnable := true;
          ColorBlendState.gEnable := Nat.eqb i 0;
          ColorBlendState.bEnable := false;
          ColorBlendState.aEnable := true |};
     ColorBlendState.blendStatePerTargetEnable := 0;
     ColorBlendState.blendPerTargets := fun _ =>
       {| ColorBlendState.colorOp := ColorBlendState.BlendOp_other 0;
          ColorBlendState.colorSourceCoeff := ColorBlendState.OglOne;
          ColorBlendState.colorDestCoeff := ColorBlendState.OglZero;
          ColorBlendState.alphaOp := ColorBlendState.OglFuncAdd;
          ColorBlendState.alphaSourceCoeff := ColorBlendState.OglOne;
          ColorBlendState.alphaDestCoeff := ColorBlendState.OglZero |};
     ColorBlendState.blend :=
       {| ColorBlendState.enable := fun i => if Nat.eqb i 1 then 1 else 0;
          ColorBlendState.members :=
            {| ColorBlendState.colorOp := ColorBlendState.D3DAdd;
               ColorBlendState.colorSourceCoeff := ColorBlendState.D3DSrcAlpha;
               ColorBlendState.colorDestCoeff := ColorBlendState.D3DInvSrcAlpha;
               ColorBlendState.alphaOp := ColorBlendState.OglFuncAdd;
               ColorBlendState.alphaSourceCoeff := ColorBlendState.OglOne;
               ColorBlendState.alphaDestCoeff := ColorBlendState.OglZero |} |} |}.

Definition example_attachment : ColorBlendState.AttachmentBlendState :=
  {| ColorBlendState.colorWriteMask := 0;
     ColorBlendState.colorBlendOp := ColorBlendState.eAdd;
     ColorBlendState.srcColorBlendFactor := ColorBlendState.eOne;
     ColorBlendState.dstColorBlendFactor := ColorBlendState.eZero;
     ColorBlendState.alphaBlendOp := ColorBlendState.eAdd;
     ColorBlendState.srcAlphaBlendFactor := ColorBlendState.eOne;
     ColorBlendState.dstAlphaBlendFactor := ColorBlendState.eZero;
     ColorBlendState.blendEnable := false |}.

Definition example_blend_packed : ColorBlendState.Packed :=
  {| ColorBlendState.logicOpEnable := true;
     ColorBlendState.logicOp := 0;
     ColorBlendState.attachmentBlendStates := repeat example_attachment 8 |}.

(** ** pipeline_state.cpp: the vertex input translator *)

Module VertexAttribute.
(** [engine::VertexAttribute::ComponentBitWidths] and [::NumericalType]
    (types.h): the enumerators the format table names, and every other
    value. *)
Inductive ComponentBitWidths :=
| R8 | R8_G8 | G8R8 | R8_G8_B8 | R8_G8_B8_A8 | A8B8G8R8 | X8B8G8R8
| R16 | R16_G16 | R16_G16_B16 | R16_G16_B16_A16
| R32 | R32_G32 | R32_G32_B32 | R32_G32_B32_A32
| A2B10G10R10 | B10G11R11
| ComponentBitWidths_other (raw : Z).

Inductive NumericalType :=
| Snorm | Unorm | Sint | Uint | Uscaled | Sscaled | Float
| NumericalType_other (raw : Z).

Definition ComponentBitWidths_eq_dec (a b : ComponentBitWidths) : {a = b} + {a <> b}.
Proof. decide equality. apply Z.eq_dec. Defined.

Definition NumericalType_eq_dec (a b : NumericalType) : {a = b} + {a <> b}.
Proof. decide equality. apply Z.eq_dec. Defined.

(** A case label [bitWidths | type] of the format table.  The [|] of the
    two enumerations (types.h) packs both fields into one integer, so a
    label is matched when both fields are the label's. *)
Definition Label := (ComponentBitWidths * NumericalType)%type.

Definition Label_eqb (a b : Label) : bool :=
  (if ComponentBitWidths_eq_dec (fst a) (fst b) then true else false)
  && (if NumericalType_eq_dec (snd a) (snd b) then true else false).

(** The macros of [ConvertVertexInputAttributeFormat], each as the list of
    cases it expands to; a case returns the [vk::Format] enumerator whose
    name is pasted together from [vkFormat], [vkType] and the optional
    suffix. *)
Definition FORMAT_CASE (bitWidths : ComponentBitWidths) (type : NumericalType)
    (vkType vkFormat suffix : string) : list (Label * string) :=
  [((bitWidths, type), (vkFormat ++ vkType ++ suffix)%string)].

Definition FORMAT_INT_CASE (size : ComponentBitWidths) (vkFormat suffix : string)
    : list (Label * string) :=
  FORMAT_CASE size Uint "Uint" vkFormat suffix
  ++ FORMAT_CASE size Sint "Sint" vkFormat suffix.

Definition FORMAT_INT_FLOAT_CASE (size : ComponentBitWidths)
    (vkFormat suffix : string) : list (Label * string) :=
  FORMAT_INT_CASE size vkFormat suffix
  ++ FORMAT_CASE size Float "Sfloat" vkFormat suffix.

Definition FORMAT_NORM_INT_SCALED_CASE (size : ComponentBitWidths)
    (vkFormat suffix : string) : list (Label * string) :=
  FORMAT_INT_CASE size vkFormat suffix
  ++ FORMAT_CASE size Unorm "Unorm" vkFormat suffix
  ++ FORMAT_CASE size Snorm "Unorm" vkFormat suffix
  ++ FORMAT_CASE size Uscaled "Uscaled" vkFormat suffix
  ++ FORMAT_CASE size Sscaled "Sscaled" vkFormat suffix.

Definition FORMAT_NORM_INT_SCALED_FLOAT_CASE (size : ComponentBitWidths)
    (vkFormat : string) : list (Label * string) :=
  FORMAT_NORM_INT_SCALED_CASE size vkFormat ""
  ++ FORMAT_CASE size Float "Sfloat" vkFormat "".

(** The cases of the switch, in source order. *)
Definition cases : list (Label * string) :=
  (* 8-bit components *)
  FORMAT_NORM_INT_SCALED_CASE R8 "eR8" ""
  ++ FORMAT_NORM_INT_SCALED_CASE R8_G8 "eR8G8" ""
  ++ FORMAT_NORM_INT_SCALED_CASE G8R8 "eR8G8" ""
  ++ FORMAT_NORM_INT_SCALED_CASE R8_G8_B8 "eR8G8B8" ""
  ++ FORMAT_NORM_INT_SCALED_CASE R8_G8_B8_A8 "eR8G8B8A8" ""
  ++ FORMAT_NORM_INT_SCALED_CASE A8B8G8R8 "eR8G8B8A8" ""
  ++ FORMAT_NORM_INT_SCALED_CASE X8B8G8R8 "eR8G8B8A8" ""
  (* 16-bit components *)
  ++ FORMAT_NORM_INT_SCALED_FLOAT_CASE R16 "eR16"
  ++ FORMAT_NORM_INT_SCALED_FLOAT_CASE R16_G16 "eR16G16"
  ++ FORMAT_NORM_INT_SCALED_FLOAT_CASE R16_G16_B16 "eR16G16B16"
  ++ FORMAT_NORM_INT_SCALED_FLOAT_CASE R16_G16_B16_A16 "eR16G16B16A16"
  (* 32-bit components *)
  ++ FORMAT_INT_FLOAT_CASE R32 "eR32" ""
  ++ FORMAT_INT_FLOAT_CASE R32_G32 "eR32G32" ""
  ++ FORMAT_INT_FLOAT_CASE R32_G32_B32 "eR32G32B32" ""
  ++ FORMAT_INT_FLOAT_CASE R32_G32_B32_A32 "eR32G32B32A32" ""
  (* 10-bit RGB, 2-bit A *)
  ++ FORMAT_NORM_INT_SCALED_CASE A2B10G10R10 "eA2B10G10R10" "Pack32"
  (* 11-bit G and R, 10-bit B *)
  ++ FORMAT_CASE B10G11R11 Float "Ufloat" "eB10G11R11" "Pack32".
End VertexAttribute.

(** [ConvertVertexInputAttributeFormat]: the [vk::Format] enumerator by
    name, and the warning of the [default:] case. *)
Definition ConvertVertexInputAttributeFormat
    (componentBitWidths : VertexAttribute.ComponentBitWidths)
    (numericalType : VertexAttribute.NumericalType)
    : list TranslatorCall * string :=
  match find (fun c => VertexAttribute.Label_eqb
                         (componentBitWidths, numericalType) (fst c))
          VertexAttribute.cases with
  | Some c => ([], snd c)
  | None =>
      ([Logger_Warn "Unimplemented Maxwell3D Vertex Buffer Format: {} | {}"],
       "eR8G8B8A8Unorm")
  end.

Module VertexInputState.
(** [vk::VertexInputRate]. *)
Inductive VertexInputRate := eVertex | eInstance.

(** [engine::VertexStream] and [engine::VertexStreamInstance], as
    [SetVertexBinding] reads them. *)
Record VertexStream := {
  format_stride : Z;
  format_enable : bool;
  frequency : Z
}.

Record VertexStreamInstance := { isInstanced : bool }.

(** [VertexInputState::EngineRegisters]. *)
Record EngineRegisters := {
  vertexStreams : nat -> VertexStream;
  vertexStreamInstance : nat -> VertexStreamInstance;
  vertexAttributes : nat -> Z
}.

(** An element of [PackedPipelineState::vertexBindings]. *)
Record VertexBinding := {
  stride : Z;
  inputRate : VertexInputRate;
  enable : bool;
  divisor : Z
}.

(** The members of [PackedPipelineState] the vertex input translator
    writes. *)
Record Packed := {
  vertexBindings : list VertexBinding;
  packedAttributes : list Z
}.
End VertexInputState.

(** [engine::VertexStreamCount] is 16 and [engine::VertexAttributeCount]
    32, by the two [static_assert]s of [HandleMethod]. *)
Definition VertexAttributeCount : nat := 32.

Definition SetVertexBinding (index : nat) (stream : VertexInputState.VertexStream)
    (instance : VertexInputState.VertexStreamInstance)
    (q : VertexInputState.Packed) : VertexInputState.Packed :=
  {| VertexInputState.vertexBindings :=
       <[index :=
          {| VertexInputState.stride := VertexInputState.format_stride stream;
             VertexInputState.inputRate :=
               if VertexInputState.isInstanced instance
               then VertexInputState.eInstance else VertexInputState.eVertex;
             VertexInputState.enable := VertexInputState.format_enable stream;
             VertexInputState.divisor := VertexInputState.frequency stream |}]>
         (VertexInputState.vertexBindings q);
     VertexInputState.packedAttributes := VertexInputState.packedAttributes q |}.

(** [VertexInputState::Flush]: the two loops. *)
Definition VertexInputState_Flush (regs : VertexInputState.EngineRegisters)
    (q : VertexInputState.Packed) : VertexInputState.Packed :=
  let q :=
    fold_left
      (fun q i =>
         SetVertexBinding i (VertexInputState.vertexStreams regs i)
           (VertexInputState.vertexStreamInstance regs i) q)
      (seq 0 VertexStreamCount) q in
  fold_left
    (fun q i =>
       {| VertexInputState.vertexBindings := VertexInputState.vertexBindings q;
          VertexInputState.packedAttributes :=
            <[i := VertexInputState.vertexAttributes regs i]>
              (VertexInputState.packedAttributes q) |})
    (seq 0 VertexAttributeCount) q.

(** The binding [SetVertexBinding] packs for stream [i]. *)
Definition binding_of (regs : VertexInputState.EngineRegisters) (i : nat)
    : VertexInputState.VertexBinding :=
  {| VertexInputState.stride :=
       VertexInputState.format_stride (VertexInputState.vertexStreams regs i);
     VertexInputState.inputRate :=
       if VertexInputState.isInstanced (VertexInputState.vertexStreamInstance regs i)
       then VertexInputState.eInstance else VertexInputState.eVertex;
     VertexInputState.enable :=
       VertexInputState.format_enable (VertexInputState.vertexStreams regs i);
     VertexInputState.divisor :=
       VertexInputState.frequency (VertexInputState.vertexStreams regs i) |}.

(** Vertex input registers in which stream [i] has stride [4 i] and is
    instanced from stream 8 on, and a packed state of zeroed slots. *)
Definition example_vertex_registers : VertexInputState.EngineRegisters :=
  {| VertexInputState.vertexStreams := fun i =>
       {| VertexInputState.format_stride := 4 * Z.of_nat i;
          VertexInputState.format_enable := true;
          VertexInputState.frequency := 1 |};
     VertexInputState.vertexStreamInstance := fun i =>
       {| VertexInputState.isInstanced := Nat.leb 8 i |};
     VertexInputState.vertexAttributes := fun i => 0x100 + Z.of_nat i |}.

Definition example_vertex_packed : VertexInputState.Packed :=
  {| VertexInputState.vertexBindings :=
       repeat {| VertexInputState.stride := 0;
                 VertexInputState.inputRate := VertexInputState.eVertex;
                 VertexInputState.enable := false;
                 VertexInputState.divisor := 0 |} 16;
     VertexInputState.packedAttributes := repeat 0 32 |}.

(** ** services/spl/IRandomInterface.cpp *)

(** The part of [ipc::IpcRequest] the service reads: the output buffers,
    each a span of bytes, here its content. *)
Record IpcRequest := { outputBuf : list (list Z) }.

Section RandomInterface.
(** The global generator [rng] (a [std::mt19937]) and one draw of the
    [std::uniform_int_distribution<u16>(0, 255)] from it: the number drawn
    and the generator after the draw. *)
Variable Rng : Type.
Variable distribution : Rng -> Z * Rng.

(** [std::generate] over a vector of [n] bytes: one draw per byte, front to
    back, each cast to [u8]. *)
Fixpoint generate (n : nat) (rng : Rng) : list Z * Rng :=
  match n with
  | O => ([], rng)
  | S n =>
      let '(x, rng) := distribution rng in
      let '(data, rng) := generate n rng in
      (u8 x :: data, rng)
  end.

(** [IRandomInterface::GetRandomBytes]: returns the success [Result{}]
    with the first output buffer overwritten, or throws out of
    [outputBuf.at(0)]. *)
Definition GetRandomBytes (request : IpcRequest) (rng : Rng)
    : Completion (IpcRequest * Rng) :=
  match outputBuf request with
  | [] => Throw (request, rng) "std::out_of_range"
  | outBuf :: others =>
      let '(data, rng) := generate (length outBuf) rng in
      Return ({| outputBuf := data :: others |}, rng)
  end.
End RandomInterface.

(** Depth target registers selecting one target of format Z24S8 whose
    third dimension counts a single array layer. *)
Definition example_depth_array_target : DepthRenderTargetState.EngineRegisters :=
  {| DepthRenderTargetState.ztSize :=
       {| Zt.width := 1024; Zt.height := 768; Zt.thirdDimension := 1;
          Zt.control := Zt.ThirdDimensionDefinesArraySize |};
     DepthRenderTargetState.ztOffset := 0x20000;
     DepthRenderTargetState.ztFormat := Zt.Z24S8;
     DepthRenderTargetState.ztBlockSize := {| Zt.BlockHeight := 16; Zt.BlockDepth := 1 |};
     DepthRenderTargetState.ztArrayPitch := 0;
     DepthRenderTargetState.ztSelect_targetCount := 1;
     DepthRenderTargetState.ztLayer_offset := 0 |}.

(** * Properties *)

(** ** Machine integers *)

Lemma u32_range x : 0 <= u32 x < 2 ^ 32.
Proof. unfold u32. apply Z.mod_pos_bound. lia. Qed.

Lemma u32_small x : 0 <= x < 2 ^ 32 -> u32 x = x.
Proof. intros H. unfold u32. apply Z.mod_small. exact H. Qed.

(** ** Packed state setters *)

(** Whatever case the switch of [SetPolygonMode] is entered at, control
    runs on into [default:]. *)
Lemma SetPolygonMode_throws mode p :
  exists p', SetPolygonMode mode p = Throw p' "Invalid polygon mode: 0x{:X}".
Proof.
  destruct mode; unfold SetPolygonMode, switch; cbn; eexists; reflexivity.
Qed.

Lemma SetCullMode_enabled_throws mode p :
  exists p', SetCullMode true mode p = Throw p' "Invalid cull mode: 0x{:X}".
Proof.
  destruct mode; unfold SetCullMode, switch; cbn; eexists; reflexivity.
Qed.

(** C1 (the code falls short of the claim).  The claim: for every polygon
    mode in {Fill, Line, Point} [SetPolygonMode] stores the corresponding
    Vulkan mode and does not raise, for every other value it raises; and
    likewise for [SetCullMode] with culling enabled.  What the code does:
    no case of either switch ends in [break] or [return], so every case
    falls through into [default:] and the setter throws for EVERY value.
    On the way a named polygon mode is overwritten down to [ePoint], a
    named cull face down to FRONT|BACK.  Only the second half of the claim
    (values outside the set raise) and the disabled-culling path hold. *)
Theorem C1_polygon_and_cull_setters_throw_for_every_mode :
  (forall mode p,
     exists p', SetPolygonMode mode p = Throw p' "Invalid polygon mode: 0x{:X}")
  /\ (forall p,
        SetPolygonMode engine.PolygonMode_Fill p
        = Throw (set_polygonMode vk.pmPoint
                   (set_polygonMode vk.pmLine (set_polygonMode vk.pmFill p)))
            "Invalid polygon mode: 0x{:X}")
  /\ (forall p,
        SetPolygonMode engine.PolygonMode_Line p
        = Throw (set_polygonMode vk.pmPoint (set_polygonMode vk.pmLine p))
            "Invalid polygon mode: 0x{:X}")
  /\ (forall raw p,
        SetPolygonMode (engine.PolygonMode_other raw) p
        = Throw p "Invalid polygon mode: 0x{:X}")
  /\ (forall mode p,
        exists p', SetCullMode true mode p = Throw p' "Invalid cull mode: 0x{:X}")
  /\ (forall p,
        SetCullMode true engine.CullFace_Front p
        = Throw (set_cullMode 3
                   (set_cullMode VK_CULL_MODE_BACK_BIT
                      (set_cullMode VK_CULL_MODE_FRONT_BIT p)))
            "Invalid cull mode: 0x{:X}")
  /\ (forall raw p,
        SetCullMode true (engine.CullFace_other raw) p
        = Throw p "Invalid cull mode: 0x{:X}")
  /\ (forall mode p, SetCullMode false mode p = Return (set_cullMode 0 p)).
Proof.
  repeat split; intros;
    try apply SetPolygonMode_throws; try apply SetCullMode_enabled_throws;
    reflexivity.
Qed.

(** ** The depth-stencil translator *)

Section DepthStencil.
Variables D3DNever D3DAlways OglNever OglAlways : Z.

(** The back-face registers are never read. *)
Lemma Flush_ignores_back_face two back regs p :
  DepthStencilState_Flush D3DNever D3DAlways OglNever OglAlways
    (with_back_face two back regs) p
  = DepthStencilState_Flush D3DNever D3DAlways OglNever OglAlways regs p.
Proof. reflexivity. Qed.

(** [Flush] returns whenever the depth function and the front-face
    stencil ops convert. *)
Lemma Flush_returns regs p op ops :
  ConvertCompareFunc D3DNever D3DAlways OglNever OglAlways
    (DepthStencilState.depthFunc regs) = Ok op ->
  PackStencilOps D3DNever D3DAlways OglNever OglAlways
    (DepthStencilState.stencilOps regs) = Ok ops ->
  exists p',
    DepthStencilState_Flush D3DNever D3DAlways OglNever OglAlways regs p = Return p'
    /\ stencilFront p' = ops /\ stencilBack p' = ops /\ depthFunc p' = op.
Proof.
  intros Hc Hp. unfold DepthStencilState_Flush, SetDepthFunc, SetStencilOps.
  rewrite Hc. cbn [call]. rewrite Hp.
  eexists. split; [reflexivity | cbn; auto].
Qed.

(** C6.  For every depth-stencil register state, after
    [DepthStencilState::Flush] has returned, the packed back-face stencil
    ops are the conversion of the FRONT-face [stencilOps] registers (and so
    equal the packed front-face ops), whatever [twoSidedStencilTestEnable]
    and the [stencilBack] registers hold: replacing those two leaves the
    result of the flush unchanged. *)
Theorem C6_back_stencil_is_front_stencil regs p p' :
  DepthStencilState_Flush D3DNever D3DAlways OglNever OglAlways regs p = Return p' ->
  PackStencilOps D3DNever D3DAlways OglNever OglAlways
    (DepthStencilState.stencilOps regs) = Ok (stencilBack p')
  /\ stencilBack p' = stencilFront p'
  /\ forall two back,
       DepthStencilState_Flush D3DNever D3DAlways OglNever OglAlways
         (with_back_face two back regs) p = Return p'.
Proof.
  intros H. split; [| split]; [| | intros; exact H].
  all: revert H; unfold DepthStencilState_Flush, SetDepthFunc, SetStencilOps;
    destruct (ConvertCompareFunc _ _ _ _ (DepthStencilState.depthFunc regs));
    cbn [call]; try discriminate;
    destruct (PackStencilOps _ _ _ _ (DepthStencilState.stencilOps regs));
    try discriminate;
    intros H; injection H as <-; reflexivity.
Qed.
End DepthStencil.

Lemma C6_witness :
  let p' :=
    completion_state
      (DepthStencilState_Flush 1 8 0x200 0x207 example_depth_stencil
         example_packed_state) in
  stencilBack p'
  = {| zPass := vk.eReplace; fail := vk.eKeep; zFail := vk.eKeep; func := 7 |}
  /\ stencilBack p' = stencilFront p'.
Proof.
  cbv zeta.
  destruct (C6_back_stencil_is_front_stencil 1 8 0x200 0x207
              example_depth_stencil example_packed_state
              (completion_state
                 (DepthStencilState_Flush 1 8 0x200 0x207 example_depth_stencil
                    example_packed_state)) eq_refl) as (Hpack & Hsame & _).
  split; [| exact Hsame].
  change (PackStencilOps 1 8 0x200 0x207
            (DepthStencilState.stencilOps example_depth_stencil))
    with (Ok {| zPass := vk.eReplace; fail := vk.eKeep; zFail := vk.eKeep;
                func := 7 |}) in Hpack.
  congruence.
Defined.

(** ** The render-target translators *)

Section RenderTargets.
Variable ColorFormat_value : ColorTarget.Format -> Z.
Variable ZtFormat_value : Zt.Format -> Z.
Variable TextureView : Type.
Variable bpb : texture.Format -> Z.
Variable vkAspect : texture.Format -> Z.
Variable GetSize : GuestTexture -> Z.
Variable TranslateRange : Z -> Z -> list (Z * Z).
Variable FindOrCreate : GuestTexture -> option TextureView.
Variable GuestTexture_init : GuestTexture.

(** C9.  When the colour target's format register holds [Disabled],
    flushing the colour render-target translator returns (nothing is
    thrown) with a null view, makes no call at all (no range is translated,
    no view descriptor is looked up) and leaves the target's packed format
    field equal to the packed value of [Disabled].  When the depth target
    select register counts zero targets, flushing the depth render-target
    translator returns with a null view and makes no call, whatever the
    depth format register holds. *)
Theorem C9_disabled_target_has_no_view :
  (forall index target st,
     ColorTarget.format target = ColorTarget.Disabled ->
     (index < length (colorRenderTargetFormats (packedState _ st)))%nat ->
     exists st',
       ColorRenderTargetState_Flush ColorFormat_value TextureView bpb GetSize
         TranslateRange FindOrCreate GuestTexture_init index target st
       = Return st'
       /\ view _ st' = None
       /\ calls _ st' = calls _ st
       /\ colorRenderTargetFormats (packedState _ st') !! index
          = Some (u8 (ColorFormat_value ColorTarget.Disabled)))
  /\ (forall regs st,
        DepthRenderTargetState.ztSelect_targetCount regs = 0 ->
        exists st',
          DepthRenderTargetState_Flush ZtFormat_value TextureView vkAspect GetSize
            TranslateRange FindOrCreate GuestTexture_init regs st
          = Return st'
          /\ view _ st' = None
          /\ calls _ st' = calls _ st).
Proof.
  split.
  - intros index target st Hfmt Hlen.
    unfold ColorRenderTargetState_Flush. rewrite Hfmt. cbn [ColorTarget.is_Disabled].
    eexists. split; [reflexivity |]. cbn.
    repeat split. apply list_lookup_insert_eq. exact Hlen.
  - intros regs st Hcount.
    unfold DepthRenderTargetState_Flush. rewrite Hcount. cbn [Z.eqb].
    eexists. split; [reflexivity |]. cbn. auto.
Qed.
End RenderTargets.

Lemma C9_witness :
  (exists st',
     ColorRenderTargetState_Flush example_color_value GuestTexture
       (fun _ => 4) (fun _ => 0x1000) (fun a n => [(a, n)]) Some example_guest
       3%nat example_color_target
       {| packedState := example_packed_state; view := Some example_guest;
          calls := [] |}
     = Return st'
     /\ view _ st' = None
     /\ calls _ st' = []
     /\ colorRenderTargetFormats (packedState _ st') !! 3%nat = Some 0)
  /\ (exists st',
        DepthRenderTargetState_Flush example_zt_value GuestTexture
          (fun _ => 2) (fun _ => 0x1000) (fun a n => [(a, n)]) Some example_guest
          example_depth_target
          {| packedState := example_packed_state; view := Some example_guest;
             calls := [] |}
        = Return st'
        /\ view _ st' = None
        /\ calls _ st' = []).
Proof.
  pose proof (C9_disabled_target_has_no_view example_color_value example_zt_value
                GuestTexture (fun _ => 4) (fun _ => 2) (fun _ => 0x1000)
                (fun a n => [(a, n)]) Some example_guest) as [Hcolor Hdepth].
  split.
  - apply (Hcolor 3%nat example_color_target
             {| packedState := example_packed_state; view := Some example_guest;
                calls := [] |}); [reflexivity | cbn; lia].
  - apply (Hdepth example_depth_target
             {| packedState := example_packed_state; view := Some example_guest;
                calls := [] |}); reflexivity.
Defined.

(** ** Register bundles *)

(** C10.  The depth-bounds bundle made by [MakeActiveStateRegisters]
    refers to [depthBoundsMin] in both of its fields (the second is
    [depthBoundsMin] again, not [depthBoundsMax]); so what is read through
    the bundle is the same in two register files that differ only at
    [depthBoundsMax]. *)
Theorem C10_depth_bounds_bundle_never_reads_max
    (R : Registers) (ColorTargetCount StreamOutBufferCount ViewportCount : nat) :
  let bundle :=
    ActiveState.depthBoundsRegisters
      (MakeActiveStateRegisters R ColorTargetCount StreamOutBufferCount
         ViewportCount) in
  bundle = [depthBoundsMin R; depthBoundsMin R]
  /\ forall raw1 raw2 : RegisterFile,
       depthBoundsMax R <> depthBoundsMin R ->
       (forall a, a <> depthBoundsMax R -> raw1 a = raw2 a) ->
       observe raw1 bundle = observe raw2 bundle.
Proof.
  cbv zeta. split; [reflexivity |].
  intros raw1 raw2 Hne Hsame. cbn.
  rewrite (Hsame (depthBoundsMin R)) by congruence. reflexivity.
Qed.

Lemma C10_witness :
  observe (fun _ => 0)
    (ActiveState.depthBoundsRegisters
       (MakeActiveStateRegisters example_registers 8 4 16))
  = observe (store (fun _ => 0) (depthBoundsMax example_registers) 0x3F800000)
      (ActiveState.depthBoundsRegisters
         (MakeActiveStateRegisters example_registers 8 4 16)).
Proof.
  apply (proj2 (C10_depth_bounds_bundle_never_reads_max example_registers 8 4 16)).
  - vm_compute. discriminate.
  - intros a Ha. unfold store.
    destruct (Z.eqb_spec a (depthBoundsMax example_registers)); [contradiction | reflexivity].
Defined.

(** ** The dispatcher: building blocks *)

Lemma store_same rf a v : store rf a v a = v.
Proof. unfold store. rewrite Z.eqb_refl. reflexivity. Qed.

Lemma store_other rf a v b : b <> a -> store rf a v b = rf b.
Proof. intros H. unfold store. apply Z.eqb_neq in H. rewrite H. reflexivity. Qed.

Lemma array_case_None n label m :
  m ∉ map label (seq 0 n) -> array_case n label m = None.
Proof.
  unfold array_case. generalize (seq 0 n) as l.
  induction l as [| i l IH]; intros H; [reflexivity |].
  cbn in *. apply not_elem_of_cons in H as [Hne Hl].
  apply Z.eqb_neq in Hne. rewrite Hne. apply IH, Hl.
Qed.

Lemma array_case_Some n label i :
  (i < n)%nat -> exists j, array_case n label (label i) = Some j.
Proof.
  intros Hi. unfold array_case.
  destruct (find (fun k => label i =? label k) (seq 0 n)) as [j |] eqn:E;
    [eauto |].
  exfalso.
  assert (Hin : In i (seq 0 n)) by (apply in_seq; lia).
  pose proof (find_none _ _ E i Hin) as Hf. cbn in Hf.
  rewrite Z.eqb_refl in Hf. discriminate.
Qed.

Lemma array_case_label n label m j :
  array_case n label m = Some j -> m = label j /\ (j < n)%nat.
Proof.
  unfold array_case. intros H. apply find_some in H as [Hin Heq].
  apply Z.eqb_eq in Heq. apply in_seq in Hin. split; [exact Heq | lia].
Qed.

Lemma state_of_andThen x k :
  state_of (andThen x k)
  = match snd x with
    | Normal s => state_of (k s)
    | _ => state_of x
    end.
Proof. unfold andThen, state_of. destruct x as [cs []]; reflexivity. Qed.

Lemma calls_of_andThen x k :
  calls_of (andThen x k)
  = match snd x with
    | Normal s => calls_of x ++ calls_of (k s)
    | _ => calls_of x
    end.
Proof. unfold andThen, calls_of. destruct x as [cs []]; reflexivity. Qed.

Lemma threw_andThen x k :
  threw (andThen x k)
  = match snd x with
    | Normal s => threw (k s)
    | _ => threw x
    end.
Proof. unfold andThen, threw. destruct x as [cs []]; reflexivity. Qed.

(** *** Facts about a well-formed layout *)

Section Layout.
Variable R : Registers.
Hypothesis Hwf : well_formed R.

Lemma scalars_distinct : NoDup (scalar_labels R).
Proof. destruct Hwf as [H _ _ _ _ _ _]. apply NoDup_app in H. tauto. Qed.

Lemma scalar_not_array x : x ∈ scalar_labels R -> x ∉ array_labels R.
Proof. destruct Hwf as [H _ _ _ _ _ _]. apply NoDup_app in H. apply H. Qed.

Lemma arrays_distinct : NoDup (array_labels R).
Proof. destruct Hwf as [H _ _ _ _ _ _]. apply NoDup_app in H. tauto. Qed.

Lemma scalar_labels_neq i j x y :
  scalar_labels R !! i = Some x -> scalar_labels R !! j = Some y ->
  i <> j -> x <> y.
Proof.
  intros Hi Hj Hij ->. apply Hij.
  exact (NoDup_lookup _ i j y scalars_distinct Hi Hj).
Qed.

(** A scalar label is no label of any array family. *)
Lemma scalar_array_cases x :
  x ∈ scalar_labels R ->
  array_case 16 (loadConstantBuffer_data R) x = None
  /\ array_case 5 (bindGroups_constantBuffer R) x = None
  /\ array_case 16 (vertexStreams_format R) x = None
  /\ array_case 16 (vertexStreams_frequency R) x = None
  /\ array_case 16 (vertexStreamInstance R) x = None
  /\ array_case 16 (vertexAttributes R) x = None.
Proof.
  intros Hx. apply scalar_not_array in Hx. unfold array_labels in Hx.
  repeat rewrite not_elem_of_app in Hx.
  repeat split; apply array_case_None; tauto.
Qed.

(** A constant-buffer data method is no scalar label and no label of the
    vertex-input families. *)
Lemma data_label_cases i :
  (i < 16)%nat ->
  (loadConstantBuffer_data R i ∉ scalar_labels R)
  /\ array_case 16 (vertexStreams_format R) (loadConstantBuffer_data R i) = None
  /\ array_case 16 (vertexStreams_frequency R) (loadConstantBuffer_data R i) = None
  /\ array_case 16 (vertexStreamInstance R) (loadConstantBuffer_data R i) = None
  /\ array_case 16 (vertexAttributes R) (loadConstantBuffer_data R i) = None
  /\ loadConstantBuffer_data R i <> loadConstantBuffer_offset R.
Proof.
  intros Hi.
  assert (Hin : loadConstantBuffer_data R i ∈ map (loadConstantBuffer_data R) (seq 0 16)).
  { apply list_elem_of_In, in_map, in_seq. lia. }
  split; [| split; [| split; [| split; [| split]]]].
  - intros Hs. apply scalar_not_array in Hs. apply Hs.
    unfold array_labels. apply elem_of_app. left. exact Hin.
  - apply array_case_None. pose proof arrays_distinct as H. unfold array_labels in H.
    apply NoDup_app in H as (_ & H & _). specialize (H _ Hin).
    repeat rewrite not_elem_of_app in H. tauto.
  - apply array_case_None. pose proof arrays_distinct as H. unfold array_labels in H.
    apply NoDup_app in H as (_ & H & _). specialize (H _ Hin).
    repeat rewrite not_elem_of_app in H. tauto.
  - apply array_case_None. pose proof arrays_distinct as H. unfold array_labels in H.
    apply NoDup_app in H as (_ & H & _). specialize (H _ Hin).
    repeat rewrite not_elem_of_app in H. tauto.
  - apply array_case_None. pose proof arrays_distinct as H. unfold array_labels in H.
    apply NoDup_app in H as (_ & H & _). specialize (H _ Hin).
    repeat rewrite not_elem_of_app in H. tauto.
  - intros E. destruct Hwf as [_ _ _ _ _ Hoff _]. apply Hoff. rewrite <- E. exact Hin.
Qed.
End Layout.

(** [scalar_neq R Hwf] proves [x <> y] for two different scalar labels of
    a well-formed layout, by their positions in [scalar_labels]. *)
Ltac index_in x l :=
  lazymatch l with
  | x :: _ => constr:(0%nat)
  | _ :: ?r => let n := index_in x r in constr:(S n)
  end.

Ltac scalar_neq R Hwf :=
  lazymatch goal with
  | |- ?x <> ?y =>
      let l := eval cbv delta [scalar_labels] beta in (scalar_labels R) in
      let i := index_in x l in
      let j := index_in y l in
      apply (scalar_labels_neq R Hwf i j x y); [reflexivity | reflexivity | lia]
  end.

Ltac scalar_in :=
  unfold scalar_labels; repeat first [apply list_elem_of_here | apply list_elem_of_further].

(** *** The layers of [HandleMethod] *)

(** Case analysis on the tests of a layer.  [on_test c] splits on one test
    and reduces the branch taken; [leaf_cases] finishes a branch off by
    splitting on whatever tests are left in it. *)
Ltac on_test c := destruct c eqn:?; cbv beta iota.

Ltac leaf_cases :=
  repeat first
    [ progress cbn [andThen emit leave continue raise when fst snd
                    calls_of state_of threw throws completion_state app
                    List.filter is_Draw is_LoadConstantBuffer is_change_triggered
                    registers shadowRegisters batchLoadConstantBuffer
                    deferredDraw macroCode macroPositions
                    set_registers set_shadowRegisters set_batchLoadConstantBuffer
                    set_deferredDraw set_macroCode set_macroPositions
                    write_register update_instanceCount advance_offset push_back
                    Batch_Invalidate Batch_Reset negb andb]
    | match goal with
      | |- context [if ?c then _ else _] => destruct c eqn:?
      | |- context [match ?x with _ => _ end] => destruct x eqn:?
      end ].

Section Layers.
Variable R : Registers.
Variable T : Types.
Variable flag : bool.

Lemma HandleMethod_control a s :
  HandleMethod R T flag (mme_shadowRamControl R) a s
  = leave (set_shadowRegisters
             (store (shadowRegisters s) (mme_shadowRamControl R) a)
             (write_register (mme_shadowRamControl R) a s)).
Proof. unfold HandleMethod. rewrite Z.eqb_refl. reflexivity. Qed.

Lemma shadow_mode_commit m a s :
  m <> mme_shadowRamControl R ->
  shadow_mode R T (commit R T m a s) = shadow_mode R T s.
Proof.
  intros Hm. unfold commit, shadow_mode, write_register.
  destruct (shadowRamControl_of T (shadowRegisters s (mme_shadowRamControl R)))
    eqn:E; cbn [shadowRegisters set_registers set_shadowRegisters];
    try rewrite store_other by congruence; exact E.
Qed.

Lemma HandleMethod_layers m a s :
  m <> mme_shadowRamControl R ->
  HandleMethod R T flag m a s
  = andThen
      (CoalesceLayer R T m (effective_argument R T m a s) (is_redundant R T m a s)
         (commit R T m a s))
      (fun s1 =>
         andThen
           (when (negb (is_redundant R T m a s))
              (ChangedLayer R T flag m (effective_argument R T m a s)) s1)
           (fun s2 => MethodSwitch R T flag m (effective_argument R T m a s) s2)).
Proof.
  intros Hm. unfold HandleMethod, is_redundant, commit, effective_argument.
  apply Z.eqb_neq in Hm. rewrite Hm.
  unfold shadow_mode.
  destruct (shadowRamControl_of T (shadowRegisters s (mme_shadowRamControl R)))
    eqn:Hmode; cbn [shadowRegisters set_shadowRegisters registers];
    try rewrite Hmode; try reflexivity.
  all: rewrite store_other by (apply Z.eqb_neq in Hm; congruence);
    rewrite Hmode; reflexivity.
Qed.

Lemma registers_commit m a s :
  registers (commit R T m a s)
  = store (registers s) m (effective_argument R T m a s).
Proof. unfold commit. destruct (shadow_mode R T s); reflexivity. Qed.

Lemma commit_keeps m a s :
  batchLoadConstantBuffer (commit R T m a s) = batchLoadConstantBuffer s
  /\ deferredDraw (commit R T m a s) = deferredDraw s
  /\ macroCode (commit R T m a s) = macroCode s
  /\ macroPositions (commit R T m a s) = macroPositions s.
Proof. unfold commit. destruct (shadow_mode R T s); cbn; auto. Qed.

(** The shadow copy after the commit: the incoming word at the method in
    the track modes, untouched otherwise. *)
Lemma shadowRegisters_commit m a s x :
  shadowRegisters (commit R T m a s) x
  = match shadow_mode R T s with
    | MethodTrack | MethodTrackWithFilter => store (shadowRegisters s) m a x
    | MethodReplay | MethodPassthrough => shadowRegisters s x
    end.
Proof. unfold commit. destruct (shadow_mode R T s); reflexivity. Qed.

(** The change-triggered layer leaves the state alone and never throws. *)
Lemma ChangedLayer_state m a s :
  state_of (ChangedLayer R T flag m a s) = s
  /\ threw (ChangedLayer R T flag m a s) = false
  /\ List.filter is_Draw (calls_of (ChangedLayer R T flag m a s)) = []
  /\ List.filter is_LoadConstantBuffer (calls_of (ChangedLayer R T flag m a s)) = [].
Proof.
  unfold ChangedLayer, case_end. destruct flag.
  all: on_test (array_case 16 (vertexStreams_format R) m); [leaf_cases; auto |].
  all: on_test (array_case 16 (vertexStreams_frequency R) m); [leaf_cases; auto |].
  all: on_test (array_case 16 (vertexStreamInstance R) m); [leaf_cases; auto |].
  all: on_test (array_case 16 (vertexAttributes R) m); [leaf_cases; auto |].
  all: on_test (m =? primitiveRestartEnable R); [leaf_cases; auto |].
  all: on_test (m =? tessellationParameters R); [leaf_cases; auto |].
  all: on_test (m =? patchSize R); leaf_cases; auto.
Qed.

Lemma ChangedLayer_plain m a s :
  array_case 16 (vertexStreams_format R) m = None ->
  array_case 16 (vertexStreams_frequency R) m = None ->
  array_case 16 (vertexStreamInstance R) m = None ->
  array_case 16 (vertexAttributes R) m = None ->
  m <> primitiveRestartEnable R ->
  m <> tessellationParameters R ->
  m <> patchSize R ->
  ChangedLayer R T flag m a s = ([MarkDirty m], Normal s).
Proof.
  intros H1 H2 H3 H4 H5 H6 H7. unfold ChangedLayer.
  rewrite H1, H2, H3, H4.
  apply Z.eqb_neq in H5, H6, H7. rewrite H5, H6, H7. reflexivity.
Qed.

Ltac frame_leaf :=
  unfold switch_frame; leaf_cases;
  repeat split; intros; try reflexivity;
  repeat match goal with
         | H : (_ =? _) = true |- _ => apply Z.eqb_eq in H
         end; congruence.

Lemma MethodSwitch_frame m a s : switch_frame R m s (MethodSwitch R T flag m a s).
Proof.
  unfold MethodSwitch, WriteSemaphoreResult, case_end, when. destruct flag.
  all: on_test (m =? mme_instructionRamLoad R); [frame_leaf |].
  all: on_test (m =? mme_startAddressRamLoad R); [frame_leaf |].
  all: on_test (m =? i2m_launchDma R); [frame_leaf |].
  all: on_test (m =? i2m_loadInlineData R); [frame_leaf |].
  all: on_test (m =? syncpointAction R); [frame_leaf |].
  all: on_test (m =? clearSurface R); [frame_leaf |].
  all: on_test (m =? begin_ R); [frame_leaf |].
  all: on_test (m =? drawVertexArray_count R); [frame_leaf |].
  all: on_test (m =? drawIndexBuffer_count R); [frame_leaf |].
  all: on_test (m =? semaphore_info R); [frame_leaf |].
  all: on_test (m =? firmwareCall R 4); [frame_leaf |].
  all: on_test (array_case 16 (loadConstantBuffer_data R) m); [frame_leaf |].
  all: on_test (array_case 5 (bindGroups_constantBuffer R) m); frame_leaf.
Qed.
Lemma FlushDeferredDraw_pending s :
  pending (deferredDraw s) = true ->
  FlushDeferredDraw s = ([Draw_of (deferredDraw s)], Normal (flushed s)).
Proof. intros H. unfold FlushDeferredDraw. rewrite H. reflexivity. Qed.

Lemma FlushDeferredDraw_idle s :
  pending (deferredDraw s) = false -> FlushDeferredDraw s = continue s.
Proof. intros H. unfold FlushDeferredDraw. rewrite H. reflexivity. Qed.

Lemma DeferredDrawLayer_other m a red s :
  m ∉ draw_methods R ->
  DeferredDrawLayer R T m a red s = FlushDeferredDraw s.
Proof.
  unfold draw_methods. intros H.
  repeat (apply not_elem_of_cons in H; destruct H as [? H]).
  unfold DeferredDrawLayer.
  repeat match goal with
         | Hne : m <> _ |- _ => apply Z.eqb_neq in Hne; rewrite Hne; clear Hne
         end.
  reflexivity.
Qed.

(** A method that is neither a constant-buffer data method nor one of the
    draw methods flushes whichever of the two is under way. *)
Lemma CoalesceLayer_passes m a red s :
  array_case 16 (loadConstantBuffer_data R) m = None ->
  m ∉ draw_methods R ->
  CoalesceLayer R T m a red s = settle s.
Proof.
  intros Hdata Hdraw. unfold CoalesceLayer, BatchLayer, settle. rewrite Hdata.
  destruct (Batch_Active (batchLoadConstantBuffer s)); [reflexivity |].
  destruct (pending (deferredDraw s)) eqn:Hp.
  - apply DeferredDrawLayer_other, Hdraw.
  - symmetry. apply FlushDeferredDraw_idle, Hp.
Qed.

Lemma CoalesceLayer_frame m a red s :
  coalesce_frame s (CoalesceLayer R T m a red s).
Proof.
  unfold coalesce_frame, CoalesceLayer, BatchLayer, DeferredDrawLayer,
    FlushDeferredDraw, when.
  on_test (Batch_Active (batchLoadConstantBuffer s)).
  { on_test (array_case 16 (loadConstantBuffer_data R) m); leaf_cases; auto. }
  on_test (pending (deferredDraw s)); [| leaf_cases; auto].
  on_test (m =? begin_ R); [leaf_cases; auto |].
  on_test (m =? end_ R); [leaf_cases; auto |].
  on_test (m =? drawVertexArray R); [leaf_cases; auto |].
  on_test (m =? drawIndexBuffer R); leaf_cases; auto.
Qed.


Lemma settle_Normal s : snd (settle s) = Normal (settled s).
Proof.
  unfold settled, settle, FlushDeferredDraw.
  destruct (Batch_Active _); [reflexivity |].
  destruct (pending _); reflexivity.
Qed.

Lemma settled_keeps s :
  registers (settled s) = registers s
  /\ shadowRegisters (settled s) = shadowRegisters s
  /\ macroCode (settled s) = macroCode s
  /\ macroPositions (settled s) = macroPositions s.
Proof.
  unfold settled, settle, FlushDeferredDraw.
  destruct (Batch_Active _); [cbn; auto |].
  destruct (pending _); cbn; auto.
Qed.

(** A batch that is active is submitted by any method that is not a
    constant-buffer data method. *)
Lemma CoalesceLayer_submits_batch m a red s :
  array_case 16 (loadConstantBuffer_data R) m = None ->
  Batch_Active (batchLoadConstantBuffer s) = true ->
  CoalesceLayer R T m a red s
  = ([LoadConstantBuffer (buffer (batchLoadConstantBuffer s))
        (fst (Batch_Invalidate (batchLoadConstantBuffer s)))],
     Normal (set_batchLoadConstantBuffer cleared_batch s)).
Proof.
  intros Hdata Hact. unfold CoalesceLayer, BatchLayer. rewrite Hdata, Hact.
  reflexivity.
Qed.

(** The coalescing layers write no register but the constant-buffer
    offset. *)
Lemma CoalesceLayer_registers m a red s x :
  x <> loadConstantBuffer_offset R ->
  registers (state_of (CoalesceLayer R T m a red s)) x = registers s x.
Proof.
  intros Hx.
  unfold CoalesceLayer, BatchLayer, DeferredDrawLayer, FlushDeferredDraw, when.
  on_test (Batch_Active (batchLoadConstantBuffer s)).
  { on_test (array_case 16 (loadConstantBuffer_data R) m); leaf_cases;
      try rewrite store_other by congruence; reflexivity. }
  on_test (pending (deferredDraw s)); [| leaf_cases; reflexivity].
  on_test (m =? begin_ R); [leaf_cases; reflexivity |].
  on_test (m =? end_ R); [leaf_cases; reflexivity |].
  on_test (m =? drawVertexArray R); [leaf_cases; reflexivity |].
  on_test (m =? drawIndexBuffer R); leaf_cases; reflexivity.
Qed.

Hypothesis Hwf : well_formed R.

Lemma CoalesceLayer_keeps_method_register m a red s :
  registers (state_of (CoalesceLayer R T m a red s)) m = registers s m.
Proof.
  destruct (array_case 16 (loadConstantBuffer_data R) m) as [n |] eqn:Hcase.
  - apply CoalesceLayer_registers.
    apply array_case_label in Hcase as [-> Hn].
    apply (data_label_cases R Hwf n Hn).
  - unfold CoalesceLayer, BatchLayer, DeferredDrawLayer, FlushDeferredDraw, when.
    rewrite Hcase.
    on_test (Batch_Active (batchLoadConstantBuffer s)); [leaf_cases; reflexivity |].
    on_test (pending (deferredDraw s)); [| leaf_cases; reflexivity].
    on_test (m =? begin_ R); [leaf_cases; reflexivity |].
    on_test (m =? end_ R); [leaf_cases; reflexivity |].
    on_test (m =? drawVertexArray R); [leaf_cases; reflexivity |].
    on_test (m =? drawIndexBuffer R); leaf_cases; reflexivity.
Qed.

Ltac register_leaf :=
  leaf_cases;
  repeat match goal with
         | H : (_ =? _) = true |- _ => apply Z.eqb_eq in H
         end;
  repeat rewrite store_other by congruence; reflexivity.

(** The per-method switch never writes the register of the method it
    handles. *)
Lemma MethodSwitch_keeps_method_register m a s :
  registers (state_of (MethodSwitch R T flag m a s)) m = registers s m.
Proof.
  pose proof (instructionRamPointer_apart R Hwf).
  pose proof (startAddressRamPointer_apart R Hwf).
  pose proof (scratch_apart R Hwf).
  unfold MethodSwitch, WriteSemaphoreResult, case_end, when. destruct flag.
  all: on_test (m =? mme_instructionRamLoad R); [register_leaf |].
  all: on_test (m =? mme_startAddressRamLoad R); [register_leaf |].
  all: on_test (m =? i2m_launchDma R); [register_leaf |].
  all: on_test (m =? i2m_loadInlineData R); [register_leaf |].
  all: on_test (m =? syncpointAction R); [register_leaf |].
  all: on_test (m =? clearSurface R); [register_leaf |].
  all: on_test (m =? begin_ R); [register_leaf |].
  all: on_test (m =? drawVertexArray_count R); [register_leaf |].
  all: on_test (m =? drawIndexBuffer_count R); [register_leaf |].
  all: on_test (m =? semaphore_info R); [register_leaf |].
  all: on_test (m =? firmwareCall R 4); [register_leaf |].
  all: destruct (array_case 16 (loadConstantBuffer_data R) m) as [n |] eqn:Hcase;
    cbv beta iota;
    [ apply array_case_label in Hcase as [Hm Hn];
      pose proof (data_label_cases R Hwf n Hn) as (_ & _ & _ & _ & _ & Hoff);
      register_leaf |].
  all: on_test (array_case 5 (bindGroups_constantBuffer R) m); register_leaf.
Qed.


(** A method that is a scalar label, but neither the shadow RAM control
    register nor a draw method nor a label of the change-triggered switch,
    passes the first two layers without leaving: the word is committed,
    what is under way is settled, the method is marked dirty unless the
    write is redundant, and the per-method switch runs. *)
Lemma HandleMethod_plain m a s :
  m ∈ [mme_instructionRamLoad R; mme_startAddressRamLoad R; i2m_launchDma R;
       i2m_loadInlineData R; syncpointAction R; clearSurface R;
       semaphore_info R; firmwareCall R 4] ->
  HandleMethod R T flag m a s
  = let s0 := settled (commit R T m a s) in
    let r := MethodSwitch R T flag m (effective_argument R T m a s) s0 in
    (calls_of (settle (commit R T m a s))
     ++ (if is_redundant R T m a s then [] else [MarkDirty m])
     ++ calls_of r,
     snd r).
Proof.
  intros Hin.
  assert (Hs : m ∈ scalar_labels R).
  { repeat (apply elem_of_cons in Hin as [-> | Hin]); try scalar_in.
    apply elem_of_nil in Hin. contradiction. }
  pose proof (scalar_array_cases R Hwf m Hs) as (Hd & _ & H1 & H2 & H3 & H4).
  assert (Hm : m <> mme_shadowRamControl R /\ (m ∉ draw_methods R)
               /\ m <> primitiveRestartEnable R /\ m <> tessellationParameters R
               /\ m <> patchSize R).
  { unfold draw_methods.
    repeat (apply elem_of_cons in Hin as [-> | Hin]);
      try (apply elem_of_nil in Hin; contradiction).
    all: repeat rewrite not_elem_of_cons.
    all: repeat split; try apply not_elem_of_nil; scalar_neq R Hwf. }
  destruct Hm as (Hc & Hdraw & H5 & H6 & H7).
  rewrite HandleMethod_layers by exact Hc.
  rewrite CoalesceLayer_passes by assumption.
  cbv zeta. unfold andThen at 1. rewrite settle_Normal.
  unfold when. destruct (is_redundant R T m a s); cbn [negb].
  - reflexivity.
  - rewrite ChangedLayer_plain by assumption. reflexivity.
Qed.

Lemma state_of_Normal (x : Step) s' : snd x = Normal s' -> state_of x = s'.
Proof. unfold state_of. intros ->. reflexivity. Qed.

(** Past the shadow layer the shadow copy is not written again. *)
Lemma HandleMethod_shadowRegisters m a s :
  m <> mme_shadowRamControl R ->
  shadowRegisters (state_of (HandleMethod R T flag m a s))
  = shadowRegisters (commit R T m a s).
Proof.
  intros Hm. rewrite HandleMethod_layers by exact Hm.
  pose proof (CoalesceLayer_frame m (effective_argument R T m a s)
                (is_redundant R T m a s) (commit R T m a s)) as (Hsh & _).
  rewrite state_of_andThen.
  destruct (snd (CoalesceLayer R T m _ _ (commit R T m a s))) as [s1 | | |] eqn:E1;
    try exact Hsh.
  apply state_of_Normal in E1. rewrite E1 in Hsh.
  rewrite state_of_andThen.
  assert (Hch : state_of (when (negb (is_redundant R T m a s))
                            (ChangedLayer R T flag m (effective_argument R T m a s))
                            s1) = s1).
  { unfold when. destruct (negb _); [apply ChangedLayer_state | reflexivity]. }
  destruct (snd (when _ _ s1)) as [s2 | | |] eqn:E2;
    try (rewrite Hch; exact Hsh).
  apply state_of_Normal in E2. rewrite Hch in E2. subst s2.
  pose proof (MethodSwitch_frame m (effective_argument R T m a s) s1) as (Hsw & _).
  rewrite Hsw. exact Hsh.
Qed.

(** Whatever else a write does, the effective argument ends up in the
    method's register. *)
Lemma HandleMethod_commits m a s :
  registers (state_of (HandleMethod R T flag m a s)) m
  = effective_argument R T m a s.
Proof.
  destruct (Z.eqb_spec m (mme_shadowRamControl R)) as [-> | Hm].
  - rewrite HandleMethod_control. unfold effective_argument.
    rewrite Z.eqb_refl. cbn. apply store_same.
  - rewrite HandleMethod_layers by exact Hm.
    pose proof (CoalesceLayer_keeps_method_register m (effective_argument R T m a s)
                  (is_redundant R T m a s) (commit R T m a s)) as Hco.
    rewrite registers_commit, store_same in Hco.
    rewrite state_of_andThen.
    destruct (snd (CoalesceLayer R T m _ _ (commit R T m a s))) as [s1 | | |] eqn:E1;
      try exact Hco.
    apply state_of_Normal in E1. rewrite E1 in Hco.
    rewrite state_of_andThen.
    assert (Hch : state_of (when (negb (is_redundant R T m a s))
                              (ChangedLayer R T flag m (effective_argument R T m a s))
                              s1) = s1).
    { unfold when. destruct (negb _); [apply ChangedLayer_state | reflexivity]. }
    destruct (snd (when _ _ s1)) as [s2 | | |] eqn:E2;
      try (rewrite Hch; exact Hco).
    apply state_of_Normal in E2. rewrite Hch in E2. subst s2.
    rewrite MethodSwitch_keeps_method_register. exact Hco.
Qed.

(** A second, identical write is carried out with the same argument. *)
Lemma effective_argument_again m a s :
  effective_argument R T m a (state_of (HandleMethod R T flag m a s))
  = effective_argument R T m a s.
Proof.
  unfold effective_argument.
  destruct (Z.eqb_spec m (mme_shadowRamControl R)) as [-> | Hm]; [reflexivity |].
  unfold shadow_mode. rewrite !HandleMethod_shadowRegisters by exact Hm.
  fold (shadow_mode R T (commit R T m a s)). rewrite shadow_mode_commit by exact Hm.
  rewrite shadowRegisters_commit. unfold shadow_mode.
  destruct (shadowRamControl_of T (shadowRegisters s (mme_shadowRamControl R)));
    reflexivity.
Qed.

(** A redundant write makes no change-triggered call. *)
Lemma HandleMethod_redundant_calls m a s :
  is_redundant R T m a s = true ->
  List.filter is_change_triggered (calls_of (HandleMethod R T flag m a s)) = [].
Proof.
  intros Hred.
  destruct (Z.eqb_spec m (mme_shadowRamControl R)) as [-> | Hm].
  { rewrite HandleMethod_control. reflexivity. }
  rewrite HandleMethod_layers by exact Hm. rewrite Hred. cbn [negb when].
  pose proof (CoalesceLayer_frame m (effective_argument R T m a s) true
                (commit R T m a s)) as (_ & _ & _ & _ & Hco).
  rewrite calls_of_andThen.
  destruct (snd (CoalesceLayer R T m _ _ (commit R T m a s))) as [s1 | | |];
    try exact Hco.
  rewrite List.filter_app, Hco. cbn [app continue andThen fst snd].
  pose proof (MethodSwitch_frame m (effective_argument R T m a s) s1)
    as (_ & _ & _ & Hsw & _).
  unfold calls_of in *. cbn [app]. exact Hsw.
Qed.


(** The per-method switch of the clear-surface method clears with the word
    the write is carried out with, whether the write is redundant or not. *)
Lemma HandleMethod_clears a s :
  In (Clear (effective_argument R T (clearSurface R) a s))
     (calls_of (HandleMethod R T flag (clearSurface R) a s)).
Proof.
  rewrite HandleMethod_plain
    by (repeat first [apply list_elem_of_here | apply list_elem_of_further]).
  cbv zeta. unfold calls_of at 1. cbn [fst].
  apply List.in_or_app. right. apply List.in_or_app. right.
  unfold MethodSwitch.
  repeat match goal with
         | |- context [clearSurface R =? ?x] =>
             lazymatch x with
             | clearSurface R => fail
             | _ =>
                 let H := fresh in
                 assert (H : clearSurface R <> x) by scalar_neq R Hwf;
                 apply Z.eqb_neq in H; rewrite H; clear H
             end
         end.
  rewrite Z.eqb_refl. rewrite calls_of_andThen. cbn. left. reflexivity.
Qed.


End Layers.

(** The word a write is carried out with: the value written, for the
    shadow RAM control method and outside replay mode; the shadow copy's
    word for the method otherwise. *)
Lemma effective_argument_cases (R : Registers) (T : Types) (m a : Z) (s : State) :
  (m = mme_shadowRamControl R \/ shadow_mode R T s <> MethodReplay ->
   effective_argument R T m a s = a)
  /\ (m <> mme_shadowRamControl R -> shadow_mode R T s = MethodReplay ->
      effective_argument R T m a s = shadowRegisters s m).
Proof.
  unfold effective_argument. split.
  - intros [-> | Hmode]; [rewrite Z.eqb_refl; reflexivity |].
    destruct (m =? mme_shadowRamControl R); [reflexivity |].
    destruct (shadow_mode R T s); congruence.
  - intros Hm Hmode. apply Z.eqb_neq in Hm. rewrite Hm, Hmode. reflexivity.
Qed.

(** ** The example layout is well formed *)

Lemma example_well_formed : well_formed example_registers.
Proof.
  constructor.
  - apply (bool_decide_unpack _). vm_compute. exact I.
  - reflexivity.
  - reflexivity.
  - vm_compute. discriminate.
  - vm_compute. discriminate.
  - apply (bool_decide_unpack _). vm_compute. exact I.
  - vm_compute. discriminate.
Qed.

(** ** Shadow RAM *)

(** C4.  For every method other than the shadow RAM control register and
    every incoming argument, in replay mode the word [HandleMethod] leaves
    committed in the register file at that method is the word the shadow
    copy held there, whatever the argument.  A write to the shadow RAM
    control register itself stores the incoming word in both the register
    file and the shadow copy, in every shadow mode, makes no call and
    touches nothing else. *)
Theorem C4_shadow_replay_commits_shadow_word
    (R : Registers) (T : Types) (flag : bool) (a : Z) (s : State) :
  well_formed R ->
  (forall m,
     m <> mme_shadowRamControl R ->
     shadow_mode R T s = MethodReplay ->
     registers (state_of (HandleMethod R T flag m a s)) m = shadowRegisters s m)
  /\ (let r := HandleMethod R T flag (mme_shadowRamControl R) a s in
      calls_of r = []
      /\ threw r = false
      /\ registers (state_of r) (mme_shadowRamControl R) = a
      /\ shadowRegisters (state_of r) (mme_shadowRamControl R) = a
      /\ (forall x, x <> mme_shadowRamControl R ->
            registers (state_of r) x = registers s x
            /\ shadowRegisters (state_of r) x = shadowRegisters s x)
      /\ batchLoadConstantBuffer (state_of r) = batchLoadConstantBuffer s
      /\ deferredDraw (state_of r) = deferredDraw s
      /\ macroCode (state_of r) = macroCode s
      /\ macroPositions (state_of r) = macroPositions s).
Proof.
  intros Hwf. split.
  - intros m Hm Hmode. rewrite (HandleMethod_commits R T flag Hwf).
    unfold effective_argument. apply Z.eqb_neq in Hm. rewrite Hm, Hmode.
    reflexivity.
  - cbv zeta. rewrite HandleMethod_control. cbn.
    rewrite !store_same. repeat split; try reflexivity.
    all: apply store_other; assumption.
Qed.

Lemma C4_witness :
  registers
    (state_of (HandleMethod example_registers example_types true 0x674 99
                 example_replay_state)) 0x674 = 7
  /\ shadowRegisters
       (state_of (HandleMethod example_registers example_types true 0x49 1
                    example_replay_state)) 0x49 = 1.
Proof.
  split.
  - apply (proj1 (C4_shadow_replay_commits_shadow_word example_registers
                    example_types true 99 example_replay_state
                    example_well_formed) 0x674).
    + vm_compute. discriminate.
    + reflexivity.
  - apply (proj2 (C4_shadow_replay_commits_shadow_word example_registers
                    example_types true 1 example_replay_state
                    example_well_formed)).
Defined.

(** ** Redundant writes *)

(** C5 as stated fails in two points.  The calls of the per-method switch
    (lines 198-307) are made for every write, redundant or not: writing 1 to
    the clear-surface method twice calls [Clear] twice.  And the word that
    is committed is not always the value written: in replay mode, with 7
    tracked for the clear-surface method, writing 99 twice leaves 7 in the
    register both times. *)
Lemma C5_counterexample :
  let first :=
    HandleMethod example_registers example_types true 0x674 1 example_state in
  let second :=
    HandleMethod example_registers example_types true 0x674 1 (state_of first) in
  let replayed :=
    HandleMethod example_registers example_types true 0x674 99
      example_replay_state in
  let again :=
    HandleMethod example_registers example_types true 0x674 99
      (state_of replayed) in
  (calls_of first = [MarkDirty 0x674; Clear 1]
   /\ is_redundant example_registers example_types 0x674 1 (state_of first) = true
   /\ calls_of second = [Clear 1])
  /\ (registers (state_of replayed) 0x674 = 7
      /\ registers (state_of again) 0x674 = 7
      /\ calls_of replayed = [MarkDirty 0x674; Clear 7]
      /\ calls_of again = [Clear 7]).
Proof. vm_compute. repeat split; reflexivity. Qed.

(** C5 (amended).  For every method and value, of two consecutive writes
    of the same value the second is redundant (the word it is carried out
    with is the word the register holds) and makes none of the
    change-triggered calls, that is, it marks nothing dirty and makes no
    direct-state update; and both writes commit to the method's register
    the word they are carried out with.  That word is the value written,
    for the shadow RAM control method and outside replay mode; in replay
    mode, for any other method, it is the word the shadow copy holds for
    the method, whatever value is written.  The calls of the per-method
    switch are outside this, they are made for every write: both writes to
    the clear-surface method clear with the word they are carried out
    with. *)
Theorem C5_redundant_write_makes_no_change_triggered_call
    (R : Registers) (T : Types) (flag : bool) (m a : Z) (s : State) :
  well_formed R ->
  let first := HandleMethod R T flag m a s in
  let second := HandleMethod R T flag m a (state_of first) in
  let carried := effective_argument R T m a s in
  is_redundant R T m a (state_of first) = true
  /\ List.filter is_change_triggered (calls_of second) = []
  /\ registers (state_of first) m = carried
  /\ registers (state_of second) m = carried
  /\ (m = mme_shadowRamControl R \/ shadow_mode R T s <> MethodReplay ->
      carried = a
      /\ registers (state_of first) m = a
      /\ registers (state_of second) m = a)
  /\ (m <> mme_shadowRamControl R -> shadow_mode R T s = MethodReplay ->
      carried = shadowRegisters s m
      /\ registers (state_of first) m = shadowRegisters s m
      /\ registers (state_of second) m = shadowRegisters s m)
  /\ (m = clearSurface R ->
      In (Clear carried) (calls_of first)
      /\ In (Clear carried) (calls_of second)).
Proof.
  intros Hwf. cbv zeta.
  assert (Hred : is_redundant R T m a (state_of (HandleMethod R T flag m a s)) = true).
  { unfold is_redundant.
    rewrite (effective_argument_again R T flag), (HandleMethod_commits R T flag Hwf).
    apply Z.eqb_refl. }
  assert (Hfirst : registers (state_of (HandleMethod R T flag m a s)) m
                   = effective_argument R T m a s)
    by apply (HandleMethod_commits R T flag Hwf).
  assert (Hsecond :
            registers
              (state_of (HandleMethod R T flag m a
                           (state_of (HandleMethod R T flag m a s)))) m
            = effective_argument R T m a s).
  { rewrite (HandleMethod_commits R T flag Hwf). apply effective_argument_again. }
  pose proof (effective_argument_cases R T m a s) as [Hwritten Hreplayed].
  split; [exact Hred |].
  split; [apply HandleMethod_redundant_calls, Hred |].
  split; [exact Hfirst |]. split; [exact Hsecond |].
  split; [| split].
  - intros Hcase. rewrite Hfirst, Hsecond, (Hwritten Hcase). auto.
  - intros Hm Hmode. rewrite Hfirst, Hsecond, (Hreplayed Hm Hmode). auto.
  - intros ->. split.
    + apply (HandleMethod_clears R T flag Hwf).
    + rewrite <- (effective_argument_again R T flag (clearSurface R) a s).
      apply (HandleMethod_clears R T flag Hwf).
Qed.

Lemma C5_witness :
  let first :=
    HandleMethod example_registers example_types true 0xDD 3 example_state in
  let second :=
    HandleMethod example_registers example_types true 0xDD 3 (state_of first) in
  List.filter is_change_triggered (calls_of second) = []
  /\ registers (state_of first) 0xDD = 3
  /\ registers (state_of second) 0xDD = 3.
Proof.
  cbv zeta.
  destruct (C5_redundant_write_makes_no_change_triggered_call example_registers
              example_types true 0xDD 3 example_state example_well_formed)
    as (_ & Hcalls & _ & _ & Hwritten & _).
  destruct Hwritten as (_ & Hfirst & Hsecond);
    [right; vm_compute; discriminate |].
  split; [exact Hcalls |]. split; [exact Hfirst | exact Hsecond].
Defined.

(** ** Macro memory *)

Section MacroMemory.
Variable R : Registers.
Variable T : Types.
Variable flag : bool.
Hypothesis Hwf : well_formed R.

Lemma MethodSwitch_instructionRamLoad a s :
  MethodSwitch R T flag (mme_instructionRamLoad R) a s
  = let pointer := registers s (mme_instructionRamPointer R) in
    if pointer >=? Z.of_nat (length (macroCode s))
    then raise "Macro memory is full!" s
    else
      case_end flag
        (write_register (mme_instructionRamPointer R)
           (u32 (u32 (pointer + 1) mod Z.of_nat (length (macroCode s))))
           (set_macroCode (<[Z.to_nat pointer := a]> (macroCode s))
              (write_register (mme_instructionRamPointer R) (u32 (pointer + 1)) s))).
Proof.
  unfold MethodSwitch. rewrite Z.eqb_refl. cbv zeta.
  destruct (_ >=? _); [reflexivity |].
  cbn [registers macroCode set_macroCode write_register set_registers].
  rewrite store_same, length_insert. reflexivity.
Qed.

Lemma MethodSwitch_startAddressRamLoad a s :
  MethodSwitch R T flag (mme_startAddressRamLoad R) a s
  = let pointer := registers s (mme_startAddressRamPointer R) in
    if pointer >=? Z.of_nat (length (macroPositions s))
    then raise "Maximum amount of macros reached!" s
    else
      case_end flag
        (set_macroPositions (<[Z.to_nat pointer := a]> (macroPositions s))
           (write_register (mme_startAddressRamPointer R) (u32 (pointer + 1)) s)).
Proof.
  unfold MethodSwitch.
  assert (H : mme_startAddressRamLoad R <> mme_instructionRamLoad R)
    by scalar_neq R Hwf.
  apply Z.eqb_neq in H. rewrite H, Z.eqb_refl. reflexivity.
Qed.

Lemma state_of_case_end s : state_of (case_end flag s) = s.
Proof. unfold case_end. destruct flag; reflexivity. Qed.

Lemma threw_case_end s : threw (case_end flag s) = false.
Proof. unfold case_end. destruct flag; reflexivity. Qed.

(** The state the per-method switch starts from, for a scalar method. *)
Lemma settled_commit_keeps m a s :
  registers (settled (commit R T m a s))
  = store (registers s) m (effective_argument R T m a s)
  /\ macroCode (settled (commit R T m a s)) = macroCode s
  /\ macroPositions (settled (commit R T m a s)) = macroPositions s.
Proof.
  pose proof (settled_keeps (commit R T m a s)) as (Hr & _ & Hc & Hp).
  pose proof (commit_keeps R T m a s) as (_ & _ & Hc' & Hp').
  rewrite Hr, Hc, Hp, registers_commit. auto.
Qed.
End MacroMemory.

Lemma and_regroup (A B C D : Prop) : A /\ B /\ C -> D -> A /\ B /\ C /\ D.
Proof. tauto. Qed.

(** C8 as stated fails in two points.  On the error path the state IS
    modified: the word the write is carried out with is committed to the
    method's register (and the method marked dirty) before the per-method
    switch throws.  And the word that is stored is not always the word
    written: in replay mode, with 0 tracked for the instruction RAM load
    method, writing 9 stores 0 in the microcode memory and leaves 0 in the
    method's register, on the error path too. *)
Lemma C8_counterexample :
  let r :=
    HandleMethod example_registers example_types true 0x46 9 example_full_state in
  let replayed :=
    HandleMethod example_registers example_types true 0x46 9
      example_replay_state in
  let replayed_full :=
    HandleMethod example_registers example_types true 0x46 9
      (write_register 0x45 4 example_replay_state) in
  (threw r = true
   /\ registers example_full_state 0x46 = 0
   /\ registers (state_of r) 0x46 = 9
   /\ calls_of r = [MarkDirty 0x46])
  /\ (threw replayed = false
      /\ macroCode (state_of replayed) = [0; 0; 0; 0]
      /\ registers (state_of replayed) 0x46 = 0)
  /\ (threw replayed_full = true
      /\ registers (state_of replayed_full) 0x46 = 0).
Proof. vm_compute. repeat split; reflexivity. Qed.

(** C8 (amended).  A write to the instruction RAM load method throws if
    and only if the instruction RAM pointer is at or beyond the capacity of
    the microcode memory at the time of the write; on that path the
    microcode memory, the macro positions and the pointer are left as they
    were.  Otherwise the word the write is carried out with is stored at
    the pointer, and the pointer is advanced and wrapped modulo the
    capacity, ending strictly below it.  A write to the start address RAM
    load method throws if and only if the start address pointer is at or
    beyond the capacity of the macro position table, leaving table,
    microcode memory and pointer as they were; otherwise it stores the word
    the write is carried out with at the pointer and increments the
    pointer, with no wrap-around.  On every path, the error path included,
    the method's own register ends up holding the word the write is carried
    out with.  That word is the word written outside replay mode, and the
    word the shadow copy holds for the method in replay mode. *)
Theorem C8_macro_memory_writes
    (R : Registers) (T : Types) (flag : bool) (a : Z) (s : State) :
  well_formed R ->
  (let r := HandleMethod R T flag (mme_instructionRamLoad R) a s in
   let pointer := registers s (mme_instructionRamPointer R) in
   let capacity := Z.of_nat (length (macroCode s)) in
   let carried := effective_argument R T (mme_instructionRamLoad R) a s in
   (threw r = true <-> capacity <= pointer)
   /\ (capacity <= pointer ->
       macroCode (state_of r) = macroCode s
       /\ macroPositions (state_of r) = macroPositions s
       /\ registers (state_of r) (mme_instructionRamPointer R) = pointer)
   /\ (0 <= pointer < capacity ->
       macroCode (state_of r) = <[Z.to_nat pointer := carried]> (macroCode s)
       /\ registers (state_of r) (mme_instructionRamPointer R)
          = u32 (u32 (pointer + 1) mod capacity)
       /\ 0 <= registers (state_of r) (mme_instructionRamPointer R) < capacity
       /\ (capacity < 2 ^ 32 ->
           registers (state_of r) (mme_instructionRamPointer R)
           = (pointer + 1) mod capacity))
   /\ registers (state_of r) (mme_instructionRamLoad R) = carried
   /\ (shadow_mode R T s <> MethodReplay -> carried = a)
   /\ (shadow_mode R T s = MethodReplay ->
       carried = shadowRegisters s (mme_instructionRamLoad R)))
  /\ (let r := HandleMethod R T flag (mme_startAddressRamLoad R) a s in
      let pointer := registers s (mme_startAddressRamPointer R) in
      let capacity := Z.of_nat (length (macroPositions s)) in
      let carried := effective_argument R T (mme_startAddressRamLoad R) a s in
      (threw r = true <-> capacity <= pointer)
      /\ (capacity <= pointer ->
          macroPositions (state_of r) = macroPositions s
          /\ macroCode (state_of r) = macroCode s
          /\ registers (state_of r) (mme_startAddressRamPointer R) = pointer)
      /\ (0 <= pointer < capacity ->
          macroPositions (state_of r)
          = <[Z.to_nat pointer := carried]> (macroPositions s)
          /\ registers (state_of r) (mme_startAddressRamPointer R)
             = u32 (pointer + 1)
          /\ (capacity < 2 ^ 32 ->
              registers (state_of r) (mme_startAddressRamPointer R)
              = pointer + 1))
      /\ registers (state_of r) (mme_startAddressRamLoad R) = carried
      /\ (shadow_mode R T s <> MethodReplay -> carried = a)
      /\ (shadow_mode R T s = MethodReplay ->
          carried = shadowRegisters s (mme_startAddressRamLoad R))).
Proof.
  intros Hwf. split; cbv zeta; apply and_regroup.
  2: { split; [apply (HandleMethod_commits R T flag Hwf) |].
       pose proof (effective_argument_cases R T (mme_instructionRamLoad R) a s)
         as [Hwritten Hreplayed].
       split; [intros Hmode; apply Hwritten; right; exact Hmode |].
       apply Hreplayed. scalar_neq R Hwf. }
  3: { split; [apply (HandleMethod_commits R T flag Hwf) |].
       pose proof (effective_argument_cases R T (mme_startAddressRamLoad R) a s)
         as [Hwritten Hreplayed].
       split; [intros Hmode; apply Hwritten; right; exact Hmode |].
       apply Hreplayed. scalar_neq R Hwf. }
  - rewrite (HandleMethod_plain R T flag Hwf)
      by (repeat first [apply list_elem_of_here | apply list_elem_of_further]).
    cbv zeta. unfold threw, state_of. cbn [fst snd].
    rewrite MethodSwitch_instructionRamLoad. cbv zeta.
    pose proof (settled_commit_keeps R T (mme_instructionRamLoad R) a s)
      as (Hr & Hc & Hp).
    pose proof (instructionRamPointer_apart R Hwf) as Hap.
    rewrite Hr, Hc. rewrite store_other by exact Hap.
    destruct (Z.geb_spec (registers s (mme_instructionRamPointer R))
                (Z.of_nat (length (macroCode s)))) as [Hge | Hlt].
    + cbn. split; [split; [lia | reflexivity] |]. split; [| lia].
      intros _. rewrite Hr, Hc, Hp. rewrite store_other by exact Hap. auto.
    + fold (state_of (case_end flag
              (write_register (mme_instructionRamPointer R)
                 (u32 (u32 (registers s (mme_instructionRamPointer R) + 1)
                       mod Z.of_nat (length (macroCode s))))
                 (set_macroCode
                    (<[Z.to_nat (registers s (mme_instructionRamPointer R))
                       := effective_argument R T (mme_instructionRamLoad R) a s]>
                       (macroCode s))
                    (write_register (mme_instructionRamPointer R)
                       (u32 (registers s (mme_instructionRamPointer R) + 1))
                       (settled (commit R T (mme_instructionRamLoad R) a s))))))).
      fold (threw (case_end flag
              (write_register (mme_instructionRamPointer R)
                 (u32 (u32 (registers s (mme_instructionRamPointer R) + 1)
                       mod Z.of_nat (length (macroCode s))))
                 (set_macroCode
                    (<[Z.to_nat (registers s (mme_instructionRamPointer R))
                       := effective_argument R T (mme_instructionRamLoad R) a s]>
                       (macroCode s))
                    (write_register (mme_instructionRamPointer R)
                       (u32 (registers s (mme_instructionRamPointer R) + 1))
                       (settled (commit R T (mme_instructionRamLoad R) a s))))))).
      rewrite state_of_case_end, threw_case_end.
      cbn [registers macroCode set_macroCode write_register set_registers].
      rewrite store_same.
      split; [split; [discriminate | lia] |]. split; [lia |].
      intros Hp0.
      assert (Hmod : 0 <= u32 (registers s (mme_instructionRamPointer R) + 1)
                          mod Z.of_nat (length (macroCode s))
                     < Z.of_nat (length (macroCode s)))
        by (apply Z.mod_pos_bound; lia).
      assert (Hu : u32 (u32 (registers s (mme_instructionRamPointer R) + 1)
                        mod Z.of_nat (length (macroCode s)))
                   <= u32 (registers s (mme_instructionRamPointer R) + 1)
                      mod Z.of_nat (length (macroCode s))).
      { unfold u32 at 1. apply Z.mod_le; lia. }
      pose proof (u32_range (u32 (registers s (mme_instructionRamPointer R) + 1)
                             mod Z.of_nat (length (macroCode s)))).
      repeat split; try reflexivity; try lia.
      intros Hcap.
      rewrite (u32_small (registers s (mme_instructionRamPointer R) + 1)) in * by lia.
      apply u32_small. lia.
  - rewrite (HandleMethod_plain R T flag Hwf)
      by (repeat first [apply list_elem_of_here | apply list_elem_of_further]).
    cbv zeta. unfold threw, state_of. cbn [fst snd].
    rewrite (MethodSwitch_startAddressRamLoad R T flag Hwf). cbv zeta.
    pose proof (settled_commit_keeps R T (mme_startAddressRamLoad R) a s)
      as (Hr & Hc & Hp).
    pose proof (startAddressRamPointer_apart R Hwf) as Hap.
    rewrite Hr, Hp. rewrite store_other by exact Hap.
    destruct (Z.geb_spec (registers s (mme_startAddressRamPointer R))
                (Z.of_nat (length (macroPositions s)))) as [Hge | Hlt].
    + cbn. split; [split; [lia | reflexivity] |]. split; [| lia].
      intros _. rewrite Hr, Hc, Hp. rewrite store_other by exact Hap. auto.
    + fold (state_of (case_end flag
              (set_macroPositions
                 (<[Z.to_nat (registers s (mme_startAddressRamPointer R))
                    := effective_argument R T (mme_startAddressRamLoad R) a s]>
                    (macroPositions s))
                 (write_register (mme_startAddressRamPointer R)
                    (u32 (registers s (mme_startAddressRamPointer R) + 1))
                    (settled (commit R T (mme_startAddressRamLoad R) a s)))))).
      fold (threw (case_end flag
              (set_macroPositions
                 (<[Z.to_nat (registers s (mme_startAddressRamPointer R))
                    := effective_argument R T (mme_startAddressRamLoad R) a s]>
                    (macroPositions s))
                 (write_register (mme_startAddressRamPointer R)
                    (u32 (registers s (mme_startAddressRamPointer R) + 1))
                    (settled (commit R T (mme_startAddressRamLoad R) a s)))))).
      rewrite state_of_case_end, threw_case_end.
      cbn [registers macroPositions set_macroPositions write_register set_registers].
      rewrite store_same.
      split; [split; [discriminate | lia] |]. split; [lia |].
      intros Hp0. repeat split; try reflexivity.
      intros Hcap. apply u32_small. lia.
Qed.

Lemma C8_witness :
  let r := HandleMethod example_registers example_types true 0x46 9 example_state in
  let q := HandleMethod example_registers example_types true 0x48 9 example_state in
  macroCode (state_of r) = [9; 0; 0; 0]
  /\ registers (state_of r) 0x45 = 1
  /\ registers (state_of r) 0x46 = 9
  /\ macroPositions (state_of q) = [9; 0]
  /\ registers (state_of q) 0x47 = 1
  /\ registers (state_of q) 0x48 = 9.
Proof.
  cbv zeta.
  destruct (C8_macro_memory_writes example_registers example_types true 9
              example_state example_well_formed)
    as [(_ & _ & Hcode & Hload & Hwritten & _)
        (_ & _ & Hpos & Hstart & Hwritten' & _)].
  cbv zeta in Hcode, Hpos, Hload, Hstart, Hwritten, Hwritten'.
  destruct Hcode as (Hc & _ & _ & Hp); [cbn; lia |].
  destruct Hpos as (Hq & _ & Hr); [cbn; lia |].
  rewrite Hwritten in Hc, Hload by (vm_compute; discriminate).
  rewrite Hwritten' in Hq, Hstart by (vm_compute; discriminate).
  split; [exact Hc |]. split; [apply Hp; cbn; lia |]. split; [exact Hload |].
  split; [exact Hq |]. split; [apply Hr; cbn; lia | exact Hstart].
Defined.

(** ** Sequences of writes *)

Section Sequences.
Variable R : Registers.
Variable T : Types.
Variable flag : bool.

Lemma HandleMethods_step m a rest s :
  threw (HandleMethod R T flag m a s) = false ->
  HandleMethods R T flag ((m, a) :: rest) s
  = (calls_of (HandleMethod R T flag m a s)
     ++ calls_of (HandleMethods R T flag rest (state_of (HandleMethod R T flag m a s))),
     snd (HandleMethods R T flag rest (state_of (HandleMethod R T flag m a s)))).
Proof.
  cbn [HandleMethods]. unfold threw, state_of, calls_of.
  destruct (HandleMethod R T flag m a s) as [cs []]; cbn; intros H;
    try discriminate; reflexivity.
Qed.

Lemma HandleMethods_last m a s :
  calls_of (HandleMethods R T flag [(m, a)] s) = calls_of (HandleMethod R T flag m a s)
  /\ state_of (HandleMethods R T flag [(m, a)] s)
     = state_of (HandleMethod R T flag m a s).
Proof.
  cbn [HandleMethods]. unfold state_of, calls_of.
  destruct (HandleMethod R T flag m a s) as [cs []]; cbn;
    rewrite ?app_nil_r; auto.
Qed.

Lemma HandleMethods_app ws1 ws2 s :
  threw (HandleMethods R T flag ws1 s) = false ->
  HandleMethods R T flag (ws1 ++ ws2) s
  = (calls_of (HandleMethods R T flag ws1 s)
     ++ calls_of (HandleMethods R T flag ws2 (state_of (HandleMethods R T flag ws1 s))),
     snd (HandleMethods R T flag ws2 (state_of (HandleMethods R T flag ws1 s)))).
Proof.
  revert s. induction ws1 as [| [m a] ws1 IH]; intros s Hok.
  - cbn. destruct (HandleMethods R T flag ws2 s); reflexivity.
  - cbn [app HandleMethods] in *. unfold threw, state_of, calls_of in *.
    destruct (HandleMethod R T flag m a s) as [cs [s' | s' | s' | s' w]];
      cbn [fst snd throws completion_state] in *; try discriminate.
    all: rewrite IH by exact Hok; cbn [fst snd]; rewrite app_assoc; reflexivity.
Qed.

(** Layers two and three, run after the coalescing layers let the method
    through: no draw or constant-buffer load is submitted, and the records
    of the coalescing layers change only for the methods that create
    them. *)
Lemma tail_layers_frame m a red s :
  let r := andThen (when (negb red) (ChangedLayer R T flag m a) s)
             (fun s2 => MethodSwitch R T flag m a s2) in
  List.filter is_Draw (calls_of r) = []
  /\ List.filter is_LoadConstantBuffer (calls_of r) = []
  /\ (m <> begin_ R -> m <> drawVertexArray_count R ->
      m <> drawIndexBuffer_count R ->
      deferredDraw (state_of r) = deferredDraw s)
  /\ (array_case 16 (loadConstantBuffer_data R) m = None ->
      batchLoadConstantBuffer (state_of r) = batchLoadConstantBuffer s).
Proof.
  cbv zeta.
  assert (Hch : state_of (when (negb red) (ChangedLayer R T flag m a) s) = s
                /\ List.filter is_Draw
                     (calls_of (when (negb red) (ChangedLayer R T flag m a) s)) = []
                /\ List.filter is_LoadConstantBuffer
                     (calls_of (when (negb red) (ChangedLayer R T flag m a) s)) = []).
  { unfold when. destruct (negb red); [| cbn; auto].
    pose proof (ChangedLayer_state R T flag m a s). tauto. }
  destruct Hch as (Hst & Hd & Hl).
  rewrite calls_of_andThen, state_of_andThen.
  destruct (snd (when (negb red) (ChangedLayer R T flag m a) s))
    as [s2 | | |] eqn:E; try (rewrite Hst; auto).
  apply state_of_Normal in E. rewrite Hst in E. subst s2.
  pose proof (MethodSwitch_frame R T flag m a s) as (_ & Hd' & Hl' & _ & Hdd & Hb).
  rewrite !List.filter_app, Hd, Hl, Hd', Hl'. auto.
Qed.
End Sequences.

(** ** The coalescing records exclude each other *)

Section Exclusive.
Variable R : Registers.
Variable T : Types.
Variable flag : bool.

(** When the coalescing layers let a write through, neither record is busy
    any more; when they swallow it, still at most one is. *)
Lemma CoalesceLayer_exclusive m a red s :
  exclusive s ->
  exclusive (state_of (CoalesceLayer R T m a red s))
  /\ (forall s1, snd (CoalesceLayer R T m a red s) = Normal s1 ->
      pending (deferredDraw s1) = false
      /\ Batch_Active (batchLoadConstantBuffer s1) = false).
Proof.
  unfold exclusive, CoalesceLayer, BatchLayer, DeferredDrawLayer,
    FlushDeferredDraw, when.
  intros Hex.
  on_test (Batch_Active (batchLoadConstantBuffer s)).
  { rewrite andb_true_r in Hex.
    on_test (array_case 16 (loadConstantBuffer_data R) m); leaf_cases.
    - cbn. rewrite Hex. split; [reflexivity | intros ? [=]].
    - cbn. rewrite Hex. split; [reflexivity |].
      intros ? [= <-]. cbn. auto. }
  on_test (pending (deferredDraw s)).
  2:{ cbn. rewrite Heqb, Heqb0. split; [reflexivity |].
      intros ? [= <-]. auto. }
  on_test (m =? begin_ R).
  { leaf_cases; cbn; rewrite ?Heqb, ?Heqb0; cbn;
      (split; [try reflexivity; apply andb_false_r
              | intros ? [=]; subst; cbn; auto]). }
  on_test (m =? end_ R).
  { leaf_cases; cbn; rewrite ?Heqb, ?Heqb0; cbn;
      (split; [try reflexivity; apply andb_false_r | intros ? [=]]). }
  on_test (m =? drawVertexArray R).
  { leaf_cases; cbn; rewrite ?Heqb, ?Heqb0; cbn;
      (split; [try reflexivity; apply andb_false_r | intros ? [=]]). }
  on_test (m =? drawIndexBuffer R).
  { leaf_cases; cbn; rewrite ?Heqb, ?Heqb0; cbn;
      (split; [try reflexivity; apply andb_false_r | intros ? [=]]). }
  leaf_cases; cbn; rewrite ?Heqb, ?Heqb0; cbn;
    (split; [try reflexivity; apply andb_false_r
            | intros ? [=]; subst; cbn; auto]).
Qed.

Ltac exclusive_leaf :=
  leaf_cases; cbn;
  repeat match goal with
         | H : pending _ = false |- _ => rewrite H
         | H : Batch_Active _ = false |- _ => rewrite H
         end;
  first [reflexivity | apply andb_false_r].

(** From a state where neither record is busy the per-method switch starts
    at most one of them: a draw-count method records a draw, a data method
    opens a batch, and no method is tested for both. *)
Lemma MethodSwitch_exclusive m a s :
  pending (deferredDraw s) = false ->
  Batch_Active (batchLoadConstantBuffer s) = false ->
  exclusive (state_of (MethodSwitch R T flag m a s)).
Proof.
  intros Hp Hb.
  unfold exclusive, MethodSwitch, WriteSemaphoreResult, case_end, when.
  destruct flag.
  all: on_test (m =? mme_instructionRamLoad R); [exclusive_leaf |].
  all: on_test (m =? mme_startAddressRamLoad R); [exclusive_leaf |].
  all: on_test (m =? i2m_launchDma R); [exclusive_leaf |].
  all: on_test (m =? i2m_loadInlineData R); [exclusive_leaf |].
  all: on_test (m =? syncpointAction R); [exclusive_leaf |].
  all: on_test (m =? clearSurface R); [exclusive_leaf |].
  all: on_test (m =? begin_ R); [exclusive_leaf |].
  all: on_test (m =? drawVertexArray_count R); [exclusive_leaf |].
  all: on_test (m =? drawIndexBuffer_count R); [exclusive_leaf |].
  all: on_test (m =? semaphore_info R); [exclusive_leaf |].
  all: on_test (m =? firmwareCall R 4); [exclusive_leaf |].
  all: exclusive_leaf.
Qed.

(** One write keeps the two records exclusive, whatever the method and
    whether or not it ends in an error. *)
Lemma HandleMethod_exclusive m a s :
  exclusive s -> exclusive (state_of (HandleMethod R T flag m a s)).
Proof.
  intros Hex.
  destruct (Z.eq_dec m (mme_shadowRamControl R)) as [-> | Hm].
  { rewrite HandleMethod_control. exact Hex. }
  rewrite (HandleMethod_layers R T flag m a s Hm).
  assert (Hex0 : exclusive (commit R T m a s)).
  { unfold exclusive, commit in *.
    destruct (shadow_mode R T s); exact Hex. }
  destruct (CoalesceLayer_exclusive m (effective_argument R T m a s)
              (is_redundant R T m a s) _ Hex0) as [Hstop Hgo].
  rewrite state_of_andThen.
  destruct (snd (CoalesceLayer R T m (effective_argument R T m a s)
                   (is_redundant R T m a s) (commit R T m a s)))
    as [s1 | s1 | s1 | s1 what] eqn:Hc; try exact Hstop.
  destruct (Hgo s1 eq_refl) as [Hp Hb].
  rewrite state_of_andThen.
  unfold when.
  destruct (negb (is_redundant R T m a s)).
  - pose proof (ChangedLayer_state R T flag m (effective_argument R T m a s) s1)
      as (Hs & _).
    unfold state_of in Hs.
    destruct (snd (ChangedLayer R T flag m (effective_argument R T m a s) s1))
      as [s2 | s2 | s2 | s2 what] eqn:Hch; cbn in Hs; subst s2.
    + apply MethodSwitch_exclusive; assumption.
    + unfold state_of. rewrite Hch. cbn. unfold exclusive. rewrite Hp. reflexivity.
    + unfold state_of. rewrite Hch. cbn. unfold exclusive. rewrite Hp. reflexivity.
    + unfold state_of. rewrite Hch. cbn. unfold exclusive. rewrite Hp. reflexivity.
  - cbn. apply MethodSwitch_exclusive; assumption.
Qed.

(** So does any sequence of writes, from the state at rest in
    particular. *)
Lemma HandleMethods_exclusive ws : forall s,
  exclusive s -> exclusive (state_of (HandleMethods R T flag ws s)).
Proof.
  induction ws as [| [m a] ws IH]; intros s Hex; [exact Hex |].
  pose proof (HandleMethod_exclusive m a s Hex) as H1.
  cbn [HandleMethods]. unfold state_of in *.
  destruct (HandleMethod R T flag m a s) as [cs [s1 | s1 | s1 | s1 what]];
    cbn in *; try exact H1.
  all: specialize (IH s1 H1);
    destruct (HandleMethods R T flag ws s1) as [cs' c]; exact IH.
Qed.

End Exclusive.

(** ** Deferred draws *)

Section DeferredDraws.
Variable R : Registers.
Variable T : Types.
Variable flag : bool.
Hypothesis Hwf : well_formed R.

(** A method outside the draw methods, arriving while a draw is pending
    and no batch is active, submits the pending draw, once, with the values
    recorded, and leaves the record flushed. *)
Lemma HandleMethod_flushes_draw m x s :
  m <> mme_shadowRamControl R ->
  m ∉ draw_methods R ->
  pending (deferredDraw s) = true ->
  Batch_Active (batchLoadConstantBuffer s) = false ->
  List.filter is_Draw (calls_of (HandleMethod R T flag m x s))
  = [Draw_of (deferredDraw s)]
  /\ deferredDraw (state_of (HandleMethod R T flag m x s))
     = deferredDraw (flushed s).
Proof.
  intros Hm Hdraw Hpend Hbatch.
  rewrite HandleMethod_layers by exact Hm.
  pose proof (commit_keeps R T m x s) as (Hb & Hd & _).
  unfold CoalesceLayer. rewrite Hb, Hbatch, Hd, Hpend.
  rewrite DeferredDrawLayer_other by exact Hdraw.
  rewrite FlushDeferredDraw_pending by (rewrite Hd; exact Hpend).
  rewrite calls_of_andThen, state_of_andThen. cbn [snd calls_of fst].
  pose proof (tail_layers_frame R T flag m (effective_argument R T m x s)
                (is_redundant R T m x s) (flushed (commit R T m x s)))
    as (Hdr & _ & Hdd & _).
  cbv zeta in Hdr, Hdd.
  rewrite List.filter_app, Hdr, Hd. split; [reflexivity |].
  unfold draw_methods in Hdraw.
  repeat (apply not_elem_of_cons in Hdraw; destruct Hdraw as [? Hdraw]).
  rewrite Hdd.
  - unfold flushed. cbn [deferredDraw set_deferredDraw]. rewrite Hd. reflexivity.
  - assumption.
  - rewrite (drawVertexArray_count_first R Hwf). assumption.
  - rewrite (drawIndexBuffer_count_first R Hwf). assumption.
Qed.

End DeferredDraws.




Section InstancedDraws.
Variable R : Registers.
Variable T : Types.
Variable flag : bool.
Hypothesis Hwf : well_formed R.

Lemma HandleMethod_shadow_mode m a s :
  m <> mme_shadowRamControl R ->
  shadow_mode R T (state_of (HandleMethod R T flag m a s)) = shadow_mode R T s.
Proof.
  intros Hm. unfold shadow_mode at 1.
  rewrite HandleMethod_shadowRegisters by exact Hm.
  apply shadow_mode_commit, Hm.
Qed.

Lemma effective_argument_plain m a s :
  shadow_mode R T s <> MethodReplay -> effective_argument R T m a s = a.
Proof.
  intros Hmode. unfold effective_argument.
  destruct (m =? mme_shadowRamControl R); [reflexivity |].
  destruct (shadow_mode R T s); congruence.
Qed.

Lemma CoalesceLayer_idle m a red s :
  pending (deferredDraw s) = false ->
  array_case 16 (loadConstantBuffer_data R) m = None ->
  CoalesceLayer R T m a red s = settle s.
Proof.
  intros Hp Hd. unfold CoalesceLayer, BatchLayer, settle. rewrite Hd, Hp.
  destruct (Batch_Active _); [reflexivity |].
  symmetry. apply FlushDeferredDraw_idle, Hp.
Qed.

Lemma MethodSwitch_drawVertexArray_count a s :
  MethodSwitch R T flag (drawVertexArray R) a s
  = case_end flag
      (set_deferredDraw
         (DeferredDrawState_Set a (registers s (vertexArrayStart R)) 0
            (registers s (globalBaseInstanceIndex R)) (GetCurrentTopology R T s)
            false (deferredDraw s)) s).
Proof.
  unfold MethodSwitch. rewrite (drawVertexArray_count_first R Hwf).
  repeat match goal with
         | |- context [drawVertexArray R =? ?y] =>
             lazymatch y with
             | drawVertexArray R => fail
             | _ =>
                 let H := fresh in
                 assert (H : drawVertexArray R <> y) by scalar_neq R Hwf;
                 apply Z.eqb_neq in H; rewrite H; clear H
             end
         end.
  rewrite Z.eqb_refl. reflexivity.
Qed.

Lemma MethodSwitch_drawIndexBuffer_count a s :
  MethodSwitch R T flag (drawIndexBuffer R) a s
  = case_end flag
      (set_deferredDraw
         (DeferredDrawState_Set a (registers s (indexBuffer_first R))
            (registers s (globalBaseVertexIndex R))
            (registers s (globalBaseInstanceIndex R)) (GetCurrentTopology R T s)
            true (deferredDraw s)) s).
Proof.
  unfold MethodSwitch.
  rewrite (drawVertexArray_count_first R Hwf), (drawIndexBuffer_count_first R Hwf).
  repeat match goal with
         | |- context [drawIndexBuffer R =? ?y] =>
             lazymatch y with
             | drawIndexBuffer R => fail
             | _ =>
                 let H := fresh in
                 assert (H : drawIndexBuffer R <> y) by scalar_neq R Hwf;
                 apply Z.eqb_neq in H; rewrite H; clear H
             end
         end.
  rewrite Z.eqb_refl. reflexivity.
Qed.

(** The first draw-count write: nothing is drawn yet, the draw is recorded
    with the count written and left pending, the instance count is as it
    was, and no batch is active afterwards. *)
Lemma HandleMethod_first_count c a s :
  c ∈ [drawVertexArray R; drawIndexBuffer R] ->
  pending (deferredDraw s) = false ->
  let r := HandleMethod R T flag c a s in
  threw r = false
  /\ List.filter is_Draw (calls_of r) = []
  /\ pending (deferredDraw (state_of r)) = true
  /\ instanceCount (deferredDraw (state_of r)) = instanceCount (deferredDraw s)
  /\ drawCount (deferredDraw (state_of r)) = effective_argument R T c a s
  /\ Batch_Active (batchLoadConstantBuffer (state_of r)) = false.
Proof.
  intros Hc Hpend. cbv zeta.
  assert (Hs : c ∈ scalar_labels R).
  { repeat (apply elem_of_cons in Hc as [-> | Hc]); try scalar_in.
    apply elem_of_nil in Hc. contradiction. }
  pose proof (scalar_array_cases R Hwf c Hs) as (Hd & _ & H1 & H2 & H3 & H4).
  assert (Hne : c <> mme_shadowRamControl R /\ c <> primitiveRestartEnable R
                /\ c <> tessellationParameters R /\ c <> patchSize R).
  { repeat (apply elem_of_cons in Hc as [-> | Hc]);
      try (apply elem_of_nil in Hc; contradiction).
    all: repeat split; scalar_neq R Hwf. }
  destruct Hne as (H0 & H5 & H6 & H7).
  pose proof (commit_keeps R T c a s) as (Hb & Hdd & _).
  assert (Hsettled : deferredDraw (settled (commit R T c a s)) = deferredDraw s
                     /\ Batch_Active
                          (batchLoadConstantBuffer (settled (commit R T c a s)))
                        = false
                     /\ List.filter is_Draw (fst (settle (commit R T c a s))) = []).
  { unfold settled, settle, FlushDeferredDraw. rewrite Hdd, Hpend, Hb.
    destruct (Batch_Active (batchLoadConstantBuffer s)) eqn:E;
      cbn [state_of completion_state fst snd continue deferredDraw
           batchLoadConstantBuffer set_batchLoadConstantBuffer List.filter
           is_Draw];
      rewrite ?Hdd, ?Hb, ?E; repeat split; reflexivity. }
  destruct Hsettled as (Hsd & Hsb & Hsc).
  assert (Hsw : exists d',
             MethodSwitch R T flag c (effective_argument R T c a s)
               (settled (commit R T c a s))
             = case_end flag (set_deferredDraw d' (settled (commit R T c a s)))
             /\ pending d' = true
             /\ instanceCount d' = instanceCount (deferredDraw s)
             /\ drawCount d' = effective_argument R T c a s).
  { repeat (apply elem_of_cons in Hc as [-> | Hc]);
      try (apply elem_of_nil in Hc; contradiction).
    all: eexists; split;
      [first [apply MethodSwitch_drawVertexArray_count
             | apply MethodSwitch_drawIndexBuffer_count] |].
    all: cbn [DeferredDrawState_Set pending instanceCount drawCount];
      rewrite Hsd; auto. }
  destruct Hsw as (d' & Hsw & Hp' & Hi' & Hc').
  assert (Hrun :
            HandleMethod R T flag c a s
            = (fst (settle (commit R T c a s))
               ++ (if is_redundant R T c a s then [] else [MarkDirty c])
               ++ fst (case_end flag
                         (set_deferredDraw d' (settled (commit R T c a s)))),
               snd (case_end flag
                      (set_deferredDraw d' (settled (commit R T c a s)))))).
  { rewrite HandleMethod_layers by exact H0.
    rewrite CoalesceLayer_idle by (try rewrite Hdd; assumption).
    unfold andThen at 1. rewrite settle_Normal. cbv zeta.
    unfold when. destruct (is_redundant R T c a s); cbn [negb].
    - cbn [continue andThen fst snd app]. rewrite Hsw. reflexivity.
    - rewrite ChangedLayer_plain by assumption.
      cbn [andThen fst snd]. rewrite Hsw. reflexivity. }
  rewrite Hrun. unfold threw, calls_of, state_of, case_end.
  destruct flag; cbn [fst snd leave continue throws completion_state
                      deferredDraw set_deferredDraw batchLoadConstantBuffer].
  all: repeat split; try assumption; try reflexivity.
  all: rewrite !List.filter_app, Hsc.
  all: destruct (is_redundant R T c a s); reflexivity.
Qed.
(** A begin write with the Subsequent marker while a draw is pending:
    one more instance, nothing else. *)
Lemma HandleMethod_begin_subsequent b s :
  pending (deferredDraw s) = true ->
  Batch_Active (batchLoadConstantBuffer s) = false ->
  shadow_mode R T s <> MethodReplay ->
  Begin_instanceId T b = Subsequent ->
  let r := HandleMethod R T flag (begin_ R) b s in
  threw r = false
  /\ List.filter is_Draw (calls_of r) = []
  /\ deferredDraw (state_of r)
     = with_instanceCount (u32 (instanceCount (deferredDraw s) + 1)) (deferredDraw s)
  /\ batchLoadConstantBuffer (state_of r) = batchLoadConstantBuffer s
  /\ shadow_mode R T (state_of r) = shadow_mode R T s.
Proof.
  intros Hpend Hbatch Hmode Hsub. cbv zeta.
  assert (H0 : begin_ R <> mme_shadowRamControl R) by scalar_neq R Hwf.
  split; [| split; [| split; [| split]]];
    try (apply HandleMethod_shadow_mode; exact H0).
  all: rewrite HandleMethod_layers by exact H0.
  all: rewrite (effective_argument_plain (begin_ R) b s Hmode).
  all: pose proof (commit_keeps R T (begin_ R) b s) as (Hb & Hd & _).
  all: unfold CoalesceLayer; rewrite Hb, Hbatch, Hd, Hpend.
  all: unfold DeferredDrawLayer; rewrite Z.eqb_refl, Hsub.
  all: unfold when, threw, calls_of, state_of.
  all: destruct (negb (drawTopology (deferredDraw (commit R T (begin_ R) b s))
                       =? Begin_op T b)
                 && match PrimitiveTopologyControl_override T
                            (registers (commit R T (begin_ R) b s)
                               (primitiveTopologyControl R)) with
                    | UseTopologyInBeginMethods => true
                    | UseSeparateTopologyState => false
                    end);
    cbn [andThen emit leave continue fst snd throws completion_state app
         List.filter is_Draw update_instanceCount deferredDraw set_deferredDraw
         batchLoadConstantBuffer];
    rewrite ?Hd, ?Hb; reflexivity.
Qed.

Lemma with_instanceCount_same d : with_instanceCount (instanceCount d) d = d.
Proof. destruct d; reflexivity. Qed.

Lemma u32_succ x n : u32 (u32 (x + 1) + n) = u32 (x + (1 + n)).
Proof.
  unfold u32. rewrite Zplus_mod_idemp_l. f_equal. lia.
Qed.

(** Any number of such begin writes in a row: the instance count goes up
    by their number, as a 32-bit counter. *)
Lemma begins_coalesce bs : forall s,
  pending (deferredDraw s) = true ->
  Batch_Active (batchLoadConstantBuffer s) = false ->
  shadow_mode R T s <> MethodReplay ->
  Forall (fun b => Begin_instanceId T b = Subsequent) bs ->
  0 <= instanceCount (deferredDraw s) < 2 ^ 32 ->
  let r := HandleMethods R T flag (map (fun b => (begin_ R, b)) bs) s in
  threw r = false
  /\ List.filter is_Draw (calls_of r) = []
  /\ deferredDraw (state_of r)
     = with_instanceCount
         (u32 (instanceCount (deferredDraw s) + Z.of_nat (length bs)))
         (deferredDraw s)
  /\ Batch_Active (batchLoadConstantBuffer (state_of r)) = false.
Proof.
  induction bs as [| b bs IH]; intros s Hpend Hbatch Hmode Hsub Hrange; cbv zeta.
  - cbn. rewrite Z.add_0_r, u32_small by exact Hrange.
    rewrite with_instanceCount_same. auto.
  - apply Forall_cons in Hsub as [Hb Hbs].
    pose proof (HandleMethod_begin_subsequent b s Hpend Hbatch Hmode Hb)
      as (Hok & Hcalls & Hrec & Hbat & Hsm).
    cbv zeta in Hok, Hcalls, Hrec, Hbat, Hsm.
    cbn [map length] in *.
    rewrite HandleMethods_step by exact Hok.
    specialize (IH (state_of (HandleMethod R T flag (begin_ R) b s))).
    rewrite Hrec, Hbat, Hsm in IH. cbn [pending instanceCount with_instanceCount] in IH.
    destruct IH as (Hok' & Hcalls' & Hrec' & Hbat');
      try assumption; try apply u32_range.
    unfold threw, calls_of, state_of in *. cbn [fst snd].
    rewrite List.filter_app, Hcalls, Hcalls', Hrec'.
    repeat split; try assumption.
    rewrite u32_succ. unfold with_instanceCount. cbn. do 2 f_equal. lia.
Qed.
End InstancedDraws.

(** C2 as stated fails in three ways.  (1) A write to the shadow RAM
    control register is an unrelated method, but it returns before the
    deferred-draw layer: after a draw-count write (K = 0) and a write to
    that register no draw has been submitted and the draw is still pending.
    (2) In replay mode the words carried out are the shadow copy's: a begin
    write carrying the Subsequent marker is replayed as the recorded word
    (here 0, the First marker), so with K = 1 the draw is submitted with
    instance count 1 and the recorded count.  (3) A begin write with the
    Subsequent marker that arrives while no draw is pending raises the
    instance count the next draw starts from: with K = 0 the draw is then
    submitted with instance count 2. *)
Lemma C2_counterexample :
  let control :=
    HandleMethods example_registers example_types true
      [(0x35E, 3); (0x49, 2)] example_state in
  let replay :=
    HandleMethods example_registers example_types true
      [(0x35E, 3); (0x586, begin_Subsequent); (0x674, 1)] example_replay_state in
  let after_begin :=
    state_of (HandleMethod example_registers example_types true 0x586
                begin_Subsequent example_state) in
  let late :=
    HandleMethods example_registers example_types true
      [(0x35E, 3); (0x674, 1)] after_begin in
  (threw control = false
   /\ List.filter is_Draw (calls_of control) = []
   /\ pending (deferredDraw (state_of control)) = true)
  /\ List.filter is_Draw (calls_of replay) = [Draw 0 false 0 0 1 0 0]
  /\ (pending (deferredDraw after_begin) = false
      /\ List.filter is_Draw (calls_of late) = [Draw 4 false 3 0 2 0 0]).
Proof. vm_compute. repeat split; reflexivity. Qed.

(** C2 (amended).  Start with no draw pending and an instance count of 1,
    the shadow RAM not in replay mode.  For every K >= 0: after a
    draw-count write, K begin writes carrying the Subsequent marker and one
    write to a method that is neither a draw method (begin, end, the draw
    counts) nor the shadow RAM control register, the dispatcher has
    submitted exactly one [Draw]; its count is the count written, its
    instance count is K + 1 (as the 32-bit counter it is), and its other
    arguments are those recorded by the draw-count write.  After that the
    deferred-draw record is not pending and its instance count is 1
    again. *)
Theorem C2_instanced_draws_coalesce_into_one_draw
    (R : Registers) (T : Types) (flag : bool)
    (c count : Z) (bs : list Z) (m x : Z) (s : State) :
  well_formed R ->
  c ∈ [drawVertexArray_count R; drawIndexBuffer_count R] ->
  Forall (fun b => Begin_instanceId T b = Subsequent) bs ->
  m <> mme_shadowRamControl R ->
  m ∉ draw_methods R ->
  pending (deferredDraw s) = false ->
  instanceCount (deferredDraw s) = 1 ->
  shadow_mode R T s <> MethodReplay ->
  let r :=
    HandleMethods R T flag
      ((c, count) :: map (fun b => (begin_ R, b)) bs ++ [(m, x)]) s in
  let d := deferredDraw (state_of (HandleMethod R T flag c count s)) in
  List.filter is_Draw (calls_of r)
  = [Draw (drawTopology d) (indexed d) count (drawFirst d)
       (u32 (Z.of_nat (length bs) + 1)) (drawBaseVertex d) (drawBaseInstance d)]
  /\ (Z.of_nat (length bs) + 1 < 2 ^ 32 ->
      u32 (Z.of_nat (length bs) + 1) = Z.of_nat (length bs) + 1)
  /\ pending (deferredDraw (state_of r)) = false
  /\ instanceCount (deferredDraw (state_of r)) = 1.
Proof.
  intros Hwf Hc Hbs Hm Hdraw Hpend Hone Hmode. cbv zeta.
  split; [| split; [intros HK; apply u32_small; lia |]].
  all: rewrite (drawVertexArray_count_first R Hwf),
         (drawIndexBuffer_count_first R Hwf) in Hc.
  all: assert (H0 : c <> mme_shadowRamControl R)
         by (repeat (apply elem_of_cons in Hc as [-> | Hc]);
             try (apply elem_of_nil in Hc; contradiction); scalar_neq R Hwf).
  all: pose proof (HandleMethod_first_count R T flag Hwf c count s Hc Hpend)
         as (Hok1 & Hcalls1 & Hpend1 & Hic1 & Hcount1 & Hbatch1);
    cbv zeta in Hok1, Hcalls1, Hpend1, Hic1, Hcount1, Hbatch1;
    rewrite (effective_argument_plain R T c count s Hmode) in Hcount1.
  all: pose proof (HandleMethod_shadow_mode R T flag c count s H0) as Hmode1.
  all: set (s1 := state_of (HandleMethod R T flag c count s)) in *.
  all: assert (Hmode1' : shadow_mode R T s1 <> MethodReplay)
         by (rewrite Hmode1; exact Hmode).
  all: pose proof (begins_coalesce R T flag Hwf bs s1 Hpend1 Hbatch1 Hmode1' Hbs)
         as (Hok2 & Hcalls2 & Hrec2 & Hbatch2);
    [rewrite Hic1, Hone; lia |];
    cbv zeta in Hok2, Hcalls2, Hrec2, Hbatch2.
  all: set (s2 := state_of
                    (HandleMethods R T flag (map (fun b => (begin_ R, b)) bs) s1))
         in *.
  all: assert (Hpend2 : pending (deferredDraw s2) = true)
         by (rewrite Hrec2; exact Hpend1).
  all: pose proof (HandleMethod_flushes_draw R T flag Hwf m x s2 Hm Hdraw Hpend2
                     Hbatch2) as (Hcalls3 & Hrec3).
  all: pose proof (HandleMethods_last R T flag m x s2) as (Hl1 & Hl2).
  all: rewrite HandleMethods_step by exact Hok1; fold s1.
  all: rewrite HandleMethods_app by exact Hok2; fold s2.
  all: unfold calls_of, state_of in *; cbn [fst snd].
  - rewrite !List.filter_app, Hcalls1, Hcalls2, Hl1, Hcalls3, Hrec2.
    rewrite Hic1, Hone, <- Hcount1, Z.add_comm. reflexivity.
  - rewrite Hl2, Hrec3. split; reflexivity.
Qed.

Lemma C2_witness :
  let r :=
    HandleMethods example_registers example_types true
      ((0x35E, 3) :: map (fun b => (0x586, b)) [begin_Subsequent; begin_Subsequent]
       ++ [(0x674, 1)]) example_state in
  List.filter is_Draw (calls_of r) = [Draw 0 false 3 0 3 0 0]
  /\ pending (deferredDraw (state_of r)) = false
  /\ instanceCount (deferredDraw (state_of r)) = 1.
Proof.
  cbv zeta.
  destruct (C2_instanced_draws_coalesce_into_one_draw example_registers
              example_types true 0x35E 3 [begin_Subsequent; begin_Subsequent]
              0x674 1 example_state example_well_formed)
    as (Hcalls & _ & Hpend & Hcount).
  - apply list_elem_of_here.
  - repeat constructor.
  - vm_compute. discriminate.
  - unfold draw_methods. repeat rewrite not_elem_of_cons.
    repeat split; try apply not_elem_of_nil; vm_compute; discriminate.
  - reflexivity.
  - reflexivity.
  - vm_compute. discriminate.
  - split; [exact Hcalls |]. split; [exact Hpend | exact Hcount].
Defined.

(** ** Constant-buffer batches *)

Section Batches.
Variable R : Registers.
Variable T : Types.
Variable flag : bool.
Hypothesis Hwf : well_formed R.

Lemma CoalesceLayer_no_batch m a red s :
  Batch_Active (batchLoadConstantBuffer s) = false ->
  m ∉ draw_methods R ->
  CoalesceLayer R T m a red s = FlushDeferredDraw s.
Proof.
  intros Hb Hd. unfold CoalesceLayer. rewrite Hb.
  destruct (pending (deferredDraw s)) eqn:Hp.
  - apply DeferredDrawLayer_other, Hd.
  - symmetry. apply FlushDeferredDraw_idle, Hp.
Qed.

(** What a data method is not. *)
Lemma data_label_neq i y :
  (i < 16)%nat -> y ∈ scalar_labels R -> loadConstantBuffer_data R i <> y.
Proof.
  intros Hi Hy E. destruct (data_label_cases R Hwf i Hi) as [Hn _].
  apply Hn. rewrite E. exact Hy.
Qed.

Lemma data_not_draw_method i :
  (i < 16)%nat -> loadConstantBuffer_data R i ∉ draw_methods R.
Proof.
  intros Hi. unfold draw_methods. repeat rewrite not_elem_of_cons.
  repeat split; try apply not_elem_of_nil; apply data_label_neq; try exact Hi;
    scalar_in.
Qed.

Lemma MethodSwitch_data i a s :
  (i < 16)%nat ->
  MethodSwitch R T flag (loadConstantBuffer_data R i) a s
  = case_end flag
      (advance_offset R
         (push_back a
            (set_batchLoadConstantBuffer
               {| startOffset := Some (registers s (loadConstantBuffer_offset R));
                  buffer := buffer (batchLoadConstantBuffer s) |} s))).
Proof.
  intros Hi. unfold MethodSwitch.
  rewrite (drawVertexArray_count_first R Hwf), (drawIndexBuffer_count_first R Hwf).
  repeat match goal with
         | |- context [loadConstantBuffer_data R i =? ?y] =>
             let H := fresh in
             assert (H : loadConstantBuffer_data R i <> y)
               by (apply data_label_neq; [exact Hi | scalar_in]);
             apply Z.eqb_neq in H; rewrite H; clear H
         end.
  destruct (array_case_Some 16 (loadConstantBuffer_data R) i Hi) as [j Hj].
  rewrite Hj. reflexivity.
Qed.

(** Every write to a data method advances the offset register by four,
    whether it starts a batch or extends one. *)
Lemma data_write_advances_offset i w s :
  (i < 16)%nat ->
  registers (state_of (HandleMethod R T flag (loadConstantBuffer_data R i) w s))
    (loadConstantBuffer_offset R)
  = u32 (registers s (loadConstantBuffer_offset R) + 4).
Proof.
  intros Hi.
  pose proof (data_label_cases R Hwf i Hi) as (_ & H1 & H2 & H3 & H4 & Hoff).
  assert (H0 : loadConstantBuffer_data R i <> mme_shadowRamControl R)
    by (apply data_label_neq; [exact Hi | scalar_in]).
  assert (Hreg : registers (commit R T (loadConstantBuffer_data R i) w s)
                   (loadConstantBuffer_offset R)
                 = registers s (loadConstantBuffer_offset R)).
  { rewrite registers_commit. apply store_other. congruence. }
  rewrite HandleMethod_layers by exact H0.
  destruct (Batch_Active
              (batchLoadConstantBuffer (commit R T (loadConstantBuffer_data R i) w s)))
    eqn:Hact.
  - unfold CoalesceLayer, BatchLayer. rewrite Hact.
    destruct (array_case_Some 16 (loadConstantBuffer_data R) i Hi) as [j Hj].
    rewrite Hj. cbn [andThen leave snd state_of completion_state].
    unfold advance_offset, push_back.
    cbn [registers write_register set_registers set_batchLoadConstantBuffer].
    rewrite store_same, Hreg. reflexivity.
  - rewrite CoalesceLayer_no_batch by (try exact Hact; apply data_not_draw_method, Hi).
    assert (Hflush : exists s1,
               snd (FlushDeferredDraw (commit R T (loadConstantBuffer_data R i) w s))
               = Normal s1
               /\ registers s1 = registers (commit R T (loadConstantBuffer_data R i) w s)).
    { unfold FlushDeferredDraw. destruct (pending _); eexists; split; reflexivity. }
    destruct Hflush as (s1 & Hs1 & Hr1).
    rewrite state_of_andThen, Hs1, state_of_andThen.
    assert (Hch : when (negb (is_redundant R T (loadConstantBuffer_data R i) w s))
                    (ChangedLayer R T flag (loadConstantBuffer_data R i)
                       (effective_argument R T (loadConstantBuffer_data R i) w s))
                    s1
                  = ((if is_redundant R T (loadConstantBuffer_data R i) w s
                      then [] else [MarkDirty (loadConstantBuffer_data R i)]),
                     Normal s1)).
    { unfold when. destruct (is_redundant _ _ _ _ _); cbn [negb]; [reflexivity |].
      apply ChangedLayer_plain; try assumption;
        apply data_label_neq; try exact Hi; scalar_in. }
    rewrite Hch. cbn [snd]. rewrite MethodSwitch_data by exact Hi.
    rewrite state_of_case_end.
    unfold advance_offset, push_back.
    cbn [registers write_register set_registers set_batchLoadConstantBuffer].
    rewrite store_same, Hr1, Hreg. reflexivity.
Qed.

(** The first data write, with no batch active: nothing is loaded yet; a
    batch starts at the offset register's value, holding the word. *)
Lemma HandleMethod_first_data i w s :
  (i < 16)%nat ->
  Batch_Active (batchLoadConstantBuffer s) = false ->
  let r := HandleMethod R T flag (loadConstantBuffer_data R i) w s in
  threw r = false
  /\ List.filter is_LoadConstantBuffer (calls_of r) = []
  /\ batchLoadConstantBuffer (state_of r)
     = {| startOffset := Some (registers s (loadConstantBuffer_offset R));
          buffer := buffer (batchLoadConstantBuffer s)
                    ++ [effective_argument R T (loadConstantBuffer_data R i) w s] |}.
Proof.
  intros Hi Hact. cbv zeta.
  pose proof (data_label_cases R Hwf i Hi) as (_ & H1 & H2 & H3 & H4 & Hoff).
  assert (H0 : loadConstantBuffer_data R i <> mme_shadowRamControl R)
    by (apply data_label_neq; [exact Hi | scalar_in]).
  pose proof (commit_keeps R T (loadConstantBuffer_data R i) w s) as (Hb & _).
  assert (Hreg : registers (commit R T (loadConstantBuffer_data R i) w s)
                   (loadConstantBuffer_offset R)
                 = registers s (loadConstantBuffer_offset R)).
  { rewrite registers_commit. apply store_other. congruence. }
  assert (Hrun : exists cs s1,
             HandleMethod R T flag (loadConstantBuffer_data R i) w s
             = (cs ++ fst (MethodSwitch R T flag (loadConstantBuffer_data R i)
                             (effective_argument R T (loadConstantBuffer_data R i) w s)
                             s1),
                snd (MethodSwitch R T flag (loadConstantBuffer_data R i)
                       (effective_argument R T (loadConstantBuffer_data R i) w s)
                       s1))
             /\ List.filter is_LoadConstantBuffer cs = []
             /\ registers s1 = registers (commit R T (loadConstantBuffer_data R i) w s)
             /\ batchLoadConstantBuffer s1 = batchLoadConstantBuffer s).
  { rewrite HandleMethod_layers by exact H0.
    rewrite CoalesceLayer_no_batch
      by (try (rewrite Hb; exact Hact); apply data_not_draw_method, Hi).
    assert (Hch : forall s1,
               when (negb (is_redundant R T (loadConstantBuffer_data R i) w s))
                 (ChangedLayer R T flag (loadConstantBuffer_data R i)
                    (effective_argument R T (loadConstantBuffer_data R i) w s))
                 s1
               = ((if is_redundant R T (loadConstantBuffer_data R i) w s
                   then [] else [MarkDirty (loadConstantBuffer_data R i)]),
                  Normal s1)).
    { intros s1. unfold when.
      destruct (is_redundant _ _ _ _ _); cbn [negb]; [reflexivity |].
      apply ChangedLayer_plain; try assumption;
        apply data_label_neq; try exact Hi; scalar_in. }
    destruct (pending (deferredDraw (commit R T (loadConstantBuffer_data R i) w s)))
      eqn:Hp.
    - rewrite FlushDeferredDraw_pending by exact Hp.
      exists ([Draw_of (deferredDraw (commit R T (loadConstantBuffer_data R i) w s))]
              ++ (if is_redundant R T (loadConstantBuffer_data R i) w s
                  then [] else [MarkDirty (loadConstantBuffer_data R i)])),
        (flushed (commit R T (loadConstantBuffer_data R i) w s)).
      cbn [andThen fst snd]. rewrite Hch. cbn [fst snd].
      split; [first [reflexivity | rewrite app_assoc; reflexivity
                    | rewrite <- app_assoc; reflexivity] |].
      split; [destruct (is_redundant _ _ _ _ _); reflexivity |].
      split; [reflexivity | exact Hb].
    - rewrite FlushDeferredDraw_idle by exact Hp.
      exists (if is_redundant R T (loadConstantBuffer_data R i) w s
              then [] else [MarkDirty (loadConstantBuffer_data R i)]),
        (commit R T (loadConstantBuffer_data R i) w s).
      cbn [andThen continue fst snd app]. rewrite Hch. cbn [fst snd].
      split; [reflexivity |].
      split; [destruct (is_redundant _ _ _ _ _); reflexivity |].
      split; [reflexivity | exact Hb]. }
  destruct Hrun as (cs & s1 & Hrun & Hcs & Hr1 & Hb1).
  rewrite Hrun, MethodSwitch_data by exact Hi.
  unfold threw, calls_of, state_of, case_end.
  destruct flag; cbn [fst snd leave continue throws completion_state app].
  all: rewrite ?app_nil_r, Hcs.
  all: unfold advance_offset, push_back;
    cbn [batchLoadConstantBuffer write_register set_registers
         set_batchLoadConstantBuffer startOffset buffer].
  all: rewrite Hb1, Hr1, Hreg; auto.
Qed.

(** A data write while a batch is active only extends the batch. *)
Lemma HandleMethod_next_data i w s :
  (i < 16)%nat ->
  Batch_Active (batchLoadConstantBuffer s) = true ->
  let r := HandleMethod R T flag (loadConstantBuffer_data R i) w s in
  threw r = false
  /\ calls_of r = []
  /\ batchLoadConstantBuffer (state_of r)
     = {| startOffset := startOffset (batchLoadConstantBuffer s);
          buffer := buffer (batchLoadConstantBuffer s)
                    ++ [effective_argument R T (loadConstantBuffer_data R i) w s] |}.
Proof.
  intros Hi Hact. cbv zeta.
  assert (H0 : loadConstantBuffer_data R i <> mme_shadowRamControl R)
    by (apply data_label_neq; [exact Hi | scalar_in]).
  pose proof (commit_keeps R T (loadConstantBuffer_data R i) w s) as (Hb & _).
  rewrite HandleMethod_layers by exact H0.
  unfold CoalesceLayer, BatchLayer. rewrite Hb, Hact.
  destruct (array_case_Some 16 (loadConstantBuffer_data R) i Hi) as [j Hj].
  rewrite Hj. unfold threw, calls_of, state_of, advance_offset, push_back.
  cbn [andThen leave fst snd throws completion_state batchLoadConstantBuffer
       write_register set_registers set_batchLoadConstantBuffer].
  rewrite Hb. auto.
Qed.

(** Any method that is not a data method submits the active batch, once,
    and leaves the batch record cleared. *)
Lemma HandleMethod_flushes_batch m x s offset :
  m <> mme_shadowRamControl R ->
  array_case 16 (loadConstantBuffer_data R) m = None ->
  startOffset (batchLoadConstantBuffer s) = Some offset ->
  List.filter is_LoadConstantBuffer (calls_of (HandleMethod R T flag m x s))
  = [LoadConstantBuffer (buffer (batchLoadConstantBuffer s)) offset]
  /\ batchLoadConstantBuffer (state_of (HandleMethod R T flag m x s)) = cleared_batch.
Proof.
  intros Hm Hdata Hstart.
  pose proof (commit_keeps R T m x s) as (Hb & _).
  rewrite HandleMethod_layers by exact Hm.
  rewrite CoalesceLayer_submits_batch
    by (try exact Hdata; rewrite Hb; unfold Batch_Active; rewrite Hstart; reflexivity).
  rewrite calls_of_andThen, state_of_andThen. cbn [snd calls_of fst].
  pose proof (tail_layers_frame R T flag m (effective_argument R T m x s)
                (is_redundant R T m x s)
                (set_batchLoadConstantBuffer cleared_batch (commit R T m x s)))
    as (_ & Hl & _ & Hbatch).
  cbv zeta in Hl, Hbatch.
  rewrite List.filter_app, Hl, (Hbatch Hdata).
  unfold Batch_Invalidate. rewrite Hb, Hstart. split; reflexivity.
Qed.

(** Any number of data writes in a row while a batch is active. *)
Lemma datas_coalesce ws : forall s,
  Batch_Active (batchLoadConstantBuffer s) = true ->
  shadow_mode R T s <> MethodReplay ->
  Forall (fun iw : nat * Z => (fst iw < 16)%nat) ws ->
  let r :=
    HandleMethods R T flag
      (map (fun iw : nat * Z => (loadConstantBuffer_data R (fst iw), snd iw)) ws) s in
  threw r = false
  /\ calls_of r = []
  /\ batchLoadConstantBuffer (state_of r)
     = {| startOffset := startOffset (batchLoadConstantBuffer s);
          buffer := buffer (batchLoadConstantBuffer s) ++ map snd ws |}.
Proof.
  induction ws as [| [i w] ws IH]; intros s Hact Hmode Hws; cbv zeta.
  - cbn. rewrite app_nil_r. destruct (batchLoadConstantBuffer s); auto.
  - apply Forall_cons in Hws as [Hi Hws]. cbn [fst snd] in Hi.
    pose proof (HandleMethod_next_data i w s Hi Hact) as (Hok & Hcalls & Hbat).
    cbv zeta in Hok, Hcalls, Hbat.
    rewrite (effective_argument_plain R T _ w s Hmode) in Hbat.
    assert (H0 : loadConstantBuffer_data R i <> mme_shadowRamControl R)
      by (apply data_label_neq; [exact Hi | scalar_in]).
    pose proof (HandleMethod_shadow_mode R T flag _ w s H0) as Hsm.
    cbn [map fst snd].
    rewrite HandleMethods_step by exact Hok.
    specialize (IH (state_of (HandleMethod R T flag (loadConstantBuffer_data R i) w s))).
    destruct IH as (Hok' & Hcalls' & Hbat').
    + unfold Batch_Active in *. rewrite Hbat. cbn [startOffset]. exact Hact.
    + rewrite Hsm. exact Hmode.
    + exact Hws.
    + unfold threw, calls_of, state_of in *. cbn [fst snd].
      rewrite Hcalls, Hcalls', Hbat', Hbat. cbn [startOffset buffer app].
      rewrite <- app_assoc. auto.
Qed.
End Batches.

(** C3 as stated fails in two ways.  (1) A write to the shadow RAM
    control register is another method, but it returns before the batch
    layer: after one data write and a write to that register nothing has
    been loaded and the batch is still active.  (2) In replay mode the
    words batched are the shadow copy's, not the written ones: the word 5
    written to a data method is loaded as the recorded word 0. *)
Lemma C3_counterexample :
  let control :=
    HandleMethods example_registers example_types true
      [(0x8E4, 5); (0x49, 2)] example_state in
  let replay :=
    HandleMethods example_registers example_types true
      [(0x8E4, 5); (0x674, 1)] example_replay_state in
  (threw control = false
   /\ List.filter is_LoadConstantBuffer (calls_of control) = []
   /\ batchLoadConstantBuffer (state_of control)
      = {| startOffset := Some 0; buffer := [5] |})
  /\ List.filter is_LoadConstantBuffer (calls_of replay)
     = [LoadConstantBuffer [0] 0].
Proof. vm_compute. repeat split; reflexivity. Qed.

(** C3 (amended).  Start with no batch (the batch record cleared) and the
    shadow RAM not in replay mode.  For every N >= 1: after N consecutive
    writes to constant-buffer data methods and one write to a method that
    is neither a data method nor the shadow RAM control register, the
    dispatcher has made exactly one [LoadConstantBuffer] call; its words
    are the N written words in write order and its start offset is the
    value the offset register held at the first of the N writes; the batch
    record is cleared afterwards.  And every write to a data method, from
    any state, advances the offset register by 4 (modulo 2^32). *)
Theorem C3_constant_buffer_writes_coalesce_into_one_load
    (R : Registers) (T : Types) (flag : bool)
    (i0 : nat) (w0 : Z) (ws : list (nat * Z)) (m x : Z) (s : State) :
  well_formed R ->
  Forall (fun iw : nat * Z => (fst iw < 16)%nat) ((i0, w0) :: ws) ->
  m <> mme_shadowRamControl R ->
  m ∉ map (loadConstantBuffer_data R) (seq 0 16) ->
  batchLoadConstantBuffer s = cleared_batch ->
  shadow_mode R T s <> MethodReplay ->
  let writes :=
    map (fun iw : nat * Z => (loadConstantBuffer_data R (fst iw), snd iw))
      ((i0, w0) :: ws) in
  let r := HandleMethods R T flag (writes ++ [(m, x)]) s in
  List.filter is_LoadConstantBuffer (calls_of r)
  = [LoadConstantBuffer (w0 :: map snd ws)
       (registers s (loadConstantBuffer_offset R))]
  /\ batchLoadConstantBuffer (state_of r) = cleared_batch
  /\ forall s' i w,
       (i < 16)%nat ->
       registers
         (state_of (HandleMethod R T flag (loadConstantBuffer_data R i) w s'))
         (loadConstantBuffer_offset R)
       = u32 (registers s' (loadConstantBuffer_offset R) + 4).
Proof.
  intros Hwf Hws Hm Hdata Hbatch Hmode. cbv zeta.
  split; [| split]; [| | intros s' i w Hi; apply data_write_advances_offset; assumption].
  all: apply Forall_cons in Hws as [Hi0 Hws]; cbn [fst] in Hi0.
  all: apply array_case_None in Hdata.
  all: assert (H0 : loadConstantBuffer_data R i0 <> mme_shadowRamControl R)
         by (apply data_label_neq; [exact Hwf | exact Hi0 | scalar_in]).
  all: pose proof (HandleMethod_first_data R T flag Hwf i0 w0 s Hi0) as Hfirst;
    rewrite Hbatch in Hfirst; specialize (Hfirst eq_refl);
    destruct Hfirst as (Hok1 & Hcalls1 & Hbat1);
    rewrite (effective_argument_plain R T _ w0 s Hmode) in Hbat1;
    cbn [buffer cleared_batch app] in Hbat1.
  all: pose proof (HandleMethod_shadow_mode R T flag _ w0 s H0) as Hsm1.
  all: set (s1 := state_of (HandleMethod R T flag (loadConstantBuffer_data R i0) w0 s))
         in *.
  all: assert (Hact1 : Batch_Active (batchLoadConstantBuffer s1) = true)
         by (rewrite Hbat1; reflexivity).
  all: assert (Hmode1 : shadow_mode R T s1 <> MethodReplay)
         by (rewrite Hsm1; exact Hmode).
  all: pose proof (datas_coalesce R T flag Hwf ws s1 Hact1 Hmode1 Hws)
         as (Hok2 & Hcalls2 & Hbat2);
    cbv zeta in Hok2, Hcalls2, Hbat2;
    rewrite Hbat1 in Hbat2; cbn [startOffset buffer app] in Hbat2.
  all: set (s2 := state_of
                    (HandleMethods R T flag
                       (map (fun iw : nat * Z =>
                               (loadConstantBuffer_data R (fst iw), snd iw)) ws)
                       s1)) in *.
  all: pose proof (HandleMethod_flushes_batch R T flag m x s2
                     (registers s (loadConstantBuffer_offset R)) Hm Hdata)
         as Hlast;
    rewrite Hbat2 in Hlast; specialize (Hlast eq_refl);
    destruct Hlast as (Hcalls3 & Hbat3); cbn [buffer] in Hcalls3.
  all: pose proof (HandleMethods_last R T flag m x s2) as (Hl1 & Hl2).
  all: cbn [map app fst snd].
  all: rewrite HandleMethods_step by exact Hok1; fold s1.
  all: rewrite HandleMethods_app by exact Hok2; fold s2.
  all: unfold calls_of, state_of in *; cbn [fst snd].
  - rewrite !List.filter_app, Hcalls1, Hcalls2, Hl1, Hcalls3. reflexivity.
  - rewrite Hl2. exact Hbat3.
Qed.

Lemma C3_witness :
  let r :=
    HandleMethods example_registers example_types true
      (map (fun iw : nat * Z =>
              (loadConstantBuffer_data example_registers (fst iw), snd iw))
         [(0%nat, 5); (1%nat, 6); (0%nat, 7)]
       ++ [(0x674, 1)]) example_state in
  List.filter is_LoadConstantBuffer (calls_of r) = [LoadConstantBuffer [5; 6; 7] 0]
  /\ batchLoadConstantBuffer (state_of r) = cleared_batch.
Proof.
  cbv zeta.
  destruct (C3_constant_buffer_writes_coalesce_into_one_load example_registers
              example_types true 0%nat 5 [(1%nat, 6); (0%nat, 7)] 0x674 1
              example_state example_well_formed)
    as (Hcalls & Hbatch & _).
  - repeat constructor; cbn; lia.
  - vm_compute. discriminate.
  - apply (bool_decide_unpack _). vm_compute. exact I.
  - reflexivity.
  - vm_compute. discriminate.
  - split; [exact Hcalls | exact Hbatch].
Defined.

(** ** What a write leaves alone *)

Lemma engine_state_dispatched (r : Step) :
  engine_state (dispatched r) = state_of r.
Proof. unfold engine_state, dispatched, state_of. destruct r as [cs []]; reflexivity. Qed.

Lemma engine_threw_dispatched (r : Step) :
  engine_threw (dispatched r) = threw r.
Proof. unfold engine_threw, dispatched, threw. destruct r as [cs []]; reflexivity. Qed.

Lemma not_elem_of_forallb (x : Z) (l : list Z) :
  forallb (fun y => negb (x =? y)) l = true -> x ∉ l.
Proof.
  induction l as [| y l IH]; cbn; intros H; [apply not_elem_of_nil |].
  apply andb_prop in H as [Hy Hl]. apply not_elem_of_cons. split.
  - apply negb_true_iff, Z.eqb_neq in Hy. exact Hy.
  - apply IH, Hl.
Qed.

Ltac untouched_leaf :=
  leaf_cases;
  repeat match goal with
         | H : (_ =? _) = true |- _ => apply Z.eqb_eq in H
         end;
  repeat rewrite store_other by congruence; reflexivity.

Section RegisterFrame.
Variable R : Registers.
Variable T : Types.
Variable flag : bool.

Lemma auxiliary_registers_apart x :
  x ∉ auxiliary_registers R ->
  x <> mme_instructionRamPointer R /\ x <> mme_startAddressRamPointer R
  /\ x <> loadConstantBuffer_offset R /\ x <> 0xD00.
Proof.
  unfold auxiliary_registers. rewrite !not_elem_of_cons. tauto.
Qed.

(** The per-method switch writes no register but the auxiliary ones. *)
Lemma MethodSwitch_registers m a s x :
  x ∉ auxiliary_registers R ->
  registers (state_of (MethodSwitch R T flag m a s)) x = registers s x.
Proof.
  intros Hx. apply auxiliary_registers_apart in Hx as (H1 & H2 & H3 & H4).
  unfold MethodSwitch, WriteSemaphoreResult, case_end, when. destruct flag.
  all: on_test (m =? mme_instructionRamLoad R); [untouched_leaf |].
  all: on_test (m =? mme_startAddressRamLoad R); [untouched_leaf |].
  all: on_test (m =? i2m_launchDma R); [untouched_leaf |].
  all: on_test (m =? i2m_loadInlineData R); [untouched_leaf |].
  all: on_test (m =? syncpointAction R); [untouched_leaf |].
  all: on_test (m =? clearSurface R); [untouched_leaf |].
  all: on_test (m =? begin_ R); [untouched_leaf |].
  all: on_test (m =? drawVertexArray_count R); [untouched_leaf |].
  all: on_test (m =? drawIndexBuffer_count R); [untouched_leaf |].
  all: on_test (m =? semaphore_info R); [untouched_leaf |].
  all: on_test (m =? firmwareCall R 4); [untouched_leaf |].
  all: on_test (array_case 16 (loadConstantBuffer_data R) m); [untouched_leaf |].
  all: on_test (array_case 5 (bindGroups_constantBuffer R) m); untouched_leaf.
Qed.

Lemma HandleMethod_registers m a s x :
  x <> m -> x ∉ auxiliary_registers R ->
  registers (state_of (HandleMethod R T flag m a s)) x = registers s x.
Proof.
  intros Hm Hx.
  pose proof (auxiliary_registers_apart x Hx) as (_ & _ & Hoff & _).
  destruct (Z.eqb_spec m (mme_shadowRamControl R)) as [-> | Hc].
  { rewrite HandleMethod_control. cbn. apply store_other. exact Hm. }
  rewrite HandleMethod_layers by exact Hc.
  pose proof (CoalesceLayer_registers R T m (effective_argument R T m a s)
                (is_redundant R T m a s) (commit R T m a s) x Hoff) as Hco.
  rewrite registers_commit, store_other in Hco by exact Hm.
  rewrite state_of_andThen.
  destruct (snd (CoalesceLayer R T m _ _ (commit R T m a s))) as [s1 | | |] eqn:E1;
    try exact Hco.
  apply state_of_Normal in E1. rewrite E1 in Hco.
  rewrite state_of_andThen.
  assert (Hch : state_of (when (negb (is_redundant R T m a s))
                            (ChangedLayer R T flag m (effective_argument R T m a s))
                            s1) = s1).
  { unfold when. destruct (negb _); [apply ChangedLayer_state | reflexivity]. }
  destruct (snd (when _ _ s1)) as [s2 | | |] eqn:E2;
    try (rewrite Hch; exact Hco).
  apply state_of_Normal in E2. rewrite Hch in E2. subst s2.
  rewrite MethodSwitch_registers by exact Hx. exact Hco.
Qed.

Lemma HandleMethod_shadow_frame m a s x :
  x <> m ->
  shadowRegisters (state_of (HandleMethod R T flag m a s)) x = shadowRegisters s x.
Proof.
  intros Hm.
  destruct (Z.eqb_spec m (mme_shadowRamControl R)) as [-> | Hc].
  { rewrite HandleMethod_control. cbn. apply store_other. exact Hm. }
  rewrite HandleMethod_shadowRegisters by exact Hc.
  rewrite shadowRegisters_commit.
  destruct (shadow_mode R T s); try reflexivity; apply store_other; exact Hm.
Qed.

End RegisterFrame.

(** X1.  What a macro reads back.  After [CallMethodFromMacro] has written
    method [m], [ReadMethodFromMacro] returns for [m] the word the write was
    carried out with (the incoming word, unless the shadow RAM replays), and
    for every other method that is not one of the four auxiliary registers
    (the two macro memory pointers, the constant-buffer offset, the scratch
    word 0xD00) what it returned before; the shadow copy of every other
    method is unchanged as well.  This holds whether or not the write ended
    in an exception. *)
Theorem macro_reads_back_its_write
    (R : Registers) (T : Types) (flag : bool) (m a : Z) (s : State) :
  well_formed R ->
  let after := engine_state (CallMethodFromMacro R T flag m a s) in
  ReadMethodFromMacro m after = effective_argument R T m a s
  /\ (shadow_mode R T s <> MethodReplay -> ReadMethodFromMacro m after = a)
  /\ forall x,
       x <> m ->
       shadowRegisters after x = shadowRegisters s x
       /\ (x ∉ auxiliary_registers R ->
           ReadMethodFromMacro x after = ReadMethodFromMacro x s).
Proof.
  intros Hwf. cbv zeta. unfold CallMethodFromMacro, ReadMethodFromMacro.
  rewrite engine_state_dispatched.
  split; [apply HandleMethod_commits, Hwf |].
  split.
  - intros Hmode. rewrite HandleMethod_commits by exact Hwf.
    apply effective_argument_plain. exact Hmode.
  - intros x Hx. split.
    + apply HandleMethod_shadow_frame. exact Hx.
    + intros Haux. apply HandleMethod_registers; assumption.
Qed.

Lemma macro_reads_back_its_write_witness :
  let after :=
    engine_state
      (CallMethodFromMacro example_registers example_types true 0x46 9
         example_state) in
  ReadMethodFromMacro 0x46 after = 9
  /\ ReadMethodFromMacro 0x674 after = ReadMethodFromMacro 0x674 example_state.
Proof.
  cbv zeta.
  destruct (macro_reads_back_its_write example_registers example_types true
              0x46 9 example_state example_well_formed) as (_ & Hown & Hother).
  split.
  - apply Hown. vm_compute. discriminate.
  - apply (Hother 0x674).
    + lia.
    + apply not_elem_of_forallb. reflexivity.
Defined.

(** ** The flush callback *)

(** X2.  From a state in which a pending draw and an active batch do not
    coexist (the state at rest is one), every sequence of writes, stopped by
    an exception or not, reaches a state in which they do not coexist
    either; so the flush callback [FlushEngineState] has at most one
    downstream call to make. *)
Theorem flush_callback_makes_at_most_one_call
    (R : Registers) (T : Types) (flag : bool) (ws : list (Z * Z)) (s : State) :
  exclusive s ->
  let s' := state_of (HandleMethods R T flag ws s) in
  exclusive s'
  /\ (length (calls_of (FlushEngineState s')) <= 1)%nat.
Proof.
  intros Hex. cbv zeta.
  pose proof (HandleMethods_exclusive R T flag ws s Hex) as Hex'.
  split; [exact Hex' |].
  set (s' := state_of (HandleMethods R T flag ws s)) in *.
  unfold exclusive in Hex'.
  unfold FlushEngineState, FlushDeferredDraw, andThen, calls_of.
  destruct (pending (deferredDraw s')) eqn:Hp; cbn [fst snd].
  - cbn [andb] in Hex'.
    cbn [batchLoadConstantBuffer set_deferredDraw]. rewrite Hex'.
    cbn. lia.
  - cbn [continue fst snd].
    destruct (Batch_Active (batchLoadConstantBuffer s')); cbn; lia.
Qed.

Lemma flush_callback_makes_at_most_one_call_witness :
  let s' :=
    state_of (HandleMethods example_registers example_types true
                [(0x35E, 3); (0x8E4, 5); (0x8E5, 6)] example_state) in
  exclusive s'
  /\ (length (calls_of (FlushEngineState s')) <= 1)%nat.
Proof.
  apply (flush_callback_makes_at_most_one_call example_registers example_types
           true [(0x35E, 3); (0x8E4, 5); (0x8E5, 6)] example_state).
  reflexivity.
Defined.

(** X3.  [FlushEngineState] never throws, submits the pending draw (if
    any) and then the active batch (if any) and nothing else, writes no
    register, and leaves the engine with no draw pending and no batch
    active; flushing again right away makes no call and changes nothing. *)
Theorem FlushEngineState_settles_the_engine (s : State) :
  let r := FlushEngineState s in
  threw r = false
  /\ calls_of r
     = (if pending (deferredDraw s) then [Draw_of (deferredDraw s)] else [])
       ++ (if Batch_Active (batchLoadConstantBuffer s)
           then [LoadConstantBuffer (buffer (batchLoadConstantBuffer s))
                   (fst (Batch_Invalidate (batchLoadConstantBuffer s)))]
           else [])
  /\ pending (deferredDraw (state_of r)) = false
  /\ Batch_Active (batchLoadConstantBuffer (state_of r)) = false
  /\ registers (state_of r) = registers s
  /\ shadowRegisters (state_of r) = shadowRegisters s
  /\ FlushEngineState (state_of r) = continue (state_of r).
Proof.
  cbv zeta. unfold FlushEngineState, FlushDeferredDraw, andThen, Draw_of.
  destruct (pending (deferredDraw s)) eqn:Hp; cbn [fst snd continue].
  - cbn [batchLoadConstantBuffer set_deferredDraw].
    destruct (Batch_Active (batchLoadConstantBuffer s)) eqn:Hb; cbn;
      rewrite ?Hb; repeat split; reflexivity.
  - destruct (Batch_Active (batchLoadConstantBuffer s)) eqn:Hb; cbn;
      rewrite ?Hp; cbn; rewrite ?Hb; repeat split; reflexivity.
Qed.

(** ** Tracking and replaying *)

(** X4.  What the shadow RAM tracked is what it replays.  A word [a]
    written to a method while the shadow RAM is in one of the two track
    modes is recorded; once the control register has been switched to replay
    mode, a write of any word [b] to that method is carried out with [a]:
    the register and the shadow copy hold [a] afterwards, and since the
    register held [a] already the write is redundant and makes no
    change-triggered call. *)
Theorem tracked_word_is_replayed
    (R : Registers) (T : Types) (flag : bool) (m a b w : Z) (s : State) :
  well_formed R ->
  m <> mme_shadowRamControl R ->
  shadow_mode R T s = MethodTrack \/ shadow_mode R T s = MethodTrackWithFilter ->
  shadowRamControl_of T w = MethodReplay ->
  let s1 := state_of (HandleMethod R T flag m a s) in
  let s2 := state_of (HandleMethod R T flag (mme_shadowRamControl R) w s1) in
  let r := HandleMethod R T flag m b s2 in
  effective_argument R T m b s2 = a
  /\ registers (state_of r) m = a
  /\ shadowRegisters (state_of r) m = a
  /\ List.filter is_change_triggered (calls_of r) = [].
Proof.
  intros Hwf Hm Htrack Hreplay. cbv zeta.
  set (s1 := state_of (HandleMethod R T flag m a s)).
  assert (Hplain : shadow_mode R T s <> MethodReplay)
    by (destruct Htrack as [-> | ->]; discriminate).
  assert (Hreg1 : registers s1 m = a).
  { unfold s1. rewrite HandleMethod_commits by exact Hwf.
    apply effective_argument_plain, Hplain. }
  assert (Hsh1 : shadowRegisters s1 m = a).
  { unfold s1. rewrite HandleMethod_shadowRegisters by exact Hm.
    rewrite shadowRegisters_commit.
    destruct Htrack as [-> | ->]; apply store_same. }
  rewrite HandleMethod_control.
  set (s2 := state_of (leave _)).
  assert (Hreg2 : registers s2 m = a).
  { unfold s2. cbn. rewrite store_other by exact Hm. exact Hreg1. }
  assert (Hsh2 : shadowRegisters s2 m = a).
  { unfold s2. cbn. rewrite store_other by exact Hm. exact Hsh1. }
  assert (Hmode2 : shadow_mode R T s2 = MethodReplay).
  { unfold s2, shadow_mode. cbn. rewrite store_same. exact Hreplay. }
  assert (Heff : effective_argument R T m b s2 = a).
  { unfold effective_argument. apply Z.eqb_neq in Hm. rewrite Hm, Hmode2.
    exact Hsh2. }
  split; [exact Heff |].
  split; [rewrite HandleMethod_commits by exact Hwf; exact Heff |].
  split.
  - rewrite HandleMethod_shadowRegisters by exact Hm.
    rewrite shadowRegisters_commit, Hmode2. exact Hsh2.
  - apply HandleMethod_redundant_calls. unfold is_redundant.
    rewrite Heff, Hreg2. apply Z.eqb_refl.
Qed.

Lemma tracked_word_is_replayed_witness :
  let s1 :=
    state_of (HandleMethod example_registers example_types true 0xDD 5
                example_track_state) in
  let s2 := state_of (HandleMethod example_registers example_types true 0x49 3 s1) in
  let r := HandleMethod example_registers example_types true 0xDD 9 s2 in
  effective_argument example_registers example_types 0xDD 9 s2 = 5
  /\ registers (state_of r) 0xDD = 5
  /\ shadowRegisters (state_of r) 0xDD = 5
  /\ List.filter is_change_triggered (calls_of r) = [].
Proof.
  apply (tracked_word_is_replayed example_registers example_types true
           0xDD 5 9 3 example_track_state example_well_formed).
  - vm_compute. discriminate.
  - left. reflexivity.
  - reflexivity.
Defined.

(** ** Methods without a case *)

Section Unhandled.
Variable R : Registers.
Variable T : Types.
Variable flag : bool.
Hypothesis Hwf : well_formed R.

Lemma unlabelled_method m :
  m ∉ scalar_labels R ++ array_labels R ->
  Forall (fun l => (m =? l) = false) (scalar_labels R)
  /\ array_case 16 (loadConstantBuffer_data R) m = None
  /\ array_case 5 (bindGroups_constantBuffer R) m = None
  /\ array_case 16 (vertexStreams_format R) m = None
  /\ array_case 16 (vertexStreams_frequency R) m = None
  /\ array_case 16 (vertexStreamInstance R) m = None
  /\ array_case 16 (vertexAttributes R) m = None.
Proof.
  intros Hm. apply not_elem_of_app in Hm as [Hs Ha].
  unfold array_labels in Ha.
  repeat (apply not_elem_of_app in Ha as [? Ha]).
  split.
  - apply Forall_forall. intros l Hl. apply Z.eqb_neq. intros ->.
    apply Hs, Hl.
  - repeat split; apply array_case_None; assumption.
Qed.

Lemma MethodSwitch_unlabelled m a s :
  m ∉ scalar_labels R ++ array_labels R ->
  MethodSwitch R T flag m a s = continue s.
Proof.
  intros Hm.
  pose proof (unlabelled_method m Hm) as (Hs & Hd & Hb & _).
  unfold scalar_labels in Hs.
  repeat match goal with
         | H : Forall _ (_ :: _) |- _ => apply Forall_cons in H as [? H]
         end.
  unfold MethodSwitch.
  rewrite (drawVertexArray_count_first R Hwf), (drawIndexBuffer_count_first R Hwf).
  repeat match goal with
         | H : (m =? _) = false |- _ => rewrite H; clear H
         end.
  rewrite Hd, Hb. reflexivity.
Qed.

End Unhandled.

(** X5.  A write to a method that none of the dispatcher's switches names
    is stored in the register file, submits the active batch or the pending
    draw (whichever there is), marks the method dirty if the word differs
    from the one stored, and does nothing else: no direct-state update, no
    engine action, no exception.  The vertex attribute registers 16 to 31
    are such methods, the switch having cases for the first 16 only. *)
Theorem unhandled_method_is_stored_and_marked
    (R : Registers) (T : Types) (flag : bool) (m a : Z) (s : State) :
  well_formed R ->
  m ∉ scalar_labels R ++ array_labels R ->
  HandleMethod R T flag m a s
  = (calls_of (settle (commit R T m a s))
     ++ (if is_redundant R T m a s then [] else [MarkDirty m]),
     Normal (settled (commit R T m a s)))
  /\ List.filter is_SetAttribute (calls_of (HandleMethod R T flag m a s)) = [].
Proof.
  intros Hwf Hm.
  pose proof (unlabelled_method R m Hm) as (Hs & Hd & Hb & H1 & H2 & H3 & H4).
  assert (Hneq : forall l, l ∈ scalar_labels R -> m <> l).
  { intros l Hl ->. apply not_elem_of_app in Hm as [Hm _]. apply Hm, Hl. }
  assert (Hdraw : m ∉ draw_methods R).
  { unfold draw_methods. repeat rewrite not_elem_of_cons.
    repeat split; try apply not_elem_of_nil; apply Hneq; scalar_in. }
  assert (Heq : HandleMethod R T flag m a s
                = (calls_of (settle (commit R T m a s))
                   ++ (if is_redundant R T m a s then [] else [MarkDirty m]),
                   Normal (settled (commit R T m a s)))).
  { rewrite HandleMethod_layers by (apply Hneq; scalar_in).
    rewrite CoalesceLayer_passes by assumption.
    unfold andThen at 1. rewrite settle_Normal.
    unfold when. destruct (is_redundant R T m a s); cbn [negb].
    - unfold andThen. cbn [continue fst snd].
      rewrite MethodSwitch_unlabelled by assumption.
      reflexivity.
    - rewrite ChangedLayer_plain by (try assumption; apply Hneq; scalar_in).
      unfold andThen. cbn [fst snd].
      rewrite MethodSwitch_unlabelled by assumption.
      unfold calls_of. cbn [continue fst snd]. rewrite app_nil_r. reflexivity. }
  split; [exact Heq |].
  rewrite Heq. unfold calls_of. cbn [fst].
  rewrite List.filter_app.
  assert (Hsettle : List.filter is_SetAttribute (fst (settle (commit R T m a s))) = []).
  { unfold settle, FlushDeferredDraw.
    destruct (Batch_Active _); [reflexivity |].
    destruct (pending _); reflexivity. }
  rewrite Hsettle. destruct (is_redundant R T m a s); reflexivity.
Qed.

Lemma unhandled_method_is_stored_and_marked_witness :
  vertexAttributes example_registers 20 = 0x46C
  /\ HandleMethod example_registers example_types true 0x46C 5 example_state
     = ([MarkDirty 0x46C],
        Normal (settled (commit example_registers example_types 0x46C 5
                           example_state))).
Proof.
  split; [reflexivity |].
  destruct (unhandled_method_is_stored_and_marked example_registers
              example_types true 0x46C 5 example_state example_well_formed)
    as [Heq _].
  - apply not_elem_of_forallb. reflexivity.
  - exact Heq.
Defined.

(** ** Engine actions *)

Section EngineActions.
Variable R : Registers.
Variable T : Types.
Variable flag : bool.
Hypothesis Hwf : well_formed R.

Lemma MethodSwitch_loadInlineData a s :
  MethodSwitch R T flag (i2m_loadInlineData R) a s
  = andThen (emit (LoadInlineData a) s) (case_end flag).
Proof.
  unfold MethodSwitch.
  assert (H1 : i2m_loadInlineData R <> mme_instructionRamLoad R) by scalar_neq R Hwf.
  assert (H2 : i2m_loadInlineData R <> mme_startAddressRamLoad R) by scalar_neq R Hwf.
  assert (H3 : i2m_loadInlineData R <> i2m_launchDma R) by scalar_neq R Hwf.
  apply Z.eqb_neq in H1, H2, H3. rewrite H1, H2, H3, Z.eqb_refl. reflexivity.
Qed.

Lemma MethodSwitch_syncpointAction a s :
  MethodSwitch R T flag (syncpointAction R) a s
  = andThen (emit (LogDebug "Increment syncpoint: {}") s) (fun s =>
    andThen (emit Submit s) (fun s =>
    if (0 <=? SyncpointAction_id T a) && (SyncpointAction_id T a <? SyncpointCount T)
    then andThen (emit (SyncpointIncrement (SyncpointAction_id T a)) s) (case_end flag)
    else raise "std::out_of_range" s)).
Proof.
  unfold MethodSwitch.
  assert (H1 : syncpointAction R <> mme_instructionRamLoad R) by scalar_neq R Hwf.
  assert (H2 : syncpointAction R <> mme_startAddressRamLoad R) by scalar_neq R Hwf.
  assert (H3 : syncpointAction R <> i2m_launchDma R) by scalar_neq R Hwf.
  assert (H4 : syncpointAction R <> i2m_loadInlineData R) by scalar_neq R Hwf.
  apply Z.eqb_neq in H1, H2, H3, H4.
  rewrite H1, H2, H3, H4, Z.eqb_refl. reflexivity.
Qed.

Lemma MethodSwitch_semaphore_info a s :
  MethodSwitch R T flag (semaphore_info R) a s
  = andThen
      (when (SemaphoreInfo_reductionEnable T a)
         (emit (Warn "Semaphore reduction is unimplemented!")) s) (fun s =>
    andThen
      match SemaphoreInfo_op T a with
      | Release =>
          andThen (emit Submit s)
            (WriteSemaphoreResult R T (registers s (semaphore_payload R)))
      | Counter =>
          match SemaphoreInfo_counterType T a with
          | Zero => WriteSemaphoreResult R T (registers s (semaphore_payload R)) s
          | CounterType_other => continue s
          end
      | SemaphoreOp_other =>
          emit (Warn "Unsupported semaphore operation: 0x{:X}") s
      end
      (case_end flag)).
Proof.
  unfold MethodSwitch.
  rewrite (drawVertexArray_count_first R Hwf), (drawIndexBuffer_count_first R Hwf).
  assert (H1 : semaphore_info R <> mme_instructionRamLoad R) by scalar_neq R Hwf.
  assert (H2 : semaphore_info R <> mme_startAddressRamLoad R) by scalar_neq R Hwf.
  assert (H3 : semaphore_info R <> i2m_launchDma R) by scalar_neq R Hwf.
  assert (H4 : semaphore_info R <> i2m_loadInlineData R) by scalar_neq R Hwf.
  assert (H5 : semaphore_info R <> syncpointAction R) by scalar_neq R Hwf.
  assert (H6 : semaphore_info R <> clearSurface R) by scalar_neq R Hwf.
  assert (H7 : semaphore_info R <> begin_ R) by scalar_neq R Hwf.
  assert (H8 : semaphore_info R <> drawVertexArray R) by scalar_neq R Hwf.
  assert (H9 : semaphore_info R <> drawIndexBuffer R) by scalar_neq R Hwf.
  apply Z.eqb_neq in H1, H2, H3, H4, H5, H6, H7, H8, H9.
  rewrite H1, H2, H3, H4, H5, H6, H7, H8, H9, Z.eqb_refl. reflexivity.
Qed.

(** Settling submits a batch or a draw and makes no other kind of call. *)
Lemma settle_calls (f : Event -> bool) s :
  (forall d o, f (LoadConstantBuffer d o) = false) ->
  (forall t i c fi n bv bi, f (Draw t i c fi n bv bi) = false) ->
  List.filter f (calls_of (settle s)) = [].
Proof.
  intros Hl Hd. unfold settle, FlushDeferredDraw.
  destruct (Batch_Active _); [cbn; rewrite Hl; reflexivity |].
  destruct (pending _); [cbn; rewrite Hd; reflexivity | reflexivity].
Qed.

Lemma calls_of_case_end s : calls_of (case_end flag s) = [].
Proof. unfold case_end. destruct flag; reflexivity. Qed.

End EngineActions.

(** X6.  A non-incrementing batch to the inline-data method bypasses the
    dispatcher: the whole span is handed to the inline-to-memory engine in
    one call and the engine state is left as it was (no register is written,
    nothing is marked dirty, a pending draw or an active batch is not
    submitted).  A single [CallMethod] to the same method goes through the
    dispatcher: it stores the word, submits what is under way, marks the
    method dirty if the word changed, and hands over that one word. *)
Theorem inline_data_batch_bypasses_the_dispatcher
    (R : Registers) (T : Types) (flag : bool) (arguments : list Z) (a : Z)
    (s : State) :
  well_formed R ->
  let m := i2m_loadInlineData R in
  let batch := CallMethodBatchNonInc R T flag m arguments s in
  let single := CallMethod R T flag m a s in
  (engine_calls batch = [LoadInlineDataSpan arguments]
   /\ snd batch = Return s)
  /\ (engine_calls single
      = LogVerbose "Called method in Maxwell 3D: 0x{:X} args: 0x{:X}"
        :: map Dispatched
             (calls_of (settle (commit R T m a s))
              ++ (if is_redundant R T m a s then [] else [MarkDirty m])
              ++ [LoadInlineData (effective_argument R T m a s)])
      /\ engine_threw single = false
      /\ registers (engine_state single) m = effective_argument R T m a s).
Proof.
  intros Hwf. cbv zeta. split.
  - unfold CallMethodBatchNonInc. rewrite Z.eqb_refl. split; reflexivity.
  - unfold CallMethod, engine_calls, engine_threw, engine_state.
    cbn [fst snd].
    fold (engine_threw (dispatched (HandleMethod R T flag (i2m_loadInlineData R) a s))).
    fold (engine_state (dispatched (HandleMethod R T flag (i2m_loadInlineData R) a s))).
    rewrite engine_threw_dispatched, engine_state_dispatched.
    split; [| split].
    + unfold dispatched. cbn [fst]. f_equal. f_equal.
      rewrite (HandleMethod_plain R T flag Hwf)
        by (repeat first [apply list_elem_of_here | apply list_elem_of_further]).
      cbv zeta. cbn [fst]. rewrite MethodSwitch_loadInlineData by exact Hwf.
      unfold andThen. cbn [emit fst snd calls_of].
      fold (calls_of (case_end flag (settled (commit R T (i2m_loadInlineData R) a s)))).
      rewrite calls_of_case_end. reflexivity.
    + rewrite (HandleMethod_plain R T flag Hwf)
        by (repeat first [apply list_elem_of_here | apply list_elem_of_further]).
      cbv zeta. unfold threw. cbn [snd].
      rewrite MethodSwitch_loadInlineData by exact Hwf.
      unfold andThen, case_end. cbn [emit fst snd]. destruct flag; reflexivity.
    + apply HandleMethod_commits, Hwf.
Qed.

Lemma inline_data_batch_bypasses_the_dispatcher_witness :
  let batch :=
    CallMethodBatchNonInc example_registers example_types true 0x6D [1; 2; 3]
      example_pending_state in
  let single :=
    CallMethod example_registers example_types true 0x6D 1 example_pending_state in
  (engine_calls batch = [LoadInlineDataSpan [1; 2; 3]]
   /\ snd batch = Return example_pending_state)
  /\ engine_calls single
     = [LogVerbose "Called method in Maxwell 3D: 0x{:X} args: 0x{:X}";
        Dispatched (Draw 4 false 3 0 1 0 0);
        Dispatched (MarkDirty 0x6D);
        Dispatched (LoadInlineData 1)].
Proof.
  cbv zeta.
  destruct (inline_data_batch_bypasses_the_dispatcher example_registers
              example_types true [1; 2; 3] 1 example_pending_state
              example_well_formed) as (Hbatch & Hsingle & _).
  split; [exact Hbatch |].
  etransitivity; [exact Hsingle | reflexivity].
Defined.

(** X7.  A syncpoint action submits the executor's work before it touches
    the syncpoint: the calls end with the debug line, the submit and, only
    for an id inside the syncpoint table, the increment of that one
    syncpoint.  For an id outside the table the bounds-checked access throws
    after the submit has been made, and no syncpoint is incremented. *)
Theorem syncpoint_action_submits_before_incrementing
    (R : Registers) (T : Types) (flag : bool) (a : Z) (s : State) :
  well_formed R ->
  let m := syncpointAction R in
  let id := SyncpointAction_id T (effective_argument R T m a s) in
  let valid := (0 <=? id) && (id <? SyncpointCount T) in
  let r := HandleMethod R T flag m a s in
  calls_of r
  = calls_of (settle (commit R T m a s))
    ++ (if is_redundant R T m a s then [] else [MarkDirty m])
    ++ [LogDebug "Increment syncpoint: {}"; Submit]
    ++ (if valid then [SyncpointIncrement id] else [])
  /\ threw r = negb valid.
Proof.
  intros Hwf. cbv zeta.
  rewrite (HandleMethod_plain R T flag Hwf)
    by (repeat first [apply list_elem_of_here | apply list_elem_of_further]).
  cbv zeta. rewrite MethodSwitch_syncpointAction by exact Hwf.
  unfold calls_of, threw, andThen, case_end, raise. cbn [emit fst snd].
  destruct ((0 <=? _) && (_ <? _)); destruct flag; cbn; split; reflexivity.
Qed.

Lemma syncpoint_action_submits_before_incrementing_witness :
  calls_of (HandleMethod example_registers example_types true 0xB2 5 example_state)
  = [MarkDirty 0xB2; LogDebug "Increment syncpoint: {}"; Submit; SyncpointIncrement 5]
  /\ calls_of (HandleMethod example_registers example_types true 0xB2 200
                 example_state)
     = [MarkDirty 0xB2; LogDebug "Increment syncpoint: {}"; Submit]
  /\ threw (HandleMethod example_registers example_types true 0xB2 200
              example_state) = true.
Proof.
  destruct (syncpoint_action_submits_before_incrementing example_registers
              example_types true 5 example_state example_well_formed)
    as [Hin _].
  destruct (syncpoint_action_submits_before_incrementing example_registers
              example_types true 200 example_state example_well_formed)
    as [Hout Hthrew].
  split; [etransitivity; [exact Hin | reflexivity] |].
  split; etransitivity; first [exact Hout | exact Hthrew | reflexivity].
Defined.

(** X8.  A semaphore report.  A write to the semaphore info method never
    throws.  It submits the executor's work exactly when the operation is a
    release, and it writes guest memory exactly when the operation is a
    release or a counter of type zero: with the one-word structure the low
    32 bits of the payload at the semaphore address, with the four-word
    structure the timestamp at address + 8 first and then the payload at the
    address.  Operation, counter type and structure size are those of the
    word the write is carried out with. *)
Theorem semaphore_report_writes
    (R : Registers) (T : Types) (flag : bool) (a : Z) (s : State) :
  well_formed R ->
  let m := semaphore_info R in
  let info := effective_argument R T m a s in
  let raw := store (registers s) m info in
  let address := semaphore_address T raw in
  let payload := raw (semaphore_payload R) in
  let report :=
    match SemaphoreInfo_structureSize T info with
    | OneWord => [GmmuWrite32 address (u32 payload)]
    | FourWords =>
        [GmmuWriteTimestamp (u64 (address + 8)); GmmuWrite64 address payload]
    end in
  let r := HandleMethod R T flag m a s in
  threw r = false
  /\ List.filter is_Submit (calls_of r)
     = match SemaphoreInfo_op T info with
       | Release => [Submit]
       | _ => []
       end
  /\ List.filter is_GmmuWrite (calls_of r)
     = match SemaphoreInfo_op T info, SemaphoreInfo_counterType T info with
       | Release, _ | Counter, Zero => report
       | _, _ => []
       end.
Proof.
  intros Hwf. cbv zeta.
  rewrite (HandleMethod_plain R T flag Hwf)
    by (repeat first [apply list_elem_of_here | apply list_elem_of_further]).
  cbv zeta. rewrite MethodSwitch_semaphore_info by exact Hwf.
  pose proof (settled_commit_keeps R T (semaphore_info R) a s) as (Hregs & _).
  set (s0 := settled (commit R T (semaphore_info R) a s)) in *.
  set (info := effective_argument R T (semaphore_info R) a s) in *.
  unfold threw, calls_of. cbn [fst snd].
  rewrite !List.filter_app.
  rewrite (settle_calls is_Submit), (settle_calls is_GmmuWrite) by reflexivity.
  assert (Hdirty : forall f : Event -> bool,
            f (MarkDirty (semaphore_info R)) = false ->
            List.filter f (if is_redundant R T (semaphore_info R) a s
                           then [] else [MarkDirty (semaphore_info R)]) = []).
  { intros f Hf. destruct (is_redundant _ _ _ _ _); cbn; rewrite ?Hf; reflexivity. }
  rewrite !Hdirty by reflexivity. cbn [app].
  unfold WriteSemaphoreResult, when, andThen, case_end.
  destruct (SemaphoreInfo_reductionEnable T info);
    cbn [emit continue fst snd];
    rewrite !Hregs, store_same.
  all: destruct
    (SemaphoreInfo_op T info),
    (SemaphoreInfo_counterType T info),
    (SemaphoreInfo_structureSize T info), flag;
    cbn; repeat split; reflexivity.
Qed.

Lemma semaphore_report_writes_witness :
  let r :=
    HandleMethod example_registers example_types true 0x6C3 0
      (write_register 0x6C2 77 (write_register 0x6C1 0x1000 example_state)) in
  threw r = false
  /\ List.filter is_Submit (calls_of r) = [Submit]
  /\ List.filter is_GmmuWrite (calls_of r)
     = [GmmuWriteTimestamp 0x1008; GmmuWrite64 0x1000 77].
Proof.
  cbv zeta.
  destruct (semaphore_report_writes example_registers example_types true 0
              (write_register 0x6C2 77 (write_register 0x6C1 0x1000 example_state))
              example_well_formed) as (Hok & Hsubmit & Hwrites).
  split; [exact Hok |].
  split; [exact Hsubmit | exact Hwrites].
Defined.

(** ** Uploading a constant buffer *)

Section Upload.
Variable R : Registers.
Variable T : Types.
Variable flag : bool.
Hypothesis Hwf : well_formed R.

Lemma data_write_never_throws i w s :
  (i < 16)%nat ->
  threw (HandleMethod R T flag (loadConstantBuffer_data R i) w s) = false.
Proof.
  intros Hi.
  destruct (Batch_Active (batchLoadConstantBuffer s)) eqn:Hb.
  - apply (HandleMethod_next_data R T flag Hwf i w s Hi Hb).
  - apply (HandleMethod_first_data R T flag Hwf i w s Hi Hb).
Qed.

Lemma u32_add_l x y : u32 (u32 x + y) = u32 (x + y).
Proof. unfold u32. apply Zplus_mod_idemp_l. Qed.

(** Every data write advances the offset register by four bytes. *)
Lemma data_writes_advance_offset i w ws : forall s,
  (i < 16)%nat ->
  registers
    (state_of (HandleMethods R T flag
                 (map (fun w => (loadConstantBuffer_data R i, w)) (w :: ws)) s))
    (loadConstantBuffer_offset R)
  = u32 (registers s (loadConstantBuffer_offset R)
         + 4 * Z.of_nat (length (w :: ws))).
Proof.
  revert w. induction ws as [| w' ws IH]; intros w s Hi.
  - cbn [map]. rewrite (proj2 (HandleMethods_last R T flag _ _ _)).
    rewrite (data_write_advances_offset R T flag Hwf) by exact Hi.
    reflexivity.
  - cbn [map]. rewrite HandleMethods_step by (apply data_write_never_throws, Hi).
    unfold state_of at 1. cbn [snd].
    fold (state_of
            (HandleMethods R T flag
               ((loadConstantBuffer_data R i, w')
                :: map (fun w => (loadConstantBuffer_data R i, w)) ws)
               (state_of (HandleMethod R T flag (loadConstantBuffer_data R i) w s)))).
    change ((loadConstantBuffer_data R i, w')
            :: map (fun w => (loadConstantBuffer_data R i, w)) ws)
      with (map (fun w => (loadConstantBuffer_data R i, w)) (w' :: ws)).
    rewrite IH by exact Hi.
    rewrite (data_write_advances_offset R T flag Hwf) by exact Hi.
    rewrite u32_add_l. f_equal. cbn [length]. lia.
Qed.

End Upload.

(** X9.  Uploading a constant buffer.  A non-incrementing batch of N >= 1
    words to a constant-buffer data method, arriving while the batch record
    is cleared and the shadow RAM does not replay, is carried out word by word
    by the dispatcher without an exception and without a
    [LoadConstantBuffer] call: it leaves one active batch that starts at the
    offset register's value before the batch and holds the N words in
    order, and the offset register advanced by 4 N (modulo 2^32).  The
    flush callback then submits exactly that batch and nothing else. *)
Theorem constant_buffer_upload_builds_one_batch
    (R : Registers) (T : Types) (flag : bool) (i : nat) (a0 : Z) (rest : list Z)
    (s : State) :
  well_formed R ->
  (i < 16)%nat ->
  shadow_mode R T s <> MethodReplay ->
  batchLoadConstantBuffer s = cleared_batch ->
  let arguments := a0 :: rest in
  let m := loadConstantBuffer_data R i in
  let run := HandleMethods R T flag (map (fun a => (m, a)) arguments) s in
  let offset := registers s (loadConstantBuffer_offset R) in
  CallMethodBatchNonInc R T flag m arguments s = dispatched run
  /\ threw run = false
  /\ List.filter is_LoadConstantBuffer (calls_of run) = []
  /\ batchLoadConstantBuffer (state_of run)
     = {| startOffset := Some offset; buffer := arguments |}
  /\ registers (state_of run) (loadConstantBuffer_offset R)
     = u32 (offset + 4 * Z.of_nat (length arguments))
  /\ calls_of (FlushEngineState (state_of run))
     = [LoadConstantBuffer arguments offset].
Proof.
  intros Hwf Hi Hmode Hclear. cbv zeta.
  assert (Hscalar : forall y, y ∈ scalar_labels R -> loadConstantBuffer_data R i <> y)
    by (intros y Hy; apply (data_label_neq R Hwf i y Hi Hy)).
  assert (Hinactive : Batch_Active (batchLoadConstantBuffer s) = false)
    by (rewrite Hclear; reflexivity).
  pose proof (HandleMethod_first_data R T flag Hwf i a0 s Hi Hinactive)
    as (Hok1 & Hcalls1 & Hbatch1).
  cbv zeta in Hok1, Hcalls1, Hbatch1.
  rewrite (effective_argument_plain R T _ a0 s Hmode), Hclear in Hbatch1.
  cbn [buffer cleared_batch app] in Hbatch1.
  set (s1 := state_of (HandleMethod R T flag (loadConstantBuffer_data R i) a0 s)) in *.
  assert (Hmode1 : shadow_mode R T s1 <> MethodReplay).
  { unfold s1. rewrite HandleMethod_shadow_mode by (apply Hscalar; scalar_in).
    exact Hmode. }
  assert (Hactive1 : Batch_Active (batchLoadConstantBuffer s1) = true)
    by (rewrite Hbatch1; reflexivity).
  pose proof (datas_coalesce R T flag Hwf (map (pair i) rest) s1 Hactive1 Hmode1)
    as Hrest.
  rewrite map_map in Hrest. cbn [fst snd] in Hrest.
  destruct Hrest as (Hok2 & Hcalls2 & Hbatch2).
  { apply Forall_forall. intros [j w] Hin. apply list_elem_of_In, in_map_iff in Hin.
    destruct Hin as (w' & [= <- <-] & _). exact Hi. }
  rewrite map_map, Hbatch1 in Hbatch2. cbn [fst snd startOffset buffer app] in Hbatch2.
  rewrite map_id in Hbatch2.
  assert (Hrun : HandleMethods R T flag
                   (map (fun a => (loadConstantBuffer_data R i, a)) (a0 :: rest)) s
                 = (calls_of (HandleMethod R T flag (loadConstantBuffer_data R i) a0 s),
                    snd (HandleMethods R T flag
                           (map (fun a => (loadConstantBuffer_data R i, a)) rest) s1))).
  { cbn [map]. rewrite HandleMethods_step by exact Hok1. fold s1.
    rewrite Hcalls2, app_nil_r. reflexivity. }
  split.
  { unfold CallMethodBatchNonInc.
    assert (Hne : loadConstantBuffer_data R i <> i2m_loadInlineData R)
      by (apply Hscalar; scalar_in).
    apply Z.eqb_neq in Hne. rewrite Hne. reflexivity. }
  split; [rewrite Hrun; exact Hok2 |].
  split; [rewrite Hrun; exact Hcalls1 |].
  assert (Hstate : batchLoadConstantBuffer
                     (state_of (HandleMethods R T flag
                        (map (fun a => (loadConstantBuffer_data R i, a)) (a0 :: rest)) s))
                   = {| startOffset := Some (registers s (loadConstantBuffer_offset R));
                        buffer := a0 :: rest |}).
  { rewrite Hrun. unfold state_of in *. cbn [snd]. exact Hbatch2. }
  split; [exact Hstate |].
  split; [apply (data_writes_advance_offset R T flag Hwf), Hi |].
  pose proof (HandleMethods_exclusive R T flag
                (map (fun a => (loadConstantBuffer_data R i, a)) (a0 :: rest)) s)
    as Hex.
  unfold exclusive in Hex. rewrite Hinactive, andb_false_r in Hex.
  specialize (Hex eq_refl). rewrite Hstate in Hex. cbn [Batch_Active startOffset] in Hex.
  rewrite andb_true_r in Hex.
  unfold FlushEngineState, FlushDeferredDraw. rewrite Hex.
  unfold andThen, calls_of. cbn [continue fst snd]. rewrite Hstate. reflexivity.
Qed.

Lemma constant_buffer_upload_builds_one_batch_witness :
  let run :=
    HandleMethods example_registers example_types true
      (map (fun a => (0x8E6, a)) [7; 8; 9]) example_state in
  batchLoadConstantBuffer (state_of run)
  = {| startOffset := Some 0; buffer := [7; 8; 9] |}
  /\ registers (state_of run) 0x8E3 = 12
  /\ calls_of (FlushEngineState (state_of run)) = [LoadConstantBuffer [7; 8; 9] 0].
Proof.
  cbv zeta.
  destruct (constant_buffer_upload_builds_one_batch example_registers
              example_types true 2 7 [8; 9] example_state example_well_formed)
    as (_ & _ & _ & Hbatch & Hoffset & Hflush).
  - lia.
  - vm_compute. discriminate.
  - reflexivity.
  - split; [exact Hbatch |]. split; [exact Hoffset | exact Hflush].
Defined.

(** ** The rasterization translator *)

Lemma SetPolygonMode_keeps_cullMode mode p :
  cullMode (completion_state (SetPolygonMode mode p)) = cullMode p.
Proof. destruct mode; reflexivity. Qed.

(** X10.  [RasterizationState::Flush] cannot complete.  Its call of
    [SetPolygonMode] throws for every front polygon mode (no case of that
    switch leaves it), so for every register content the flush ends in the
    "Invalid polygon mode" exception right after the rasterizer-discard flag
    has been assigned: no warning is logged, the cull mode is not set, and
    the flip-Y flag, the front-face winding, the depth-bias enable and the
    provoking vertex keep their old values. *)
Theorem RasterizationState_Flush_always_throws
    (regs : RasterizationState.EngineRegisters)
    (p : PackedPipelineState.t) (q : RasterizationState.Packed) :
  exists p',
    RasterizationState_Flush regs (p, q)
    = ([], Throw (p', RasterizationState.set_rasterizerDiscardEnable
                        (RasterizationState.rasterEnable regs =? 0) q)
             "Invalid polygon mode: 0x{:X}")
    /\ cullMode p' = cullMode p
    /\ depthFunc p' = depthFunc p
    /\ stencilFront p' = stencilFront p
    /\ stencilBack p' = stencilBack p.
Proof.
  destruct (SetPolygonMode_throws (RasterizationState.frontPolygonMode regs) p)
    as [p' Hthrow].
  exists p'. unfold RasterizationState_Flush. rewrite Hthrow.
  split; [reflexivity |].
  assert (Hp' : p' = completion_state
                       (SetPolygonMode (RasterizationState.frontPolygonMode regs) p))
    by (rewrite Hthrow; reflexivity).
  rewrite Hp'.
  destruct (RasterizationState.frontPolygonMode regs); repeat split; reflexivity.
Qed.

(** ** Comparison functions and the depth-stencil translator *)

Section CompareFunc.
Variables D3DAlways OglAlways : Z.

(** X11.  [ConvertCompareFunc] with the two bases its arithmetic is written
    for (the D3D encoding starting at 1, the OpenGL encoding at 0x200):
    the k-th function of either encoding converts to the compare operation
    k, so the two encodings of one function convert alike; every other
    value is refused with an exception. *)
Theorem ConvertCompareFunc_indexes_both_encodings (func : Z) :
  1 <= D3DAlways < 0x200 ->
  0x200 <= OglAlways < 2 ^ 32 ->
  let convert := ConvertCompareFunc 1 D3DAlways 0x200 OglAlways in
  (1 <= func <= D3DAlways -> convert func = Ok (func - 1))
  /\ (0x200 <= func <= OglAlways -> convert func = Ok (func - 0x200))
  /\ (~ (1 <= func <= D3DAlways) -> ~ (0x200 <= func <= OglAlways) ->
      convert func = Exception "Invalid comparision function: 0x{:X}")
  /\ (forall k, 0 <= k <= D3DAlways - 1 -> k <= OglAlways - 0x200 ->
      convert (1 + k) = convert (0x200 + k)).
Proof.
  intros Hd Ho. cbv zeta.
  assert (Hd3d : forall f, 1 <= f <= D3DAlways ->
            ConvertCompareFunc 1 D3DAlways 0x200 OglAlways f = Ok (f - 1)).
  { intros f Hf. unfold ConvertCompareFunc.
    destruct (Z.ltb_spec f 1); [lia |].
    destruct (Z.gtb_spec f OglAlways); [lia |].
    destruct (Z.gtb_spec f D3DAlways); [lia |].
    destruct (Z.geb_spec f 512); [lia |].
    cbn [orb andb]. rewrite (u32_small f) by lia. rewrite u32_small by lia.
    reflexivity. }
  assert (Hogl : forall f, 0x200 <= f <= OglAlways ->
            ConvertCompareFunc 1 D3DAlways 0x200 OglAlways f = Ok (f - 0x200)).
  { intros f Hf. unfold ConvertCompareFunc.
    destruct (Z.ltb_spec f 1); [lia |].
    destruct (Z.gtb_spec f OglAlways); [lia |].
    destruct (Z.ltb_spec f 512); [lia |].
    destruct (Z.geb_spec f 512); [| lia].
    rewrite andb_false_r. cbn [orb]. rewrite (u32_small f) by lia.
    rewrite u32_small by lia. reflexivity. }
  split; [apply Hd3d |]. split; [apply Hogl |]. split.
  - intros Hn1 Hn2. unfold ConvertCompareFunc.
    destruct (Z.ltb_spec func 1) as [| H1]; [reflexivity |].
    destruct (Z.gtb_spec func OglAlways) as [| H2]; [reflexivity |].
    destruct (Z.gtb_spec func D3DAlways) as [| H3]; [| lia].
    destruct (Z.ltb_spec func 512) as [| H4]; [reflexivity | lia].
  - intros k Hk1 Hk2. rewrite Hd3d, Hogl by lia. f_equal. lia.
Qed.

End CompareFunc.

Lemma ConvertCompareFunc_indexes_both_encodings_witness :
  ConvertCompareFunc 1 8 0x200 0x207 4 = Ok 3
  /\ ConvertCompareFunc 1 8 0x200 0x207 0x203 = Ok 3
  /\ ConvertCompareFunc 1 8 0x200 0x207 9
     = Exception "Invalid comparision function: 0x{:X}".
Proof.
  destruct (ConvertCompareFunc_indexes_both_encodings 8 0x207 4) as (H1 & _);
    [lia | lia |].
  destruct (ConvertCompareFunc_indexes_both_encodings 8 0x207 0x203) as (_ & H2 & _);
    [lia | lia |].
  destruct (ConvertCompareFunc_indexes_both_encodings 8 0x207 9) as (_ & _ & H3 & _);
    [lia | lia |].
  split; [apply H1; lia |]. split; [apply H2; lia | apply H3; lia].
Defined.

Section DepthStencilErrors.
Variables D3DNever D3DAlways OglNever OglAlways : Z.

(** X12.  When [DepthStencilState::Flush] throws.  The flush returns
    exactly when the depth comparison function and the front-face stencil
    operations all convert; the back-face registers, which it never
    converts, cannot make it throw.  It is not atomic: the depth test and
    depth write flags are assigned on every path; when the depth function is
    refused nothing else has been written; when the stencil operations are
    refused the depth function, the depth-bounds flag and the stencil-test
    flag have been written and both packed stencil states are untouched. *)
Theorem DepthStencilState_Flush_error_paths
    (regs : DepthStencilState.EngineRegisters) (p : PackedPipelineState.t) :
  let convert := ConvertCompareFunc D3DNever D3DAlways OglNever OglAlways in
  let pack := PackStencilOps D3DNever D3DAlways OglNever OglAlways in
  let c := DepthStencilState_Flush D3DNever D3DAlways OglNever OglAlways regs p in
  let p' := completion_state c in
  (throws c = false
   <-> (exists op, convert (DepthStencilState.depthFunc regs) = Ok op)
       /\ (exists ops, pack (DepthStencilState.stencilOps regs) = Ok ops))
  /\ depthTestEnable p' = DepthStencilState.depthTestEnable regs
  /\ depthWriteEnable p' = DepthStencilState.depthWriteEnable regs
  /\ (forall what,
        convert (DepthStencilState.depthFunc regs) = Exception what ->
        c = Throw (set_depthWriteEnable (DepthStencilState.depthWriteEnable regs)
                     (set_depthTestEnable (DepthStencilState.depthTestEnable regs) p))
              what)
  /\ (forall op what,
        convert (DepthStencilState.depthFunc regs) = Ok op ->
        pack (DepthStencilState.stencilOps regs) = Exception what ->
        throws c = true
        /\ depthFunc p' = op
        /\ depthBoundsTestEnable p' = DepthStencilState.depthBoundsTestEnable regs
        /\ stencilTestEnable p' = DepthStencilState.stencilTestEnable regs
        /\ stencilFront p' = stencilFront p
        /\ stencilBack p' = stencilBack p).
Proof.
  cbv zeta. unfold DepthStencilState_Flush, SetDepthFunc, SetStencilOps, call.
  destruct (ConvertCompareFunc D3DNever D3DAlways OglNever OglAlways
              (DepthStencilState.depthFunc regs)) as [op | what] eqn:Hfunc.
  2:{ cbn. split; [split; [intros [=] | intros [[op [=]] _]] |].
      split; [reflexivity |]. split; [reflexivity |].
      split; [intros what' [= <-]; reflexivity |].
      intros op what' [=]. }
  destruct (PackStencilOps D3DNever D3DAlways OglNever OglAlways
              (DepthStencilState.stencilOps regs)) as [ops | what] eqn:Hpack.
  - cbn. split; [split; [intros _; split; eauto | reflexivity] |].
    split; [reflexivity |]. split; [reflexivity |].
    split; [intros what' [=] |].
    intros op' what' _ [=].
  - cbn. split; [split; [intros [=] | intros [_ [ops [=]]]] |].
    split; [reflexivity |]. split; [reflexivity |].
    split; [intros what' [=] |].
    intros op' what' [= <-] _. repeat split; reflexivity.
Qed.

End DepthStencilErrors.

(** ** The render-target translators on their other paths *)

Section RenderTargetPaths.
Variable ColorFormat_value : ColorTarget.Format -> Z.
Variable ZtFormat_value : Zt.Format -> Z.
Variable TextureView : Type.
Variable bpb : texture.Format -> Z.
Variable vkAspect : texture.Format -> Z.
Variable GetSize : GuestTexture -> Z.
Variable TranslateRange : Z -> Z -> list (Z * Z).
Variable FindOrCreate : GuestTexture -> option TextureView.
Variable GuestTexture_init : GuestTexture.

(** X13.  What the render-target translators do to the packed state, and
    when they throw.  On every path, exception included, the colour
    translator's flush changes the packed state by the format slot of its
    own index and nothing else, and the depth translator's by the depth
    format field and nothing else.  The colour flush throws exactly when
    the format register holds a value, other than [Disabled], that the
    conversion table has no case for; the depth flush exactly when targets
    are selected and the depth format table has no case for the format.  When either throws, the packed format has
    already been written, the translator's view is the stale one from
    before, and no range was translated and no view looked up. *)
Theorem render_target_flush_error_paths :
  (forall index target st,
     let c :=
       ColorRenderTargetState_Flush ColorFormat_value TextureView bpb GetSize
         TranslateRange FindOrCreate GuestTexture_init index target st in
     let st' := completion_state c in
     packedState _ st'
     = SetColorRenderTargetFormat ColorFormat_value index
         (ColorTarget.format target) (packedState _ st)
     /\ (throws c = true
         <-> exists raw, ColorTarget.format target = ColorTarget.Format_other raw)
     /\ (throws c = true -> view _ st' = view _ st /\ calls _ st' = calls _ st))
  /\ (forall regs st,
        let c :=
          DepthRenderTargetState_Flush ZtFormat_value TextureView vkAspect GetSize
            TranslateRange FindOrCreate GuestTexture_init regs st in
        let st' := completion_state c in
        packedState _ st'
        = SetDepthRenderTargetFormat ZtFormat_value
            (DepthRenderTargetState.ztFormat regs) (packedState _ st)
        /\ (throws c = true
            <-> DepthRenderTargetState.ztSelect_targetCount regs <> 0
                /\ exists raw,
                     DepthRenderTargetState.ztFormat regs = Zt.Format_other raw)
        /\ (throws c = true -> view _ st' = view _ st /\ calls _ st' = calls _ st)).
Proof.
  split.
  - intros index target st. cbv zeta. unfold ColorRenderTargetState_Flush.
    destruct (ColorTarget.format target) eqn:Hformat;
      cbn [ColorTarget.is_Disabled ConvertColorRenderTargetFormat FORMAT_CASE
           FORMAT_CASE_WARN].
    all: try destruct (ColorTarget.layout (ColorTarget.memory target)).
    all: cbn [completion_state throws packedState view calls acquire_view].
    all: split; [reflexivity |].
    all: split; [split; [intros [=] | intros [? [=]]] | intros [=]].
    all: try (eexists; reflexivity).
    all: try (rewrite app_nil_r; split; reflexivity).
    all: try reflexivity.
  - intros regs st. cbv zeta. unfold DepthRenderTargetState_Flush.
    destruct (Z.eqb_spec (DepthRenderTargetState.ztSelect_targetCount regs) 0)
      as [Hzero | Hsome].
    + cbn. split; [reflexivity |].
      split; [split; [intros [=] | intros [Hn _]; contradiction] | intros [=]].
    + destruct (DepthRenderTargetState.ztFormat regs) eqn:Hformat;
        cbn [ConvertDepthRenderTargetFormat].
      all: try destruct (Zt.control (DepthRenderTargetState.ztSize regs)).
      all: cbn [completion_state throws packedState view calls acquire_view].
      all: split; [reflexivity |].
      all: split; [split; [intros [=] | intros [_ [? [=]]]] | intros [=]].
      all: try (split; [exact Hsome | eexists; reflexivity]).
      all: try (split; reflexivity).
Qed.

(** X14.  A colour target whose format converts.  The flush returns; after
    the conversion's warning (if the format is only partially supported) it
    makes exactly two calls: the translation of the range that starts at the
    target's offset and has the size of the guest descriptor, and the lookup
    of that descriptor with the translated mappings stored in it; the view
    is the one the lookup returned.  The third dimension is taken once:
    either as the layer count (depth 1) or as the depth (one layer), so
    their product is the third dimension. *)
Theorem color_target_flush_looks_one_view_up index target st warnings sk :
  ConvertColorRenderTargetFormat (ColorTarget.format target) = (warnings, Ok sk) ->
  exists descriptor,
    let size := GetSize descriptor in
    let guest :=
      with_mappings (TranslateRange (ColorTarget.offset target) size) descriptor in
    ColorRenderTargetState_Flush ColorFormat_value TextureView bpb GetSize
      TranslateRange FindOrCreate GuestTexture_init index target st
    = Return
        {| packedState :=
             SetColorRenderTargetFormat ColorFormat_value index
               (ColorTarget.format target) (packedState _ st);
           view := FindOrCreate guest;
           calls :=
             (calls _ st ++ warnings)
             ++ [Gmmu_TranslateRange (ColorTarget.offset target) size;
                 TextureManager_FindOrCreate guest] |}
    /\ guest_format descriptor = Some sk
    /\ guest_layerCount descriptor * texture.dim_depth (guest_dimensions descriptor)
       = ColorTarget.thirdDimension target
    /\ (guest_layerCount descriptor = 1
        \/ texture.dim_depth (guest_dimensions descriptor) = 1).
Proof.
  intros Hconv. unfold ColorRenderTargetState_Flush.
  assert (Hen : ColorTarget.is_Disabled (ColorTarget.format target) = false).
  { destruct (ColorTarget.format target); try reflexivity. cbn in Hconv.
    discriminate. }
  rewrite Hen, Hconv.
  destruct (ColorTarget.thirdDimensionControl (ColorTarget.memory target)),
    (ColorTarget.layout (ColorTarget.memory target));
    cbv beta iota zeta; unfold acquire_view; eexists;
    (split; [reflexivity |]); cbn; repeat split; try reflexivity; try lia;
    auto.
Qed.

End RenderTargetPaths.

Lemma color_target_flush_looks_one_view_up_witness :
  exists descriptor,
    ColorRenderTargetState_Flush example_color_value GuestTexture
      (fun _ => 4) (fun _ => 0x1000) (fun a n => [(a, n)]) Some example_guest
      3%nat example_rgba_target
      {| packedState := example_packed_state; view := None; calls := [] |}
    = Return
        {| packedState :=
             SetColorRenderTargetFormat example_color_value 3
               ColorTarget.A8B8G8R8 example_packed_state;
           view := Some (with_mappings [(0x10000, 0x1000)] descriptor);
           calls := [Gmmu_TranslateRange 0x10000 0x1000;
                     TextureManager_FindOrCreate
                       (with_mappings [(0x10000, 0x1000)] descriptor)] |}
    /\ guest_layerCount descriptor * texture.dim_depth (guest_dimensions descriptor)
       = 2.
Proof.
  destruct (color_target_flush_looks_one_view_up example_color_value GuestTexture
              (fun _ => 4) (fun _ => 0x1000) (fun a n => [(a, n)]) Some
              example_guest 3%nat example_rgba_target
              {| packedState := example_packed_state; view := None; calls := [] |}
              [] texture.R8G8B8A8Unorm eq_refl)
    as (descriptor & Hflush & _ & Hthird & _).
  exists descriptor. split; [exact Hflush | exact Hthird].
Defined.

(** ** The colour blend translator *)

(** X15.  The packed colour write mask can be read back: bits 0 to 3 of
    [ConvertColorWriteMask] are the red, green, blue and alpha enables of
    the register, and no other bit is set. *)
Theorem ConvertColorWriteMask_reads_back (write : ColorBlendState.CtWrite) :
  let mask := ConvertColorWriteMask write in
  Z.testbit mask 0 = ColorBlendState.rEnable write
  /\ Z.testbit mask 1 = ColorBlendState.gEnable write
  /\ Z.testbit mask 2 = ColorBlendState.bEnable write
  /\ Z.testbit mask 3 = ColorBlendState.aEnable write
  /\ 0 <= mask < 16.
Proof.
  destruct write as [r g b a]. unfold ConvertColorWriteMask.
  cbn [ColorBlendState.rEnable ColorBlendState.gEnable ColorBlendState.bEnable
       ColorBlendState.aEnable].
  destruct r, g, b, a; repeat split; try reflexivity;
    vm_compute; congruence.
Qed.

Section ColorBlendLoop.
Import ColorBlendState.
Variables LogicOp_Clear LogicOp_Set : Z.
Variable regs : EngineRegisters.

Lemma flush_attachment_request i q :
  flush_attachment regs i q
  = match attachment_request regs i with
    | Exception what => Throw q what
    | Ok a =>
        Return (set_attachmentBlendStates (<[i := a]> (attachmentBlendStates q)) q)
    end.
Proof.
  unfold flush_attachment, attachment_request, SetAttachmentBlendState,
    SetAttachmentBlendState_Blend.
  destruct (negb (blendStatePerTargetEnable regs =? 0)); reflexivity.
Qed.

(** A packed attachment carries the write mask and the enable it was
    asked for. *)
Lemma PackAttachmentBlendState_keeps enabled mask b a :
  PackAttachmentBlendState enabled mask b = Ok a ->
  colorWriteMask a = ConvertColorWriteMask mask /\ blendEnable a = enabled.
Proof.
  unfold PackAttachmentBlendState, bind_result.
  destruct (ConvertBlendOp (colorOp b)); [| discriminate].
  destruct (ConvertBlendFactor (colorSourceCoeff b)); [| discriminate].
  destruct (ConvertBlendFactor (colorDestCoeff b)); [| discriminate].
  destruct (ConvertBlendOp (alphaOp b)); [| discriminate].
  destruct (ConvertBlendFactor (alphaSourceCoeff b)); [| discriminate].
  destruct (ConvertBlendFactor (alphaDestCoeff b)); [| discriminate].
  intros [= <-]. split; reflexivity.
Qed.

(** The loop throws exactly when one of its targets cannot be packed. *)
Lemma flush_attachments_throws targets : forall q,
  throws (flush_attachments regs targets q) = false
  <-> forall i, i ∈ targets -> exists a, attachment_request regs i = Ok a.
Proof.
  induction targets as [| i rest IH]; intros q; cbn [flush_attachments].
  - split; [intros _ i Hi; apply elem_of_nil in Hi; contradiction | reflexivity].
  - rewrite flush_attachment_request.
    destruct (attachment_request regs i) as [a | what] eqn:Hreq.
    + rewrite IH. split.
      * intros H j Hj. apply elem_of_cons in Hj as [-> | Hj]; eauto.
      * intros H j Hj. apply H. apply list_elem_of_further, Hj.
    + cbn. split; [intros [=] |].
      intros H. destruct (H i (list_elem_of_here _ _)) as [a Ha]. congruence.
Qed.

(** What the loop leaves: the fields beside the attachments as they were,
    the attachments of the targets it got through replaced, the others
    untouched. *)
Lemma flush_attachments_state targets : forall q,
  NoDup targets ->
  let q' := completion_state (flush_attachments regs targets q) in
  logicOpEnable q' = logicOpEnable q
  /\ logicOp q' = logicOp q
  /\ length (attachmentBlendStates q') = length (attachmentBlendStates q)
  /\ (forall j, j ∉ targets ->
        attachmentBlendStates q' !! j = attachmentBlendStates q !! j)
  /\ (throws (flush_attachments regs targets q) = false ->
      forall j, j ∈ targets -> (j < length (attachmentBlendStates q))%nat ->
        exists a, attachment_request regs j = Ok a
                  /\ attachmentBlendStates q' !! j = Some a).
Proof.
  induction targets as [| i rest IH]; intros q Hnd; cbv zeta;
    cbn [flush_attachments].
  - cbn. repeat split; try reflexivity.
    intros _ j Hj. apply elem_of_nil in Hj. contradiction.
  - apply NoDup_cons in Hnd as [Hi Hnd].
    rewrite flush_attachment_request.
    destruct (attachment_request regs i) as [a | what] eqn:Hreq.
    + specialize (IH (set_attachmentBlendStates
                        (<[i := a]> (attachmentBlendStates q)) q) Hnd).
      cbv zeta in IH. destruct IH as (H1 & H2 & H3 & H4 & H5).
      cbn [logicOpEnable logicOp attachmentBlendStates set_attachmentBlendStates]
        in H1, H2, H3, H4, H5.
      rewrite length_insert in H3, H5.
      split; [exact H1 |]. split; [exact H2 |]. split; [exact H3 |]. split.
      * intros j Hj. apply not_elem_of_cons in Hj as [Hne Hj].
        rewrite H4 by exact Hj. apply list_lookup_insert_ne. congruence.
      * intros Hok j Hj Hlen. apply elem_of_cons in Hj as [-> | Hj].
        -- exists a. split; [exact Hreq |].
           rewrite H4 by exact Hi. apply list_lookup_insert_eq. exact Hlen.
        -- apply H5; assumption.
    + cbn. repeat split; try reflexivity. intros [=].
Qed.

End ColorBlendLoop.

(** X16.  When [ColorBlendState::Flush] throws, and what it has written by
    then.  The flush returns exactly when the logic operation lies between
    [Clear] and [Set] and the blend state of every colour target can be
    packed.  The logic-op enable is assigned on every path; the number of
    packed attachments never changes, and attachments beyond the colour
    target count are never touched.  A logic operation out of range is
    refused before any attachment is written. *)
Theorem ColorBlendState_Flush_error_paths
    (LogicOp_Clear LogicOp_Set : Z) (ColorTargetCount : nat)
    (regs : ColorBlendState.EngineRegisters) (q : ColorBlendState.Packed) :
  let c := ColorBlendState_Flush LogicOp_Clear LogicOp_Set ColorTargetCount regs q in
  let q' := completion_state c in
  let func := ColorBlendState.logicOp_func regs in
  (throws c = false
   <-> LogicOp_Clear <= func <= LogicOp_Set
       /\ forall i, (i < ColorTargetCount)%nat ->
            exists a, attachment_request regs i = Ok a)
  /\ ColorBlendState.logicOpEnable q' = ColorBlendState.logicOp_enable regs
  /\ length (ColorBlendState.attachmentBlendStates q')
     = length (ColorBlendState.attachmentBlendStates q)
  /\ (forall j, (ColorTargetCount <= j)%nat ->
        ColorBlendState.attachmentBlendStates q' !! j
        = ColorBlendState.attachmentBlendStates q !! j)
  /\ (~ (LogicOp_Clear <= func <= LogicOp_Set) ->
      c = Throw (ColorBlendState.set_logicOpEnable
                   (ColorBlendState.logicOp_enable regs) q)
            "Invalid logical operation: 0x{:X}").
Proof.
  cbv zeta. unfold ColorBlendState_Flush, SetLogicOp.
  destruct (Z.ltb_spec (ColorBlendState.logicOp_func regs) LogicOp_Clear) as [Hlo | Hlo].
  { cbn. split; [split; [intros [=] | intros [? _]; lia] |].
    repeat split; reflexivity. }
  destruct (Z.gtb_spec (ColorBlendState.logicOp_func regs) LogicOp_Set) as [Hhi | Hhi].
  { cbn. split; [split; [intros [=] | intros [? _]; lia] |].
    repeat split; reflexivity. }
  cbn [orb].
  set (q1 := ColorBlendState.set_logicOp _ _).
  pose proof (flush_attachments_throws regs (seq 0 ColorTargetCount) q1) as Hthrows.
  pose proof (flush_attachments_state regs (seq 0 ColorTargetCount) q1
                (NoDup_seq 0 ColorTargetCount)) as (H1 & H2 & H3 & H4 & _).
  assert (Hret : forall c : Completion ColorBlendState.Packed,
            throws (returned c) = throws c
            /\ completion_state (returned c) = completion_state c)
    by (intros []; split; reflexivity).
  destruct (Hret (flush_attachments regs (seq 0 ColorTargetCount) q1)) as [-> ->].
  split.
  - rewrite Hthrows. split.
    + intros H. split; [lia |]. intros i Hi. apply H.
      apply list_elem_of_In, in_seq. lia.
    + intros [_ H] i Hi. apply H. apply list_elem_of_In, in_seq in Hi. lia.
  - split; [rewrite H1; reflexivity |]. split; [rewrite H3; reflexivity |].
    split; [| intros Hn; lia].
    intros j Hj. rewrite H4; [reflexivity |].
    rewrite list_elem_of_In, in_seq. lia.
Qed.

(** X17.  What a returning [ColorBlendState::Flush] leaves.  The packed
    logic operation is the register's counted from [Clear].  Every colour
    target's attachment state has been replaced: its blend enable says
    whether the target's enable word is non-zero; its write mask is that of
    the target's own write register, or of target 0's for every target when
    the single-write control is set; its functions are converted from the
    target's own blend registers when per-target blending is on and from
    the common ones otherwise. *)
Theorem ColorBlendState_Flush_writes_every_target
    (LogicOp_Clear LogicOp_Set : Z) (ColorTargetCount : nat)
    (regs : ColorBlendState.EngineRegisters) (q q' : ColorBlendState.Packed) :
  ColorBlendState_Flush LogicOp_Clear LogicOp_Set ColorTargetCount regs q
  = Return q' ->
  (ColorTargetCount <= length (ColorBlendState.attachmentBlendStates q))%nat ->
  ColorBlendState.logicOp q'
  = u32 (u32 (ColorBlendState.logicOp_func regs) - u32 LogicOp_Clear)
  /\ forall i, (i < ColorTargetCount)%nat ->
       exists a,
         ColorBlendState.attachmentBlendStates q' !! i = Some a
         /\ attachment_request regs i = Ok a
         /\ ColorBlendState.blendEnable a
            = negb (ColorBlendState.enable (ColorBlendState.blend regs) i =? 0)
         /\ ColorBlendState.colorWriteMask a
            = ConvertColorWriteMask
                (if negb (ColorBlendState.singleCtWriteControl regs =? 0)
                 then ColorBlendState.ctWrites regs 0%nat
                 else ColorBlendState.ctWrites regs i).
Proof.
  unfold ColorBlendState_Flush, SetLogicOp.
  destruct ((_ <? _) || (_ >? _)); [intros [=] |].
  set (q1 := ColorBlendState.set_logicOp _ _).
  intros Hflush Hlen.
  pose proof (flush_attachments_state regs (seq 0 ColorTargetCount) q1
                (NoDup_seq 0 ColorTargetCount)) as (_ & H2 & _ & _ & H5).
  assert (Hok : throws (flush_attachments regs (seq 0 ColorTargetCount) q1) = false).
  { revert Hflush.
    destruct (flush_attachments regs (seq 0 ColorTargetCount) q1);
      try reflexivity. discriminate. }
  assert (Hq' : completion_state (flush_attachments regs (seq 0 ColorTargetCount) q1)
                = q').
  { revert Hflush.
    destruct (flush_attachments regs (seq 0 ColorTargetCount) q1);
      cbn; congruence. }
  rewrite Hq' in H2, H5.
  split; [rewrite H2; reflexivity |].
  intros i Hi.
  destruct (H5 Hok i) as (a & Hreq & Hlook).
  { apply list_elem_of_In, in_seq. lia. }
  { unfold q1. cbn. lia. }
  exists a. split; [exact Hlook |]. split; [exact Hreq |].
  unfold attachment_request in Hreq.
  apply PackAttachmentBlendState_keeps in Hreq as [Hmask Hen].
  split; [exact Hen | exact Hmask].
Qed.

Lemma ColorBlendState_Flush_writes_every_target_witness :
  exists q',
    ColorBlendState_Flush 0x1500 0x150F 8 example_blend_registers
      example_blend_packed = Return q'
    /\ ColorBlendState.logicOp q' = 3
    /\ forall i, (i < 8)%nat ->
         exists a,
           ColorBlendState.attachmentBlendStates q' !! i = Some a
           /\ ColorBlendState.colorWriteMask a = 11.
Proof.
  eexists. split; [reflexivity |].
  destruct (ColorBlendState_Flush_writes_every_target 0x1500 0x150F 8
              example_blend_registers example_blend_packed _ eq_refl)
    as [Hop Hall].
  - cbn. lia.
  - split; [rewrite Hop; reflexivity |].
    intros i Hi. destruct (Hall i Hi) as (a & Hlook & _ & _ & Hmask).
    exists a. split; [exact Hlook | rewrite Hmask; reflexivity].
Defined.

(** ** The vertex input translator *)

(** X18.  Signed-normalised vertex attributes are given unsigned formats.
    In the format table the case of every [Snorm] combination pastes
    [Unorm] into the format's name, so for every component layout
    [ConvertVertexInputAttributeFormat] returns for [Snorm] exactly what it
    returns for [Unorm] (for the layouts without normalised formats that is
    the fallback format and its warning in both cases). *)
Theorem signed_normalised_attributes_get_unsigned_formats
    (componentBitWidths : VertexAttribute.ComponentBitWidths) :
  ConvertVertexInputAttributeFormat componentBitWidths VertexAttribute.Snorm
  = ConvertVertexInputAttributeFormat componentBitWidths VertexAttribute.Unorm.
Proof.
  unfold ConvertVertexInputAttributeFormat.
  destruct componentBitWidths as
    [| | | | | | | | | | | | | | | | | raw];
    vm_compute; reflexivity.
Qed.

Section Slots.
Context {A : Type} (f : nat -> A).

(** Assigning slot [i] for every [i] below [k] replaces the first [k]
    slots and keeps the rest. *)
Lemma assign_slots k : forall l : list A,
  (k <= length l)%nat ->
  fold_left (fun l i => <[i := f i]> l) (seq 0 k) l
  = map f (seq 0 k) ++ drop k l.
Proof.
  induction k as [| k IH]; intros l Hk.
  - cbn. rewrite drop_0. reflexivity.
  - rewrite seq_S, fold_left_app, IH by lia. cbn [fold_left Nat.add].
    rewrite insert_app_r_alt by (rewrite length_map, length_seq; lia).
    rewrite length_map, length_seq, Nat.sub_diag, map_app.
    destruct (drop k l) as [| x rest] eqn:Hdrop.
    + apply (f_equal length) in Hdrop. rewrite length_drop in Hdrop. cbn in Hdrop. lia.
    + cbn [insert list_insert map app].
      rewrite <- app_assoc. cbn [app]. do 2 f_equal.
      replace (S k) with (k + 1)%nat by lia. rewrite <- drop_drop, Hdrop.
      reflexivity.
Qed.

Lemma assign_all_slots n (l : list A) :
  length l = n ->
  fold_left (fun l i => <[i := f i]> l) (seq 0 n) l = map f (seq 0 n).
Proof.
  intros Hn. rewrite assign_slots by lia.
  rewrite drop_ge by lia. apply app_nil_r.
Qed.

End Slots.

Lemma bindings_loop regs targets : forall q,
  fold_left
    (fun q i =>
       SetVertexBinding i (VertexInputState.vertexStreams regs i)
         (VertexInputState.vertexStreamInstance regs i) q) targets q
  = {| VertexInputState.vertexBindings :=
         fold_left (fun l i => <[i := binding_of regs i]> l) targets
           (VertexInputState.vertexBindings q);
       VertexInputState.packedAttributes := VertexInputState.packedAttributes q |}.
Proof.
  induction targets as [| i rest IH]; intros q; cbn [fold_left].
  - destruct q; reflexivity.
  - rewrite IH. reflexivity.
Qed.

Lemma attributes_loop regs targets : forall q,
  fold_left
    (fun q i =>
       {| VertexInputState.vertexBindings := VertexInputState.vertexBindings q;
          VertexInputState.packedAttributes :=
            <[i := VertexInputState.vertexAttributes regs i]>
              (VertexInputState.packedAttributes q) |}) targets q
  = {| VertexInputState.vertexBindings := VertexInputState.vertexBindings q;
       VertexInputState.packedAttributes :=
         fold_left (fun l i => <[i := VertexInputState.vertexAttributes regs i]> l)
           targets (VertexInputState.packedAttributes q) |}.
Proof.
  induction targets as [| i rest IH]; intros q; cbn [fold_left].
  - destruct q; reflexivity.
  - rewrite IH. reflexivity.
Qed.

(** X19.  [VertexInputState::Flush] refreshes every slot.  On a packed
    state with its 16 bindings and 32 attributes the result is determined
    by the registers alone: binding [i] is packed from stream [i] and its
    instancing register (instance rate exactly when the stream is
    instanced), attribute [i] is register [i], for all 16 and all 32; no
    slot keeps a value from before the flush. *)
Theorem VertexInputState_Flush_refreshes_every_slot
    (regs : VertexInputState.EngineRegisters) (q : VertexInputState.Packed) :
  length (VertexInputState.vertexBindings q) = 16%nat ->
  length (VertexInputState.packedAttributes q) = 32%nat ->
  VertexInputState_Flush regs q
  = {| VertexInputState.vertexBindings := map (binding_of regs) (seq 0 16);
       VertexInputState.packedAttributes :=
         map (VertexInputState.vertexAttributes regs) (seq 0 32) |}.
Proof.
  intros Hb Ha. unfold VertexInputState_Flush.
  rewrite bindings_loop, attributes_loop.
  cbn [VertexInputState.vertexBindings VertexInputState.packedAttributes].
  unfold VertexStreamCount, VertexAttributeCount.
  rewrite (assign_all_slots (binding_of regs) 16) by exact Hb.
  rewrite (assign_all_slots (VertexInputState.vertexAttributes regs) 32) by exact Ha.
  reflexivity.
Qed.

Lemma VertexInputState_Flush_refreshes_every_slot_witness :
  VertexInputState.vertexBindings
    (VertexInputState_Flush example_vertex_registers example_vertex_packed) !! 9%nat
  = Some {| VertexInputState.stride := 36;
            VertexInputState.inputRate := VertexInputState.eInstance;
            VertexInputState.enable := true;
            VertexInputState.divisor := 1 |}
  /\ VertexInputState.packedAttributes
       (VertexInputState_Flush example_vertex_registers example_vertex_packed)
     !! 31%nat = Some 0x11F.
Proof.
  rewrite (VertexInputState_Flush_refreshes_every_slot example_vertex_registers
             example_vertex_packed eq_refl eq_refl).
  split; reflexivity.
Defined.

(** ** The random number service *)

Section RandomBytes.
Variable Rng : Type.
Variable distribution : Rng -> Z * Rng.

Lemma generate_length n : forall rng,
  length (fst (generate Rng distribution n rng)) = n.
Proof.
  induction n as [| n IH]; intros rng; cbn [generate]; [reflexivity |].
  destruct (distribution rng) as [x rng1]. specialize (IH rng1).
  destruct (generate Rng distribution n rng1) as [data rng2]. cbn in *. lia.
Qed.

Lemma generate_bytes n : forall rng,
  Forall (fun b => 0 <= b < 256) (fst (generate Rng distribution n rng)).
Proof.
  induction n as [| n IH]; intros rng; cbn [generate]; [constructor |].
  destruct (distribution rng) as [x rng1]. specialize (IH rng1).
  destruct (generate Rng distribution n rng1) as [data rng2]. cbn in *.
  constructor; [| exact IH]. unfold u8. apply Z.mod_pos_bound. lia.
Qed.

Lemma generate_app n m : forall rng,
  generate Rng distribution (n + m) rng
  = let '(front, rng1) := generate Rng distribution n rng in
    let '(back, rng2) := generate Rng distribution m rng1 in
    (front ++ back, rng2).
Proof.
  induction n as [| n IH]; intros rng; cbn [generate Nat.add].
  - destruct (generate Rng distribution m rng); reflexivity.
  - destruct (distribution rng) as [x rng1]. rewrite IH.
    destruct (generate Rng distribution n rng1) as [front rng2].
    destruct (generate Rng distribution m rng2) as [back rng3]. reflexivity.
Qed.

(** X20.  [GetRandomBytes] fills exactly the first output buffer.  With no
    output buffer the bounds-checked access throws and the generator is not
    advanced.  Otherwise the call returns; the first buffer keeps its size
    and holds bytes (values from 0 to 255), every other buffer is as it
    was, and a buffer of size zero leaves the generator where it was. *)
Theorem GetRandomBytes_fills_the_first_buffer (request : IpcRequest) (rng : Rng) :
  match outputBuf request with
  | [] =>
      GetRandomBytes Rng distribution request rng
      = Throw (request, rng) "std::out_of_range"
  | outBuf :: others =>
      exists data rng',
        GetRandomBytes Rng distribution request rng
        = Return ({| outputBuf := data :: others |}, rng')
        /\ length data = length outBuf
        /\ Forall (fun b => 0 <= b < 256) data
        /\ (outBuf = [] -> data = [] /\ rng' = rng)
  end.
Proof.
  unfold GetRandomBytes.
  destruct (outputBuf request) as [| outBuf others]; [reflexivity |].
  pose proof (generate_length (length outBuf) rng) as Hlen.
  pose proof (generate_bytes (length outBuf) rng) as Hbytes.
  destruct (generate Rng distribution (length outBuf) rng) as [data rng'] eqn:Hgen.
  exists data, rng'. cbn [fst] in Hlen, Hbytes.
  split; [reflexivity |]. split; [exact Hlen |]. split; [exact Hbytes |].
  intros ->. cbn in Hgen. injection Hgen as <- <-. split; reflexivity.
Qed.

(** X21.  Random bytes do not depend on how the requests are cut.  Filling
    a buffer of n bytes and then one of m bytes yields, put end to end, the
    bytes that filling one buffer of n + m bytes yields from the same
    generator, and leaves the generator in the same state. *)
Theorem GetRandomBytes_splits (front back : list Z) (rng : Rng) :
  let whole :=
    completion_state
      (GetRandomBytes Rng distribution {| outputBuf := [front ++ back] |} rng) in
  let first :=
    completion_state
      (GetRandomBytes Rng distribution {| outputBuf := [front] |} rng) in
  let second :=
    completion_state
      (GetRandomBytes Rng distribution {| outputBuf := [back] |} (snd first)) in
  outputBuf (fst whole)
  = [concat (outputBuf (fst first) ++ outputBuf (fst second))]
  /\ snd whole = snd second.
Proof.
  cbv zeta. unfold GetRandomBytes. cbn [outputBuf].
  rewrite length_app, generate_app.
  destruct (generate Rng distribution (length front) rng) as [data1 rng1].
  cbn [completion_state fst snd outputBuf].
  destruct (generate Rng distribution (length back) rng1) as [data2 rng2].
  cbn. rewrite app_nil_r. split; reflexivity.
Qed.

End RandomBytes.

(** ** The order of a write's calls *)

Section CallOrder.
Variable R : Registers.
Variable T : Types.
Variable flag : bool.
Hypothesis Hwf : well_formed R.

Lemma ChangedLayer_marks_first m a s :
  exists rest, calls_of (ChangedLayer R T flag m a s) = MarkDirty m :: rest.
Proof.
  unfold ChangedLayer, calls_of, andThen. cbn [emit fst snd app]. eauto.
Qed.

Lemma tail_marks_first m a s :
  exists rest,
    calls_of (andThen (ChangedLayer R T flag m a s)
                (fun s2 => MethodSwitch R T flag m a s2))
    = MarkDirty m :: rest.
Proof.
  destruct (ChangedLayer_marks_first m a s) as [rest Hrest].
  rewrite calls_of_andThen.
  destruct (snd (ChangedLayer R T flag m a s)); rewrite Hrest; cbn; eauto.
Qed.

End CallOrder.

(** X22.  Pending work goes out first.  A write to a method that is
    neither the shadow RAM control register, nor a constant-buffer data
    method, nor a draw method begins by submitting what is under way: the
    active batch if there is one, otherwise the pending draw if there is
    one.  That submission is the first call the write makes; whatever
    follows contains no further [Draw] or [LoadConstantBuffer], and, when
    the write changes the register, starts with the dirty mark of the
    method: the draw is submitted before the change is made known. *)
Theorem pending_work_is_submitted_first
    (R : Registers) (T : Types) (flag : bool) (m x : Z) (s : State) :
  well_formed R ->
  m <> mme_shadowRamControl R ->
  m ∉ map (loadConstantBuffer_data R) (seq 0 16) ->
  m ∉ draw_methods R ->
  let submission :=
    if Batch_Active (batchLoadConstantBuffer s)
    then [LoadConstantBuffer (buffer (batchLoadConstantBuffer s))
            (fst (Batch_Invalidate (batchLoadConstantBuffer s)))]
    else if pending (deferredDraw s) then [Draw_of (deferredDraw s)] else [] in
  exists rest,
    calls_of (HandleMethod R T flag m x s) = submission ++ rest
    /\ List.filter is_Draw rest = []
    /\ List.filter is_LoadConstantBuffer rest = []
    /\ (is_redundant R T m x s = false -> exists rest', rest = MarkDirty m :: rest').
Proof.
  intros Hwf Hm Hdata Hdraw. cbv zeta.
  apply array_case_None in Hdata.
  rewrite HandleMethod_layers by exact Hm.
  rewrite CoalesceLayer_passes by assumption.
  pose proof (commit_keeps R T m x s) as (Hb & Hd & _).
  assert (Hsettle : calls_of (settle (commit R T m x s))
                    = if Batch_Active (batchLoadConstantBuffer s)
                      then [LoadConstantBuffer (buffer (batchLoadConstantBuffer s))
                              (fst (Batch_Invalidate (batchLoadConstantBuffer s)))]
                      else if pending (deferredDraw s)
                           then [Draw_of (deferredDraw s)] else []).
  { unfold settle, FlushDeferredDraw, Draw_of. rewrite Hb, Hd.
    destruct (Batch_Active _); [reflexivity |].
    destruct (pending _); reflexivity. }
  rewrite calls_of_andThen, settle_Normal, Hsettle.
  eexists. split; [reflexivity |].
  pose proof (tail_layers_frame R T flag m (effective_argument R T m x s)
                (is_redundant R T m x s) (settled (commit R T m x s)))
    as (Hdr & Hlcb & _).
  cbv zeta in Hdr, Hlcb.
  split; [exact Hdr |]. split; [exact Hlcb |].
  intros Hred. rewrite Hred. cbn [negb when].
  apply tail_marks_first.
Qed.

Lemma pending_work_is_submitted_first_witness :
  exists rest,
    calls_of (HandleMethod example_registers example_types true 0x674 1
                example_pending_state)
    = [Draw 4 false 3 0 1 0 0] ++ rest
    /\ List.filter is_Draw rest = []
    /\ exists rest', rest = MarkDirty 0x674 :: rest'.
Proof.
  destruct (pending_work_is_submitted_first example_registers example_types true
              0x674 1 example_pending_state example_well_formed)
    as (rest & Hcalls & Hdraw & _ & Hdirty).
  - vm_compute. discriminate.
  - apply not_elem_of_forallb. reflexivity.
  - apply not_elem_of_forallb. reflexivity.
  - exists rest. split; [exact Hcalls |]. split; [exact Hdraw |].
    apply Hdirty. reflexivity.
Defined.

(** X23.  Batched constant-buffer words are not marked dirty.  A write to
    a data method never throws, commits the word it is carried out with
    (the word written, outside replay mode) to the method's register and
    appends that word to the batch record, which is active afterwards.
    While a batch is active the write makes no downstream call at all,
    dirty mark included, even when it changes the register, and the
    batch keeps its start offset.  The write that opens a batch takes
    the constant-buffer offset register as the start offset of the batch;
    with no draw pending it does go through the dirty marking: it marks its
    data method dirty exactly when it changes the register, and makes no
    other call. *)
Theorem batched_data_words_are_not_marked_dirty
    (R : Registers) (T : Types) (flag : bool) (i : nat) (w : Z) (s : State) :
  well_formed R ->
  (i < 16)%nat ->
  let m := loadConstantBuffer_data R i in
  let r := HandleMethod R T flag m w s in
  let carried := effective_argument R T m w s in
  threw r = false
  /\ registers (state_of r) m = carried
  /\ (shadow_mode R T s <> MethodReplay -> carried = w)
  /\ buffer (batchLoadConstantBuffer (state_of r))
     = buffer (batchLoadConstantBuffer s) ++ [carried]
  /\ Batch_Active (batchLoadConstantBuffer (state_of r)) = true
  /\ (Batch_Active (batchLoadConstantBuffer s) = true ->
      calls_of r = []
      /\ batchLoadConstantBuffer (state_of r)
         = {| startOffset := startOffset (batchLoadConstantBuffer s);
              buffer := buffer (batchLoadConstantBuffer s) ++ [carried] |})
  /\ (Batch_Active (batchLoadConstantBuffer s) = false ->
      batchLoadConstantBuffer (state_of r)
      = {| startOffset := Some (registers s (loadConstantBuffer_offset R));
           buffer := buffer (batchLoadConstantBuffer s) ++ [carried] |}
      /\ (pending (deferredDraw s) = false ->
          calls_of r = if is_redundant R T m w s then [] else [MarkDirty m])).
Proof.
  intros Hwf Hi. cbv zeta.
  assert (Hrecord :
            (Batch_Active (batchLoadConstantBuffer s) = true ->
             batchLoadConstantBuffer
               (state_of (HandleMethod R T flag (loadConstantBuffer_data R i) w s))
             = {| startOffset := startOffset (batchLoadConstantBuffer s);
                  buffer := buffer (batchLoadConstantBuffer s)
                            ++ [effective_argument R T
                                  (loadConstantBuffer_data R i) w s] |})
            /\ (Batch_Active (batchLoadConstantBuffer s) = false ->
                batchLoadConstantBuffer
                  (state_of (HandleMethod R T flag (loadConstantBuffer_data R i) w s))
                = {| startOffset := Some (registers s (loadConstantBuffer_offset R));
                     buffer := buffer (batchLoadConstantBuffer s)
                               ++ [effective_argument R T
                                     (loadConstantBuffer_data R i) w s] |})).
  { split; intros Hact.
    - apply (HandleMethod_next_data R T flag Hwf i w s Hi Hact).
    - apply (HandleMethod_first_data R T flag Hwf i w s Hi Hact). }
  destruct Hrecord as [Hnext Hfirst].
  split; [apply (data_write_never_throws R T flag Hwf), Hi |].
  split; [apply HandleMethod_commits, Hwf |].
  split; [intros Hmode; apply effective_argument_cases; right; exact Hmode |].
  split; [| split].
  { destruct (Batch_Active (batchLoadConstantBuffer s)) eqn:Hact.
    - rewrite (Hnext eq_refl). reflexivity.
    - rewrite (Hfirst eq_refl). reflexivity. }
  { destruct (Batch_Active (batchLoadConstantBuffer s)) eqn:Hact.
    - rewrite (Hnext eq_refl). exact Hact.
    - rewrite (Hfirst eq_refl). reflexivity. }
  split.
  - intros Hact. split; [| exact (Hnext Hact)].
    apply (HandleMethod_next_data R T flag Hwf i w s Hi Hact).
  - intros Hbatch. split; [exact (Hfirst Hbatch) |]. intros Hpend.
    pose proof (data_label_cases R Hwf i Hi) as (_ & H1 & H2 & H3 & H4 & _).
    assert (Hscalar : forall y, y ∈ scalar_labels R -> loadConstantBuffer_data R i <> y)
      by (intros y Hy; apply (data_label_neq R Hwf i y Hi Hy)).
    pose proof (commit_keeps R T (loadConstantBuffer_data R i) w s) as (Hb & Hd & _).
    rewrite HandleMethod_layers by (apply Hscalar; scalar_in).
    unfold CoalesceLayer. rewrite Hb, Hbatch, Hd, Hpend.
    unfold andThen at 1. cbn [continue fst snd app].
    unfold when. destruct (is_redundant R T (loadConstantBuffer_data R i) w s);
      cbn [negb].
    + unfold andThen. cbn [continue fst snd app].
      rewrite (MethodSwitch_data R T flag Hwf) by exact Hi.
      apply calls_of_case_end.
    + rewrite ChangedLayer_plain by (try assumption; apply Hscalar; scalar_in).
      unfold andThen, calls_of. cbn [fst snd].
      rewrite (MethodSwitch_data R T flag Hwf) by exact Hi.
      fold (calls_of (case_end flag
                        (advance_offset R
                           (push_back
                              (effective_argument R T (loadConstantBuffer_data R i) w s)
                              (set_batchLoadConstantBuffer
                                 {| startOffset :=
                                      Some (registers
                                              (commit R T (loadConstantBuffer_data R i) w s)
                                              (loadConstantBuffer_offset R));
                                    buffer :=
                                      buffer (batchLoadConstantBuffer
                                                (commit R T (loadConstantBuffer_data R i) w s)) |}
                                 (commit R T (loadConstantBuffer_data R i) w s)))))).
      rewrite calls_of_case_end. reflexivity.
Qed.

Lemma batched_data_words_are_not_marked_dirty_witness :
  let first :=
    HandleMethod example_registers example_types true 0x8E4 5 example_state in
  let next :=
    HandleMethod example_registers example_types true 0x8E5 6 (state_of first) in
  calls_of first = [MarkDirty 0x8E4]
  /\ batchLoadConstantBuffer (state_of first)
     = {| startOffset := Some 0; buffer := [5] |}
  /\ calls_of next = []
  /\ registers (state_of next) 0x8E5 = 6
  /\ batchLoadConstantBuffer (state_of next)
     = {| startOffset := Some 0; buffer := [5; 6] |}.
Proof.
  cbv zeta.
  destruct (batched_data_words_are_not_marked_dirty example_registers
              example_types true 0 5 example_state example_well_formed)
    as (_ & _ & _ & _ & _ & _ & Hfirst); [lia |].
  destruct Hfirst as [Hopened Hmarked]; [reflexivity |].
  destruct (batched_data_words_are_not_marked_dirty example_registers
              example_types true 1 6
              (state_of (HandleMethod example_registers example_types true 0x8E4 5
                           example_state)) example_well_formed)
    as (_ & Hreg & _ & _ & _ & Hnext & _); [lia |].
  destruct Hnext as [Hcalls Hrecord]; [reflexivity |].
  split; [apply Hmarked; reflexivity |].
  split; [exact Hopened |].
  split; [exact Hcalls |]. split; [exact Hreg |].
  etransitivity; [exact Hrecord | reflexivity].
Defined.

(** ** The depth target's descriptor *)

Section DepthTarget.
Variable ZtFormat_value : Zt.Format -> Z.
Variable TextureView : Type.
Variable vkAspect : texture.Format -> Z.
Variable GetSize : GuestTexture -> Z.
Variable TranslateRange : Z -> Z -> list (Z * Z).
Variable FindOrCreate : GuestTexture -> option TextureView.
Variable GuestTexture_init : GuestTexture.

(** X24.  A selected depth target whose format converts.  The flush
    returns after exactly two calls, the translation of the range at the
    depth offset of the descriptor's size and the lookup of the descriptor
    with the mappings stored in it.  The descriptor is block-linear with
    depth 1 and takes its aspect from the format.  Its view type follows
    the size register's control field alone: a 2D array of
    [thirdDimension] layers when the third dimension defines the array
    size (also for a single layer), a 2D view of one layer when the array
    size is one, and for any other control value the layer count and view
    type of a value-initialised descriptor, which the flush leaves
    unset. *)
Theorem depth_target_flush_looks_one_view_up regs st sk :
  DepthRenderTargetState.ztSelect_targetCount regs <> 0 ->
  ConvertDepthRenderTargetFormat (DepthRenderTargetState.ztFormat regs) = Ok sk ->
  exists descriptor,
    let size := GetSize descriptor in
    let guest :=
      with_mappings (TranslateRange (DepthRenderTargetState.ztOffset regs) size)
        descriptor in
    DepthRenderTargetState_Flush ZtFormat_value TextureView vkAspect GetSize
      TranslateRange FindOrCreate GuestTexture_init regs st
    = Return
        {| packedState :=
             SetDepthRenderTargetFormat ZtFormat_value
               (DepthRenderTargetState.ztFormat regs) (packedState _ st);
           view := FindOrCreate guest;
           calls :=
             calls _ st
             ++ [Gmmu_TranslateRange (DepthRenderTargetState.ztOffset regs) size;
                 TextureManager_FindOrCreate guest] |}
    /\ guest_format descriptor = Some sk
    /\ guest_aspect descriptor = vkAspect sk
    /\ texture.dim_depth (guest_dimensions descriptor) = 1
    /\ guest_tileConfig descriptor
       = texture.Block
           (Zt.BlockHeight (DepthRenderTargetState.ztBlockSize regs))
           (Zt.BlockDepth (DepthRenderTargetState.ztBlockSize regs))
    /\ match Zt.control (DepthRenderTargetState.ztSize regs) with
       | Zt.ThirdDimensionDefinesArraySize =>
           guest_layerCount descriptor
           = Zt.thirdDimension (DepthRenderTargetState.ztSize regs)
           /\ guest_viewType descriptor = vk.e2DArray
       | Zt.ArraySizeIsOne =>
           guest_layerCount descriptor = 1
           /\ guest_viewType descriptor = vk.e2D
       | Zt.Control_other _ =>
           guest_layerCount descriptor = guest_layerCount GuestTexture_init
           /\ guest_viewType descriptor = guest_viewType GuestTexture_init
       end.
Proof.
  intros Hcount Hconv. unfold DepthRenderTargetState_Flush.
  apply Z.eqb_neq in Hcount. rewrite Hcount, Hconv.
  destruct (Zt.control (DepthRenderTargetState.ztSize regs));
    cbv beta iota zeta; unfold acquire_view; eexists;
    (split; [reflexivity |]); cbn; repeat split; reflexivity.
Qed.

End DepthTarget.

Lemma depth_target_flush_looks_one_view_up_witness :
  exists descriptor,
    DepthRenderTargetState_Flush example_zt_value GuestTexture
      (fun _ => 6) (fun _ => 0x1000) (fun a n => [(a, n)]) Some example_guest
      example_depth_array_target
      {| packedState := example_packed_state; view := None; calls := [] |}
    = Return
        {| packedState :=
             SetDepthRenderTargetFormat example_zt_value Zt.Z24S8
               example_packed_state;
           view := Some (with_mappings [(0x20000, 0x1000)] descriptor);
           calls := [Gmmu_TranslateRange 0x20000 0x1000;
                     TextureManager_FindOrCreate
                       (with_mappings [(0x20000, 0x1000)] descriptor)] |}
    /\ guest_layerCount descriptor = 1
    /\ guest_viewType descriptor = vk.e2DArray.
Proof.
  destruct (depth_target_flush_looks_one_view_up example_zt_value GuestTexture
              (fun _ => 6) (fun _ => 0x1000) (fun a n => [(a, n)]) Some
              example_guest example_depth_array_target
              {| packedState := example_packed_state; view := None; calls := [] |}
              texture.S8UintD24Unorm)
    as (descriptor & Hflush & _ & _ & _ & _ & Hlayers & Hview).
  - vm_compute. discriminate.
  - reflexivity.
  - exists descriptor. split; [exact Hflush |]. split; [exact Hlayers | exact Hview].
Defined.
